(** * Microsoft Stream extractor (yt_dlp/extractor/microsoftstream.py)

    A shallow embedding of [MicrosoftStreamIE]: the Python values the
    extractor manipulates (parsed JSON), the exceptions it can raise, the
    network requests it issues, and the three methods of the class,
    [_get_all_subtitles], [extract_all_subtitles] and [_real_extract].

    Strings are Rocq [string]s (sequences of 8-bit characters); JSON
    numbers are restricted to integers. *)

From Stdlib Require Import ZArith NArith List String Ascii Bool Lia Permutation.
Import ListNotations.
Local Open Scope string_scope.
Local Open Scope list_scope.
Set Warnings "-register-all".

(** ** Python values, exceptions and results *)

Module Py.

(** A parsed JSON document, as [json.loads] builds it.  A [VDict] keeps
    its items in insertion order, as a Python dict does. *)
Inductive value : Type :=
| VNone
| VBool (b : bool)
| VInt (n : Z)
| VStr (s : string)
| VList (items : list value)
| VDict (items : list (value * value)).

Definition dict : Type := list (value * value).

Inductive exn : Type :=
| AttributeError
| KeyError (key : value)
| TypeError
| IndexError
| ValueError
| BinasciiError
| DownloadError (url : string)
| RegexNotFoundError (name : string)
| LoginRequiredError (method : string).

Inductive result (A : Type) : Type :=
| Ok (a : A)
| Raise (e : exn).
Arguments Ok {A} a.
Arguments Raise {A} e.

Definition rbind {A B} (r : result A) (f : A -> result B) : result B :=
  match r with
  | Ok a => f a
  | Raise e => Raise e
  end.

(** Truth value testing ([bool(v)]). *)
Definition truthy (v : value) : bool :=
  match v with
  | VNone => false
  | VBool b => b
  | VInt n => negb (n =? 0)%Z
  | VStr s => negb (s =? "")%string
  | VList l => match l with [] => false | _ :: _ => true end
  | VDict d => match d with [] => false | _ :: _ => true end
  end.

(** [a or b]. *)
Definition py_or (a b : value) : value := if truthy a then a else b.

Definition is_none (v : value) : bool :=
  match v with VNone => true | _ => false end.

(** [isinstance(v, str)] and [isinstance(v, int)]; [bool] is a subclass
    of [int]. *)
Definition is_str (v : value) : bool :=
  match v with VStr _ => true | _ => false end.
Definition is_int (v : value) : bool :=
  match v with VInt _ | VBool _ => true | _ => false end.

(** Lists and dicts are unhashable; they cannot be dict keys. *)
Definition hashable (v : value) : bool :=
  match v with VList _ | VDict _ => false | _ => true end.

(** Equality of two hashable keys ([True == 1], [False == 0]). *)
Definition key_eqb (a b : value) : bool :=
  match a, b with
  | VNone, VNone => true
  | VStr s, VStr t => (s =? t)%string
  | VInt n, VInt m => (n =? m)%Z
  | VBool x, VBool y => Bool.eqb x y
  | VBool x, VInt m => (Z.b2z x =? m)%Z
  | VInt n, VBool y => (n =? Z.b2z y)%Z
  | _, _ => false
  end.

Fixpoint dict_get (k : value) (d : dict) : option value :=
  match d with
  | [] => None
  | (k', v) :: rest => if key_eqb k k' then Some v else dict_get k rest
  end.

Definition dict_mem (k : value) (d : dict) : bool :=
  match dict_get k d with Some _ => true | None => false end.

(** [d[k] = v]: an existing key keeps its place, a new one goes last. *)
Fixpoint dict_set (k v : value) (d : dict) : dict :=
  match d with
  | [] => [(k, v)]
  | (k', v') :: rest =>
      if key_eqb k k' then (k', v) :: rest else (k', v') :: dict_set k v rest
  end.

(** [d.update(e)], and a dict display [{k1: v1, ..., **e, ...}], which
    stores its items from left to right. *)
Definition dict_update (d e : dict) : dict :=
  fold_left (fun acc kv => dict_set (fst kv) (snd kv) acc) e d.

Definition dict_display (items : dict) : dict := dict_update [] items.

Definition key (s : string) : value := VStr s.

(** [x.get(k)] for a string [k]: only dicts have the method. *)
Definition get_method (x : value) (k : string) : result value :=
  match x with
  | VDict d =>
      match dict_get (key k) d with
      | Some v => Ok v
      | None => Ok VNone
      end
  | _ => Raise AttributeError
  end.

(** [x[k]] for a string [k]: a missing key is a [KeyError]; lists and
    strings take integer indices only, the other values are not
    subscriptable. *)
Definition getitem (x : value) (k : string) : result value :=
  match x with
  | VDict d =>
      match dict_get (key k) d with
      | Some v => Ok v
      | None => Raise (KeyError (key k))
      end
  | _ => Raise TypeError
  end.

(** The elements a [for] loop visits. *)
Definition iterate (x : value) : result (list value) :=
  match x with
  | VList l => Ok l
  | VDict d => Ok (map fst d)
  | VStr s => Ok (map (fun c => VStr (String c EmptyString)) (list_ascii_of_string s))
  | _ => Raise TypeError
  end.

(** [x == s] for a string literal [s]. *)
Definition eq_str (x : value) (s : string) : bool :=
  match x with VStr t => (t =? s)%string | _ => false end.

End Py.
Export Py.

Notation "x <-? r ; k" := (rbind r (fun x => k))
  (at level 61, r at next level, right associativity).

(** ** Characters and text *)

Module Text.

Definition code (c : ascii) : N := N_of_ascii c.

Definition in_range (lo hi : N) (c : ascii) : bool :=
  ((lo <=? code c) && (code c <=? hi))%N.

Definition is_digit (c : ascii) : bool := in_range 48 57 c.
Definition is_upper (c : ascii) : bool := in_range 65 90 c.
Definition is_lower (c : ascii) : bool := in_range 97 122 c.
Definition is_alnum (c : ascii) : bool := is_digit c || is_upper c || is_lower c.
(** [\w] and [\s] of Python's [re] on the ASCII range. *)
Definition is_word (c : ascii) : bool := is_alnum c || (code c =? 95)%N.
Definition is_space (c : ascii) : bool :=
  in_range 9 13 c || in_range 28 32 c.

Definition chr (n : N) : ascii := ascii_of_N n.
Definition dquote : ascii := chr 34.
Definition squote : ascii := chr 39.
Definition backslash : ascii := chr 92.

(** [needle in haystack]. *)
Fixpoint contains (needle haystack : string) : bool :=
  prefix needle haystack
  || match haystack with
     | EmptyString => false
     | String _ rest => contains needle rest
     end.

(** The rest of [s] after the prefix [p], when [s] starts with [p]. *)
Fixpoint strip_prefix (p s : string) : option string :=
  match p, s with
  | EmptyString, _ => Some s
  | String a p', String b s' =>
      if Ascii.eqb a b then strip_prefix p' s' else None
  | String _ _, EmptyString => None
  end.

(** [c * n]. *)
Fixpoint replicate (n : nat) (c : ascii) : string :=
  match n with
  | O => EmptyString
  | S n' => String c (replicate n' c)
  end.

(** The longest prefix of characters satisfying [p], and the rest. *)
Fixpoint span (p : ascii -> bool) (s : list ascii) : list ascii * list ascii :=
  match s with
  | [] => ([], [])
  | c :: rest =>
      if p c then let (a, b) := span p rest in (c :: a, b) else ([], s)
  end.

(** [int(digits)] for a run of ASCII digits. *)
Definition digit_val (c : ascii) : Z := Z.of_N (code c) - 48.
Definition int_of_digits (ds : list ascii) : Z :=
  fold_left (fun acc c => 10 * acc + digit_val c)%Z ds 0%Z.

End Text.
Export Text.

(** ** The standard library: [base64.b64decode] and [str] of [bytes] *)

Module Base64.

(** The value of a character of the standard base64 alphabet
    ([A-Z], [a-z], [0-9], [+], [/]). *)
Definition b64_index (c : ascii) : option N :=
  if is_upper c then Some (code c - 65)%N
  else if is_lower c then Some (code c - 97 + 26)%N
  else if is_digit c then Some (code c - 48 + 52)%N
  else if (code c =? 43)%N then Some 62%N
  else if (code c =? 47)%N then Some 63%N
  else None.

Definition is_pad (c : ascii) : bool := (code c =? 61)%N.

(** [binascii.a2b_base64] in its default, non-strict mode.  Characters
    outside the alphabet are skipped; [quad_pos] counts the data
    characters of the current group of four, [leftchar] holds the bits
    not yet written, [pads] the pad characters seen since the last data
    character, [out] the bytes decoded so far in reverse.  A pad sequence
    that completes a group ends the decoding; data left in an incomplete
    group at the end of input is an error. *)
Fixpoint a2b_base64_loop (data : list ascii) (quad_pos : nat) (leftchar : N)
    (pads : nat) (out : list ascii) : result (list ascii) :=
  match data with
  | [] =>
      match quad_pos with
      | O => Ok (rev out)
      | _ => Raise BinasciiError
      end
  | c :: rest =>
      if is_pad c then
        if (2 <=? quad_pos)%nat then
          if (4 <=? quad_pos + S pads)%nat then Ok (rev out)
          else a2b_base64_loop rest quad_pos leftchar (S pads) out
        else a2b_base64_loop rest quad_pos leftchar pads out
      else
        match b64_index c with
        | None => a2b_base64_loop rest quad_pos leftchar pads out
        | Some v =>
            match quad_pos with
            | 0%nat => a2b_base64_loop rest 1 v 0 out
            | 1%nat =>
                a2b_base64_loop rest 2 (N.land v 15) 0
                  (chr (N.lor (N.shiftl leftchar 2) (N.shiftr v 4)) :: out)
            | 2%nat =>
                a2b_base64_loop rest 3 (N.land v 3) 0
                  (chr (N.lor (N.shiftl leftchar 4) (N.shiftr v 2)) :: out)
            | _ =>
                a2b_base64_loop rest 0 0 0
                  (chr (N.lor (N.shiftl leftchar 6) v) :: out)
            end
        end
  end.

Definition a2b_base64 (data : list ascii) : result (list ascii) :=
  a2b_base64_loop data 0 0 0 [].

Definition is_ascii (c : ascii) : bool := (code c <? 128)%N.

(** [b64decode(s)] for a [str] argument: the text is first encoded as
    ASCII, which fails on any other character. *)
Definition b64decode (s : string) : result (list ascii) :=
  let data := list_ascii_of_string s in
  if forallb is_ascii data then a2b_base64 data else Raise ValueError.

Definition hexdigit (n : N) : ascii :=
  if (n <? 10)%N then chr (48 + n) else chr (97 + (n - 10)).

Definition repr_byte (quote c : ascii) : list ascii :=
  if Ascii.eqb c quote || Ascii.eqb c backslash then [backslash; c]
  else if (code c =? 9)%N then [backslash; "t"%char]
  else if (code c =? 10)%N then [backslash; "n"%char]
  else if (code c =? 13)%N then [backslash; "r"%char]
  else if (code c <? 32)%N || (127 <=? code c)%N then
    [backslash; "x"%char; hexdigit (N.shiftr (code c) 4); hexdigit (N.land (code c) 15)]
  else [c].

(** [str(b)] for a [bytes] object [b]: its [repr], [b'...'], in double
    quotes when the bytes hold a single quote and no double quote. *)
Definition bytes_str (b : list ascii) : string :=
  let quote :=
    if existsb (Ascii.eqb squote) b && negb (existsb (Ascii.eqb dquote) b)
    then dquote else squote in
  string_of_list_ascii
    ("b"%char :: quote :: flat_map (repr_byte quote) b ++ [quote]).

End Base64.
Export Base64.

(** ** The framework's helpers ([yt_dlp.utils]) *)

(** [try_get], [merge_dicts] and [parse_resolution] are imported from
    [..utils] (lines 4-11); their code is outside the extractor's file,
    and they are given here as the framework defines them. *)

Module Utils.

(** The exceptions [try_get] swallows. *)
Definition try_get_catches (e : exn) : bool :=
  match e with
  | AttributeError | KeyError _ | TypeError | IndexError => true
  | _ => false
  end.

(** [try_get(src, getter, expected_type)]: the first getter that neither
    fails with one of the four exceptions above nor yields a value of
    the wrong type gives the result; [None] when there is none. *)
Fixpoint try_get (src : value) (getters : list (value -> result value))
    (expected_type : option (value -> bool)) : result value :=
  match getters with
  | [] => Ok VNone
  | get :: rest =>
      match get src with
      | Ok v =>
          match expected_type with
          | None => Ok v
          | Some isinstance =>
              if isinstance v then Ok v else try_get src rest expected_type
          end
      | Raise e =>
          if try_get_catches e then try_get src rest expected_type
          else Raise e
      end
  end.

(** One round of [merge_dicts]: the items of [a_dict] are visited in
    order; a [None] value is skipped; a value is stored when its key is
    new, or when it is a non-empty string and the stored value is the
    empty string.  So the first dict that has a value for a key wins. *)
Definition merge_item (merged : dict) (kv : value * value) : dict :=
  let (k, v) := kv in
  if is_none v then merged
  else
    match dict_get k merged with
    | None => dict_set k v merged
    | Some old =>
        if is_str v && truthy v && is_str old && negb (truthy old)
        then dict_set k v merged else merged
    end.

Definition merge_dicts (dicts : list dict) : dict :=
  fold_left (fun merged a_dict => fold_left merge_item a_dict merged) dicts [].

(** [re.search]: the first position of [s] at which [m] matches; [m]
    sees the character before the position, for look-behind. *)
Fixpoint re_search {A} (m : option ascii -> list ascii -> option A)
    (prev : option ascii) (s : list ascii) : option A :=
  match m prev s with
  | Some r => Some r
  | None =>
      match s with
      | [] => None
      | c :: rest => re_search m (Some c) rest
      end
  end.

Definition not_alnum_before (prev : option ascii) : bool :=
  match prev with Some c => negb (is_alnum c) | None => true end.
Definition not_alnum_next (s : list ascii) : bool :=
  match s with c :: _ => negb (is_alnum c) | [] => true end.
Definition not_word_before (prev : option ascii) : bool :=
  match prev with Some c => negb (is_word c) | None => true end.
Definition not_word_next (s : list ascii) : bool :=
  match s with c :: _ => negb (is_word c) | [] => true end.

Definition is_sep (c : ascii) : bool :=
  Ascii.eqb c "x" || Ascii.eqb c "X" || Ascii.eqb c ",".

(** [(?<![a-zA-Z0-9])(?P<w>\d+)\s*[xX,]\s*(?P<h>\d+)(?![a-zA-Z0-9])] at one
    position.  Each greedy run is taken whole: a shorter run would leave
    a character of the run where the pattern needs another kind. *)
Definition match_wxh (prev : option ascii) (s : list ascii) : option (Z * Z) :=
  if not_alnum_before prev then
    match span is_digit s with
    | ([], _) => None
    | (w, r1) =>
        match snd (span is_space r1) with
        | sep :: r2 =>
            if is_sep sep then
              match span is_digit (snd (span is_space r2)) with
              | ([], _) => None
              | (h, r3) =>
                  if not_alnum_next r3
                  then Some (int_of_digits w, int_of_digits h) else None
              end
            else None
        | [] => None
        end
    end
  else None.

(** [(?<![a-zA-Z0-9])(\d+)[pPiI](?![a-zA-Z0-9])] at one position. *)
Definition match_p (prev : option ascii) (s : list ascii) : option Z :=
  if not_alnum_before prev then
    match span is_digit s with
    | ([], _) => None
    | (h, c :: r) =>
        if (Ascii.eqb c "p" || Ascii.eqb c "P" || Ascii.eqb c "i" || Ascii.eqb c "I")
           && not_alnum_next r
        then Some (int_of_digits h) else None
    | (_, []) => None
    end
  else None.

(** [\b([48])[kK]\b] at one position. *)
Definition match_k (prev : option ascii) (s : list ascii) : option Z :=
  match s with
  | d :: k :: r =>
      if not_word_before prev
         && (Ascii.eqb d "4" || Ascii.eqb d "8")
         && (Ascii.eqb k "k" || Ascii.eqb k "K")
         && not_word_next r
      then Some (digit_val d * 540)%Z else None
  | _ => None
  end.

(** [parse_resolution(s)] on ASCII text (the extractor passes the [str]
    of a [bytes] object, which is ASCII). *)
Definition parse_resolution (s : string) : dict :=
  let cs := list_ascii_of_string s in
  match re_search match_wxh None cs with
  | Some (w, h) => [(key "width", VInt w); (key "height", VInt h)]
  | None =>
      match re_search match_p None cs with
      | Some h => [(key "height", VInt h)]
      | None =>
          match re_search match_k None cs with
          | Some h => [(key "height", VInt h)]
          | None => []
          end
      end
  end.

End Utils.
Export Utils.

(** ** The extractor *)

Module MicrosoftStreamIE.

Definition headers : Type := list (string * string).

(** What the extractor asks of the network, through the framework. *)
Inductive request : Type :=
| GetWebpage (url : string)
| GetJson (url : string) (query : list (string * string)) (hdrs : headers)
| GetM3u8 (url video_id : value) (hdrs : headers)
| GetMpd (url video_id : value) (hdrs : headers)
| GetIsm (url video_id : value) (hdrs : headers).

(** The host framework and the world it reaches: the downloader's
    options, what the network answers ([None] when a download fails),
    and the helpers of [InfoExtractor] and [yt_dlp.utils] whose code is
    outside this file.

    Modelled from the spec: the manifest resolvers are called with
    [fatal=False] and give no formats when they fail; [_sort_formats] is
    the framework's quality ranking; [parse_iso8601] and [parse_duration]
    are permissive; [url_basename] is the final path segment of a URL;
    [html_search] is the first group of a pattern found in the markup;
    [py_repr] is [str] of a value that is not a string. *)
Record host : Type := {
  params : dict;
  webpage_of : string -> option string;
  json_of : string -> list (string * string) -> headers -> option value;
  _extract_m3u8_formats : value -> value -> headers -> list dict;
  _extract_mpd_formats : value -> value -> headers -> list dict;
  _extract_ism_formats : value -> value -> headers -> list dict;
  _sort_formats : list dict -> list dict;
  html_search : string -> string -> option string;
  url_basename : string -> string;
  parse_iso8601 : value -> value;
  parse_duration : value -> value;
  py_repr : value -> string
}.

(** A computation of the extractor: its result, or the exception that
    ended it, with the requests issued on the way, in order. *)
Definition M (A : Type) : Type := result A * list request.

Definition ret {A} (a : A) : M A := (Ok a, []).
Definition raise {A} (e : exn) : M A := (Raise e, []).
Definition lift {A} (r : result A) : M A := (r, []).
Definition bind {A B} (m : M A) (f : A -> M B) : M B :=
  match m with
  | (Ok a, t) => let (r, t') := f a in (r, t ++ t')
  | (Raise e, t) => (Raise e, t)
  end.

Notation "x <- m ;; k" := (bind m (fun x => k))
  (at level 61, m at next level, right associativity).

(** [_VALID_URL], matched from the start of the URL as [re.match] does:
    [https?://(?:web|www|msit)\.microsoftstream\.com/video/(?P<id>...)]
    with the id [[\da-f]{8}-[\da-f]{4}-[\da-f]{4}-[\da-f]{4}-[\da-f]{12}]. *)
Definition is_hex (c : ascii) : bool := is_digit c || in_range 97 102 c.

(** Exactly [n] characters of [[\da-f]] at the start of [s]. *)
Fixpoint take_hex (n : nat) (s : string) : option (string * string) :=
  match n with
  | O => Some (EmptyString, s)
  | S n' =>
      match s with
      | String c rest =>
          if is_hex c then
            match take_hex n' rest with
            | Some (a, b) => Some (String c a, b)
            | None => None
            end
          else None
      | EmptyString => None
      end
  end.

Definition obind {A B} (o : option A) (f : A -> option B) : option B :=
  match o with Some a => f a | None => None end.

Definition match_uuid (s : string) : option string :=
  obind (take_hex 8 s) (fun '(g1, r) =>
  obind (strip_prefix "-" r) (fun r =>
  obind (take_hex 4 r) (fun '(g2, r) =>
  obind (strip_prefix "-" r) (fun r =>
  obind (take_hex 4 r) (fun '(g3, r) =>
  obind (strip_prefix "-" r) (fun r =>
  obind (take_hex 4 r) (fun '(g4, r) =>
  obind (strip_prefix "-" r) (fun r =>
  obind (take_hex 12 r) (fun '(g5, _) =>
  Some (g1 ++ "-" ++ g2 ++ "-" ++ g3 ++ "-" ++ g4 ++ "-" ++ g5)%string))))))))).

Definition match_host (s : string) : option string :=
  match strip_prefix "web" s with
  | Some r => Some r
  | None =>
      match strip_prefix "www" s with
      | Some r => Some r
      | None => strip_prefix "msit" s
      end
  end.

Definition match_valid_url (url : string) : option string :=
  obind (strip_prefix "http" url) (fun r =>
  let r := match strip_prefix "s" r with Some r' => r' | None => r end in
  obind (strip_prefix "://" r) (fun r =>
  obind (match_host r) (fun r =>
  obind (strip_prefix ".microsoftstream.com/video/" r) match_uuid))).

(** [_match_id(url)]: the [id] group; on a URL that does not match,
    [.group] is looked up on [None]. *)
Definition _match_id (url : string) : result string :=
  match match_valid_url url with
  | Some id => Ok id
  | None => Raise AttributeError
  end.

Definition title_marker : string := "<title>Microsoft Stream</title>".

Definition quoted (s : string) : string :=
  (String dquote s ++ String dquote EmptyString)%string.

(** The two patterns searched in the page, ["AccessToken":"(.+?)"] and
    ["ApiGatewayUri":"(.+?)"]. *)
Definition access_token_re : string :=
  (quoted "AccessToken" ++ ":" ++ quoted "(.+?)")%string.
Definition api_url_re : string :=
  (quoted "ApiGatewayUri" ++ ":" ++ quoted "(.+?)")%string.

Definition api_version : string * string := ("api-version", "1.4-private").

Definition thumbnail_ids : list string := ["extraSmall"; "small"; "medium"; "large"].

Section Extractor.

Variable H : host.

(** [self.get_param(name, default)]. *)
Definition get_param (name : string) (default : value) : value :=
  match dict_get (key name) (params H) with
  | Some v => v
  | None => default
  end.

(** [_download_webpage(url, video_id)]: fatal. *)
Definition _download_webpage (url : string) : M string :=
  (match webpage_of H url with
   | Some page => Ok page
   | None => Raise (DownloadError url)
   end, [GetWebpage url]).

(** [_download_json(url, video_id, fatal=..., headers=..., query=...)]:
    a failed download raises when [fatal], and returns [False]
    otherwise. *)
Definition _download_json (url : string) (query : list (string * string))
    (hdrs : headers) (fatal : bool) : M value :=
  (match json_of H url query hdrs with
   | Some v => Ok v
   | None => if fatal then Raise (DownloadError url) else Ok (VBool false)
   end, [GetJson url query hdrs]).

(** [_html_search_regex(pattern, webpage, name)]: fatal. *)
Definition _html_search_regex (pattern webpage name : string) : M string :=
  match html_search H pattern webpage with
  | Some s => ret s
  | None => raise (RegexNotFoundError name)
  end.

(** [raise_login_required(method=...)]. *)
Definition raise_login_required {A} (method : string) : M A :=
  raise (LoginRequiredError method).

(** A value interpolated in an f-string. *)
Definition fstr (v : value) : string :=
  match v with VStr s => s | _ => py_repr H v end.

Definition texttracks_url (api_url : string) (video_id : value) : string :=
  (api_url ++ "/videos/" ++ fstr video_id ++ "/texttracks")%string.

(** [sub_dict.setdefault(language, []).append(entry)]. *)
Fixpoint setdefault_append (language entry : value) (sub_dict : list (value * list value))
    : list (value * list value) :=
  match sub_dict with
  | [] => [(language, [entry])]
  | (k, l) :: rest =>
      if key_eqb language k then (k, l ++ [entry]) :: rest
      else (k, l) :: setdefault_append language entry rest
  end.

Definition sub_maps : Type := list (value * list value) * list (value * list value).

(** The body of the loop over the text tracks (lines 35-41); the state
    is the pair [(subtitles, automatic_captions)]. *)
Definition add_track (maps : sub_maps) (track : value) : result sub_maps :=
  let (subtitles, automatic_captions) := maps in
  language <-? get_method track "language";
  if negb (truthy language) then Ok maps else
  url <-? get_method track "url";
  if negb (truthy url) then Ok maps else
  auto <-? get_method track "autoGenerated";
  language <-? getitem track "language";
  if negb (hashable language) then Raise TypeError else
  url <-? get_method track "url";
  let entry := VDict (dict_display [(key "ext", VStr "vtt"); (key "url", url)]) in
  if truthy auto
  then Ok (subtitles, setdefault_append language entry automatic_captions)
  else Ok (setdefault_append language entry subtitles, automatic_captions).

Fixpoint add_tracks (maps : sub_maps) (tracks : list value) : result sub_maps :=
  match tracks with
  | [] => Ok maps
  | track :: rest => maps' <-? add_track maps track; add_tracks maps' rest
  end.

Definition sub_dict_value (d : list (value * list value)) : value :=
  VDict (map (fun kl => (fst kl, VList (snd kl))) d).

(** Lines 27-45. *)
Definition _get_all_subtitles (api_url : string) (video_id : value)
    (hdrs : headers) : M dict :=
  response <- _download_json (texttracks_url api_url video_id) [api_version] hdrs false ;;
  tracks_value <- lift (get_method response "value") ;;
  let text_tracks := py_or tracks_value (VList []) in
  tracks <- lift (iterate text_tracks) ;;
  maps <- lift (add_tracks ([], []) tracks) ;;
  ret (dict_display
         [(key "subtitles", sub_dict_value (fst maps));
          (key "automatic_captions", sub_dict_value (snd maps))]).

Definition subtitles_requested : bool :=
  truthy (get_param "writesubtitles" (VBool false))
  || truthy (get_param "writeautomaticsub" (VBool false))
  || truthy (get_param "listsubtitles" VNone).

(** Lines 47-52. *)
Definition extract_all_subtitles (api_url : string) (video_id : value)
    (hdrs : headers) : M dict :=
  if subtitles_requested then _get_all_subtitles api_url video_id hdrs
  else ret (dict_display []).

(** [lambda x: x['posterImage'][thumbnail_id]['url']]. *)
Definition poster_url (thumbnail_id : string) (x : value) : result value :=
  a <-? getitem x "posterImage";
  b <-? getitem a thumbnail_id;
  getitem b "url".

(** [thumb_name + '=' * (-len(thumb_name) % 4)]. *)
Definition pad4 (thumb_name : string) : string :=
  (thumb_name
   ++ replicate (Z.to_nat ((- Z.of_nat (String.length thumb_name)) mod 4)) "=")%string.

(** One round of the loop of lines 75-86: [None] when the size label is
    skipped, the thumbnail otherwise. *)
Definition thumbnail (video_data : value) (thumbnail_id : string)
    : result (option dict) :=
  thumbnail_url <-? try_get video_data [poster_url thumbnail_id] (Some is_str);
  if negb (truthy thumbnail_url) then Ok None else
  match thumbnail_url with
  | VStr url =>
      let thumb := dict_display [(key "id", VStr thumbnail_id); (key "url", VStr url)] in
      let thumb_name := url_basename H url in
      decoded <-? b64decode (pad4 thumb_name);
      let thumb_name := bytes_str decoded in
      Ok (Some (dict_update thumb (parse_resolution thumb_name)))
  | _ => Raise TypeError
  end.

Fixpoint thumbnails_loop (video_data : value) (ids : list string)
    (thumbnails : list dict) : result (list dict) :=
  match ids with
  | [] => Ok thumbnails
  | thumbnail_id :: rest =>
      t <-? thumbnail video_data thumbnail_id;
      thumbnails_loop video_data rest
        (match t with Some thumb => thumbnails ++ [thumb] | None => thumbnails end)
  end.

(** A call of a manifest resolver. *)
Definition resolve (r : request) (formats : list dict) : M (list dict) :=
  (Ok formats, [r]).

(** One round of the loop of lines 89-102: the formats one playlist entry
    contributes.  [playlist['mimeType']] is read again at each [elif];
    it is read once here, its value being the same each time. *)
Definition playlist_formats (video_id : value) (hdrs : headers)
    (playlist : value) : M (list dict) :=
  mime <- lift (getitem playlist "mimeType") ;;
  if eq_str mime "application/vnd.apple.mpegurl" then
    url <- lift (getitem playlist "playbackUrl") ;;
    resolve (GetM3u8 url video_id hdrs) (_extract_m3u8_formats H url video_id hdrs)
  else if eq_str mime "application/dash+xml" then
    url <- lift (getitem playlist "playbackUrl") ;;
    resolve (GetMpd url video_id hdrs) (_extract_mpd_formats H url video_id hdrs)
  else if eq_str mime "application/vnd.ms-sstr+xml" then
    url <- lift (getitem playlist "playbackUrl") ;;
    resolve (GetIsm url video_id hdrs) (_extract_ism_formats H url video_id hdrs)
  else ret [].

Fixpoint formats_loop (video_id : value) (hdrs : headers)
    (playlists : list value) (formats : list dict) : M (list dict) :=
  match playlists with
  | [] => ret formats
  | playlist :: rest =>
      fs <- playlist_formats video_id hdrs playlist ;;
      formats_loop video_id hdrs rest (formats ++ fs)
  end.

(** Line 103: [merge_dicts(f, {'language': language})]. *)
Definition tag_language (language : value) (f : dict) : dict :=
  merge_dicts [f; dict_display [(key "language", language)]].

Definition creator_field (field : string) (x : value) : result value :=
  a <-? getitem x "creator"; getitem a field.
Definition media_duration (x : value) : result value :=
  a <-? getitem x "media"; getitem a "duration".
Definition metric (field : string) (x : value) : result value :=
  a <-? getitem x "metrics"; getitem a field.

Definition dict_list (l : list dict) : value := VList (map VDict l).

(** Lines 54-122. *)
Definition _real_extract (url : string) : M dict :=
  url_id <- lift (_match_id url) ;;
  webpage <- _download_webpage url ;;
  _ <- (if contains title_marker webpage then ret tt
        else raise_login_required "cookies") ;;
  access_token <- _html_search_regex access_token_re webpage "access token" ;;
  api_url <- _html_search_regex api_url_re webpage "api url" ;;
  let hdrs := [("Authorization", ("Bearer " ++ access_token)%string)] in
  video_data <- _download_json (api_url ++ "/videos/" ++ url_id)%string
                  [("$expand", "creator,tokens,status,liveEvent,extensions"); api_version]
                  hdrs true ;;
  api_id <- lift (get_method video_data "id") ;;
  let video_id := py_or api_id (VStr url_id) in
  language <- lift (get_method video_data "language") ;;
  thumbnails <- lift (thumbnails_loop video_data thumbnail_ids []) ;;
  playback_urls <- lift (getitem video_data "playbackUrls") ;;
  playlists <- lift (iterate playback_urls) ;;
  formats <- formats_loop video_id hdrs playlists [] ;;
  let formats := map (tag_language language) formats in
  let formats := _sort_formats H formats in
  title <- lift (getitem video_data "name") ;;
  description <- lift (get_method video_data "description") ;;
  uploader <- lift (try_get video_data [creator_field "name"] (Some is_str)) ;;
  uploader_id <- lift (try_get video_data [creator_field "mail"; creator_field "id"]
                         (Some is_str)) ;;
  subs <- extract_all_subtitles api_url video_id hdrs ;;
  created <- lift (get_method video_data "created") ;;
  duration <- lift (try_get video_data [media_duration] None) ;;
  view_count <- lift (try_get video_data [metric "views"] (Some is_int)) ;;
  like_count <- lift (try_get video_data [metric "likes"] (Some is_int)) ;;
  comment_count <- lift (try_get video_data [metric "comments"] (Some is_int)) ;;
  ret (dict_display
         ([(key "id", video_id);
           (key "title", title);
           (key "description", description);
           (key "uploader", uploader);
           (key "uploader_id", uploader_id);
           (key "thumbnails", dict_list thumbnails)]
          ++ subs
          ++ [(key "timestamp", parse_iso8601 H created);
              (key "duration", parse_duration H duration);
              (key "webpage_url",
               VStr ("https://web.microsoftstream.com/video/" ++ fstr video_id)%string);
              (key "view_count", view_count);
              (key "like_count", like_count);
              (key "comment_count", comment_count);
              (key "formats", dict_list formats)])).

End Extractor.

End MicrosoftStreamIE.
Export MicrosoftStreamIE.

(** ** Reading a run *)

Definition outcome {A} (m : M A) : result A := fst m.
Definition requests {A} (m : M A) : list request := snd m.

(** A field of the record a run returned. *)
Definition output_field (name : string) (m : M dict) : result (option value) :=
  r <-? outcome m; Ok (dict_get (key name) r).

(** The three mime types the extractor resolves. *)
Definition supported (mime : value) : bool :=
  eq_str mime "application/vnd.apple.mpegurl"
  || eq_str mime "application/dash+xml"
  || eq_str mime "application/vnd.ms-sstr+xml".

(** A playlist entry that has a mime type, and not one of the three. *)
Definition unsupported (playlist : value) : bool :=
  match getitem playlist "mimeType" with
  | Ok mime => negb (supported mime)
  | Raise _ => false
  end.

(** A playlist entry the loop of lines 89-102 handles without an
    exception: a dict with a [mimeType], and with a [playbackUrl] when
    the mime type is one of the three. *)
Definition playable (playlist : value) : bool :=
  match getitem playlist "mimeType" with
  | Ok mime =>
      if supported mime then
        match getitem playlist "playbackUrl" with Ok _ => true | Raise _ => false end
      else true
  | Raise _ => false
  end.

(** ** A concrete world, for examples *)

Module Demo.

Definition url : string :=
  "https://web.microsoftstream.com/video/6e51d928-4f46-4f1c-b141-369925e37b62".
Definition url_id : string := "6e51d928-4f46-4f1c-b141-369925e37b62".

Definition page : string :=
  "<html><head><title>Microsoft Stream</title></head><body></body></html>".
Definition login_page : string :=
  "<html><head><title>Sign in to your account</title></head></html>".

Definition token : string := "eyJ0eXAi".
Definition api_url : string := "https://euwe-1.api.microsoftstream.com/api".
Definition hdrs : headers := [("Authorization", "Bearer eyJ0eXAi")].

(** The text after the last [/]. *)
Fixpoint last_segment_from (acc s : string) : string :=
  match s with
  | EmptyString => acc
  | String c rest =>
      if Ascii.eqb c "/" then last_segment_from EmptyString rest
      else last_segment_from (acc ++ String c EmptyString)%string rest
  end.
Definition last_segment (s : string) : string := last_segment_from EmptyString s.

Definition search (pattern webpage : string) : option string :=
  if (pattern =? access_token_re)%string then Some token
  else if (pattern =? api_url_re)%string then Some api_url
  else None.

Definition is_texttracks (u : string) : bool := contains "/texttracks" u.

(** A world in which the page of [url] is [webpage], the video API
    answers [video], the text-track API answers [tracks], and the DASH
    resolver finds [dash]. *)
Definition world (opts : dict) (webpage : option string) (video tracks : option value)
    (dash : list dict) : host :=
  {| params := opts;
     webpage_of := fun _ => webpage;
     json_of := fun u _ _ => if is_texttracks u then tracks else video;
     _extract_m3u8_formats := fun _ _ _ => [];
     _extract_mpd_formats := fun _ _ _ => dash;
     _extract_ism_formats := fun _ _ _ => [];
     _sort_formats := fun l => l;
     html_search := search;
     url_basename := last_segment;
     parse_iso8601 := fun v => v;
     parse_duration := fun v => v;
     py_repr := fun _ => "?" |}.

Definition obj (items : list (string * value)) : value :=
  VDict (map (fun kv => (key (fst kv), snd kv)) items).

Definition write_subs : dict := [(key "writesubtitles", VBool true)].

(** The three tracks of the spec's example. *)
Definition tracks : list value :=
  [obj [("language", VStr "en"); ("url", VStr "u1"); ("autoGenerated", VBool false)];
   obj [("language", VStr "en"); ("url", VStr "u2"); ("autoGenerated", VBool true)];
   obj [("language", VStr "fr"); ("url", VStr "u3")]].

Definition vtt (u : string) : value := obj [("ext", VStr "vtt"); ("url", VStr u)].

Definition dash_entry : value :=
  obj [("mimeType", VStr "application/dash+xml"); ("playbackUrl", VStr "https://cdn/manifest.mpd")].
Definition other_entry : value :=
  obj [("mimeType", VStr "video/webm"); ("playbackUrl", VStr "https://cdn/video.webm")].

Definition dash_formats : list dict :=
  [[(key "format_id", VStr "dash-video"); (key "url", VStr "https://cdn/v.mp4")];
   [(key "format_id", VStr "dash-audio"); (key "language", VStr "fr")]].

(** A minimal video record: a name and a playlist of one DASH entry. *)
Definition minimal_items : dict :=
  [(key "name", VStr "Town hall"); (key "playbackUrls", VList [dash_entry])].
Definition minimal_video : value := VDict minimal_items.

(** A video record with a poster image whose name is the base64 of
    [1280x720.jpg]. *)
Definition video : value :=
  obj [("id", VStr "b60f5987-aabd-4e1c-a42f-c559d138f2ca");
       ("name", VStr "Town hall");
       ("language", VStr "en");
       ("posterImage",
        obj [("medium", obj [("url", VStr "https://cdn/img/MTI4MHg3MjAuanBn")])]);
       ("playbackUrls", VList [other_entry; dash_entry])].

(** Two runs: one on the minimal record, one on [video] with the
    subtitle options off. *)
Definition minimal_world : host :=
  world [] (Some page) (Some minimal_video) None dash_formats.
Definition video_world : host :=
  world [] (Some page) (Some video) None dash_formats.

Definition record_of (m : M dict) : dict :=
  match fst m with Ok r => r | Raise _ => [] end.

Definition minimal_record : dict :=
  Eval vm_compute in record_of (_real_extract minimal_world url).
Definition minimal_requests : list request :=
  Eval vm_compute in snd (_real_extract minimal_world url).
Definition video_record : dict :=
  Eval vm_compute in record_of (_real_extract video_world url).
Definition video_requests : list request :=
  Eval vm_compute in snd (_real_extract video_world url).

End Demo.

(** ** What the claims speak of *)

(** [d.get(name)] on the items of a JSON object. *)
Definition field (d : dict) (name : string) : value :=
  match dict_get (key name) d with
  | Some v => v
  | None => VNone
  end.

(** [track.get(name)], [None] where the track has no such method. *)
Definition track_field (name : string) (track : value) : value :=
  match get_method track name with
  | Ok v => v
  | Raise _ => VNone
  end.

(** A track with a language and a URL (neither absent, null nor empty). *)
Definition kept (track : value) : bool :=
  truthy (track_field "language" track) && truthy (track_field "url" track).

Definition auto_generated (track : value) : bool :=
  truthy (track_field "autoGenerated" track).

Definition descriptor (track : value) : value :=
  VDict [(key "ext", VStr "vtt"); (key "url", track_field "url" track)].

(** The descriptors of the kept tracks of one language and one kind
    (automatic or not), in the order of the track list. *)
Definition tracks_of (auto : bool) (language : value) (tracks : list value)
    : list value :=
  map descriptor
    (filter (fun t => kept t && Bool.eqb (auto_generated t) auto
                      && key_eqb language (track_field "language" t))
       tracks).

(** The entry of a subtitle map for a language: none when no track of
    the language is kept. *)
Definition grouped (auto : bool) (language : value) (tracks : list value)
    : option value :=
  match tracks_of auto language tracks with
  | [] => None
  | l => Some (VList l)
  end.

(** A track the loop handles without an exception: a JSON object whose
    language, when the track is kept, can be a dict key. *)
Definition track_ok (track : value) : bool :=
  match track with
  | VDict _ => negb (kept track) || hashable (track_field "language" track)
  | _ => false
  end.

(** The formats one playable playlist entry contributes, and the request
    it costs. *)
Definition entry_formats (H : host) (video_id : value) (hdrs : headers)
    (playlist : value) : list dict :=
  let mime := track_field "mimeType" playlist in
  let url := track_field "playbackUrl" playlist in
  if eq_str mime "application/vnd.apple.mpegurl" then _extract_m3u8_formats H url video_id hdrs
  else if eq_str mime "application/dash+xml" then _extract_mpd_formats H url video_id hdrs
  else if eq_str mime "application/vnd.ms-sstr+xml" then _extract_ism_formats H url video_id hdrs
  else [].

Definition entry_requests (video_id : value) (hdrs : headers)
    (playlist : value) : list request :=
  let mime := track_field "mimeType" playlist in
  let url := track_field "playbackUrl" playlist in
  if eq_str mime "application/vnd.apple.mpegurl" then [GetM3u8 url video_id hdrs]
  else if eq_str mime "application/dash+xml" then [GetMpd url video_id hdrs]
  else if eq_str mime "application/vnd.ms-sstr+xml" then [GetIsm url video_id hdrs]
  else [].

(** The language a format ends with, from the video's language and the
    one the resolver set ([None] when it set none). *)
Definition tagged_language (language : value) (set_by_resolver : option value)
    : option value :=
  match set_by_resolver with
  | None => if is_none language then None else Some language
  | Some old =>
      if is_str language && truthy language && is_str old && negb (truthy old)
      then Some language else Some old
  end.

(** The language a resolver set on a format: its [language] item, a
    [None] value counting as unset. *)
Definition resolver_language (f : dict) : option value :=
  dict_get (key "language") (merge_dicts [f]).

(** The query of the video-metadata request. *)
Definition video_query : list (string * string) :=
  [("$expand", "creator,tokens,status,liveEvent,extensions"); api_version].

Definition bearer (access_token : string) : headers :=
  [("Authorization", ("Bearer " ++ access_token)%string)].

Definition video_url (api_url url_id : string) : string :=
  (api_url ++ "/videos/" ++ url_id)%string.

(** The extraction from the video record on: lines 71-122 of
    [_real_extract]. *)
Definition extract_from (H : host) (url_id api_url : string) (hdrs : headers)
    (video_data : value) : M dict :=
  api_id <- lift (get_method video_data "id") ;;
  let video_id := py_or api_id (VStr url_id) in
  language <- lift (get_method video_data "language") ;;
  thumbnails <- lift (thumbnails_loop H video_data thumbnail_ids []) ;;
  playback_urls <- lift (getitem video_data "playbackUrls") ;;
  playlists <- lift (iterate playback_urls) ;;
  formats <- formats_loop H video_id hdrs playlists [] ;;
  let formats := map (tag_language language) formats in
  let formats := _sort_formats H formats in
  title <- lift (getitem video_data "name") ;;
  description <- lift (get_method video_data "description") ;;
  uploader <- lift (try_get video_data [creator_field "name"] (Some is_str)) ;;
  uploader_id <- lift (try_get video_data [creator_field "mail"; creator_field "id"]
                         (Some is_str)) ;;
  subs <- extract_all_subtitles H api_url video_id hdrs ;;
  created <- lift (get_method video_data "created") ;;
  duration <- lift (try_get video_data [media_duration] None) ;;
  view_count <- lift (try_get video_data [metric "views"] (Some is_int)) ;;
  like_count <- lift (try_get video_data [metric "likes"] (Some is_int)) ;;
  comment_count <- lift (try_get video_data [metric "comments"] (Some is_int)) ;;
  ret (dict_display
         ([(key "id", video_id);
           (key "title", title);
           (key "description", description);
           (key "uploader", uploader);
           (key "uploader_id", uploader_id);
           (key "thumbnails", dict_list thumbnails)]
          ++ subs
          ++ [(key "timestamp", parse_iso8601 H created);
              (key "duration", parse_duration H duration);
              (key "webpage_url",
               VStr ("https://web.microsoftstream.com/video/" ++ fstr H video_id)%string);
              (key "view_count", view_count);
              (key "like_count", like_count);
              (key "comment_count", comment_count);
              (key "formats", dict_list formats)])).

(** The steps before the video record is in hand succeed: the URL is a
    Microsoft Stream URL, its page is fetched and shows the title
    marker, both credentials are found, and the video API answers. *)
Definition reaches_video (H : host) (url url_id api_url access_token : string)
    (video_data : value) : Prop :=
  exists webpage,
    match_valid_url url = Some url_id /\
    webpage_of H url = Some webpage /\
    contains title_marker webpage = true /\
    html_search H access_token_re webpage = Some access_token /\
    html_search H api_url_re webpage = Some api_url /\
    json_of H (video_url api_url url_id) video_query (bearer access_token)
      = Some video_data.

(** The entry of a subtitle map under construction for a language. *)
Fixpoint sub_get (language : value) (m : list (value * list value))
    : option (list value) :=
  match m with
  | [] => None
  | (k, l) :: rest => if key_eqb language k then Some l else sub_get language rest
  end.

(** An entry after more descriptors were appended to it. *)
Definition extend (old : option (list value)) (new : list value)
    : option (list value) :=
  match old, new with
  | None, [] => None
  | None, _ => Some new
  | Some l, _ => Some (l ++ new)
  end.

(** A request that is not a text-track fetch: the text-track fetch is
    the one JSON request whose query is the API version alone. *)
Definition not_texttracks (r : request) : Prop :=
  match r with
  | GetJson _ query _ => query <> [api_version]
  | _ => True
  end.


(** ** The shape of a video URL *)

(** [n] characters of [[\da-f]]. *)
Definition hex_group (n : nat) (g : string) : Prop :=
  String.length g = n /\ forallb is_hex (list_ascii_of_string g) = true.

(** An identifier of the form 8-4-4-4-12, in lowercase hexadecimal. *)
Definition is_uuid (id : string) : Prop :=
  exists g1 g2 g3 g4 g5,
    hex_group 8 g1 /\ hex_group 4 g2 /\ hex_group 4 g3 /\ hex_group 4 g4
    /\ hex_group 12 g5
    /\ id = (g1 ++ "-" ++ g2 ++ "-" ++ g3 ++ "-" ++ g4 ++ "-" ++ g5)%string.

(** ** More worlds, for examples *)

Module Demo2.

(** [base], with another search of the page markup. *)
Definition with_search (base : host) (search : string -> string -> option string)
    : host :=
  {| params := params base;
     webpage_of := webpage_of base;
     json_of := json_of base;
     _extract_m3u8_formats := _extract_m3u8_formats base;
     _extract_mpd_formats := _extract_mpd_formats base;
     _extract_ism_formats := _extract_ism_formats base;
     _sort_formats := _sort_formats base;
     html_search := search;
     url_basename := url_basename base;
     parse_iso8601 := parse_iso8601 base;
     parse_duration := parse_duration base;
     py_repr := py_repr base |}.

(** A page without the access token. *)
Definition no_token_world : host :=
  with_search Demo.video_world (fun _ _ => None).

(** A page with the access token and without the gateway URL. *)
Definition no_gateway_world : host :=
  with_search Demo.video_world
    (fun pattern _ =>
       if (pattern =? access_token_re)%string then Some Demo.token else None).

(** The video API is down. *)
Definition no_video_world : host :=
  Demo.world [] (Some Demo.page) None None [].

(** A fuller video record: a creator without mail, metrics of which one
    is not a number, a poster image and two playlist entries; subtitles
    are requested and the text-track API answers the three tracks. *)
Definition rich_items : dict :=
  [(key "id", VStr "b60f5987-aabd-4e1c-a42f-c559d138f2ca");
   (key "name", VStr "Town hall");
   (key "description", VStr "Quarterly update");
   (key "language", VStr "en");
   (key "creator",
    Demo.obj [("name", VStr "Ada"); ("mail", VNone); ("id", VStr "u-17")]);
   (key "metrics",
    Demo.obj [("views", VInt 10); ("likes", VStr "many"); ("comments", VInt 0)]);
   (key "posterImage",
    Demo.obj [("large", Demo.obj [("url", VStr "https://cdn/img/MTI4MHg3MjAuanBn")]);
              ("small", Demo.obj [("url", VStr "https://cdn/img/NjQweDM2MA")]);
              ("medium", Demo.obj [("url", VStr "")])]);
   (key "playbackUrls", VList [Demo.other_entry; Demo.dash_entry])].

Definition rich_world : host :=
  Demo.world Demo.write_subs (Some Demo.page) (Some (VDict rich_items))
    (Some (Demo.obj [("value", VList Demo.tracks)])) Demo.dash_formats.

Definition rich_record : dict :=
  Eval vm_compute in Demo.record_of (_real_extract rich_world Demo.url).
Definition rich_requests : list request :=
  Eval vm_compute in snd (_real_extract rich_world Demo.url).

End Demo2.

(** ** Reading the video record *)

(** [d[k1][k2]], when both subscripts succeed. *)
Definition nested (d : dict) (k1 k2 : string) : option value :=
  match dict_get (key k1) d with
  | Some (VDict inner) => dict_get (key k2) inner
  | _ => None
  end.

(** A value kept when it is of the expected type. *)
Definition str_or_none (v : option value) : value :=
  match v with Some (VStr s) => VStr s | _ => VNone end.
Definition int_or_none (v : option value) : value :=
  match v with
  | Some (VInt n) => VInt n
  | Some (VBool b) => VBool b
  | _ => VNone
  end.
Definition value_or_none (v : option value) : value :=
  match v with Some x => x | None => VNone end.

(** The keys of the record of lines 106-122, in order. *)
Definition record_keys (with_subtitles : bool) : list value :=
  map key
    (["id"; "title"; "description"; "uploader"; "uploader_id"; "thumbnails"]
     ++ (if with_subtitles then ["subtitles"; "automatic_captions"] else [])
     ++ ["timestamp"; "duration"; "webpage_url"; "view_count"; "like_count";
         "comment_count"; "formats"]).

(** ** Poster images *)

(** [posterImage[label].url], when it is a string; [None] otherwise. *)
Definition poster_of (video_data : value) (label : string) : value :=
  match try_get video_data [poster_url label] (Some is_str) with
  | Ok v => v
  | Raise _ => VNone
  end.

(** A size label with a non-empty URL. *)
Definition has_poster (video_data : value) (label : string) : bool :=
  truthy (poster_of video_data label).

(** ** Loops *)

(** The longest prefix of entries satisfying [p]. *)
Fixpoint take_while {A} (p : A -> bool) (l : list A) : list A :=
  match l with
  | [] => []
  | x :: rest => if p x then x :: take_while p rest else []
  end.

(** No two entries of a subtitle map have equal languages. *)
Fixpoint keys_distinct (m : list (value * list value)) : bool :=
  match m with
  | [] => true
  | (k, _) :: rest =>
      negb (existsb (fun kl => key_eqb k (fst kl)) rest) && keys_distinct rest
  end.

(** The number of descriptors a subtitle map holds. *)
Definition descriptors (m : list (value * list value)) : nat :=
  List.length (flat_map snd m).

(** ** Authorised requests *)

(** A request other than the page fetch that carries the headers
    [hdrs]; a JSON request also names the API version in its query. *)
Definition carries (hdrs : headers) (r : request) : Prop :=
  match r with
  | GetWebpage _ => True
  | GetJson _ query h => h = hdrs /\ In api_version query
  | GetM3u8 _ _ h | GetMpd _ _ h | GetIsm _ _ h => h = hdrs
  end.

(** ** Base64 names *)

(** A character of the base64 alphabet. *)
Definition is_b64 (c : ascii) : bool :=
  match b64_index c with Some _ => true | None => false end.

(** ** Thumbnail names *)

(** The decoding of the name in the poster URL of a size label
    (lines 83-84). *)
Definition decoded_name (H : host) (video_data : value) (label : string)
    : result (list ascii) :=
  match poster_of video_data label with
  | VStr url => b64decode (pad4 (url_basename H url))
  | _ => Raise TypeError
  end.

Module Demo3.

(** A video record whose small poster image has a name that is not
    base64. *)
Definition bad_thumb_items : dict :=
  [(key "name", VStr "Town hall");
   (key "posterImage",
    Demo.obj [("small", Demo.obj [("url", VStr "https://cdn/img/thumb")])]);
   (key "playbackUrls", VList [Demo.dash_entry])].

Definition bad_thumb_world : host :=
  Demo.world Demo.write_subs (Some Demo.page) (Some (VDict bad_thumb_items))
    (Some (Demo.obj [("value", VList Demo.tracks)])) Demo.dash_formats.

End Demo3.

(** * Properties *)

(** ** Runs *)

Lemma bind_ok {A B} (m : M A) (f : A -> M B) (b : B) (t : list request) :
  bind m f = (Ok b, t) ->
  exists a t1 t2, m = (Ok a, t1) /\ f a = (Ok b, t2) /\ t = t1 ++ t2.
Proof.
  unfold bind. destruct m as [[a|e] t1]; [|discriminate].
  destruct (f a) as [r t2] eqn:E. intros [= -> <-].
  now exists a, t1, t2.
Qed.

Lemma lift_ok {A} (x : result A) (a : A) (t : list request) :
  lift x = (Ok a, t) -> x = Ok a /\ t = [].
Proof. unfold lift. now intros [= -> <-]. Qed.

Lemma outcome_bind {A B} (m : M A) (f : A -> M B) :
  outcome (bind m f) = rbind (outcome m) (fun a => outcome (f a)).
Proof.
  unfold outcome, bind. destruct m as [[a|e] t]; simpl; [|reflexivity].
  now destruct (f a).
Qed.

Lemma requests_bind {A B} (m : M A) (f : A -> M B) :
  requests (bind m f)
  = requests m ++ match outcome m with
                  | Ok a => requests (f a)
                  | Raise _ => []
                  end.
Proof.
  unfold requests, outcome, bind. destruct m as [[a|e] t]; simpl.
  - now destruct (f a).
  - now rewrite app_nil_r.
Qed.

Lemma run_eta {A} (m : M A) : m = (outcome m, requests m).
Proof. now destruct m. Qed.

Lemma bind_lift_ok {A B} (x : result A) (a : A) (f : A -> M B) :
  x = Ok a -> bind (lift x) f = f a.
Proof. intros ->. unfold bind, lift. now destruct (f a). Qed.

Lemma bind_lift_raise {A B} (x : result A) (e : exn) (f : A -> M B) :
  x = Raise e -> bind (lift x) f = (Raise e, []).
Proof. now intros ->. Qed.

(** Taking a successful run apart, one step at a time. *)
Ltac inv_run :=
  repeat match goal with
    | H : bind _ _ = (Ok _, _) |- _ =>
        apply bind_ok in H; destruct H as (? & ? & ? & ? & H & ?); cbv beta zeta in H
    | H : lift _ = (Ok _, _) |- _ => apply lift_ok in H; destruct H
    | H : ret _ = (Ok _, _) |- _ => injection H as H ?
    end.

(** [_real_extract] is its first steps followed by [extract_from]. *)
Lemma real_extract_from_video (H : host) url url_id api_url access_token video_data :
  reaches_video H url url_id api_url access_token video_data ->
  _real_extract H url
  = (outcome (extract_from H url_id api_url (bearer access_token) video_data),
     GetWebpage url
       :: GetJson (video_url api_url url_id) video_query (bearer access_token)
       :: requests (extract_from H url_id api_url (bearer access_token) video_data)).
Proof.
  intros (webpage & Hid & Hpage & Hmark & Htok & Hapi & Hjson).
  unfold _real_extract, _match_id. rewrite Hid.
  rewrite (bind_lift_ok _ url_id) by reflexivity.
  unfold _download_webpage, _download_json, _html_search_regex.
  rewrite Hpage. cbn [bind]. rewrite Hmark, Htok, Hapi. cbn [bind ret].
  fold (bearer access_token). fold video_query. fold (video_url api_url url_id).
  rewrite Hjson. cbn [bind].
  fold (extract_from H url_id api_url (bearer access_token) video_data).
  now destruct (extract_from _ _ _ _ _).
Qed.

Lemma real_extract_ok_inv (H : host) url r t :
  _real_extract H url = (Ok r, t) ->
  exists url_id api_url access_token video_data t',
    reaches_video H url url_id api_url access_token video_data /\
    extract_from H url_id api_url (bearer access_token) video_data = (Ok r, t') /\
    t = GetWebpage url
          :: GetJson (video_url api_url url_id) video_query (bearer access_token)
          :: t'.
Proof.
  intros Hrun.
  destruct (match_valid_url url) as [url_id|] eqn:Hid.
  2:{ unfold _real_extract, _match_id in Hrun. rewrite Hid in Hrun. discriminate. }
  destruct (webpage_of H url) as [webpage|] eqn:Hpage.
  2:{ unfold _real_extract, _match_id, _download_webpage in Hrun.
      rewrite Hid, Hpage in Hrun. discriminate. }
  destruct (contains title_marker webpage) eqn:Hmark.
  2:{ unfold _real_extract, _match_id, _download_webpage in Hrun.
      rewrite Hid, Hpage in Hrun. cbn [bind lift] in Hrun.
      rewrite Hmark in Hrun. discriminate. }
  destruct (html_search H access_token_re webpage) as [access_token|] eqn:Htok.
  2:{ unfold _real_extract, _match_id, _download_webpage, _html_search_regex in Hrun.
      rewrite Hid, Hpage in Hrun. cbn [bind lift] in Hrun.
      rewrite Hmark, Htok in Hrun. discriminate. }
  destruct (html_search H api_url_re webpage) as [api_url|] eqn:Hapi.
  2:{ unfold _real_extract, _match_id, _download_webpage, _html_search_regex in Hrun.
      rewrite Hid, Hpage in Hrun. cbn [bind lift] in Hrun.
      rewrite Hmark, Htok, Hapi in Hrun. discriminate. }
  destruct (json_of H (video_url api_url url_id) video_query (bearer access_token))
    as [video_data|] eqn:Hjson.
  2:{ unfold _real_extract, _match_id, _download_webpage, _html_search_regex,
        _download_json in Hrun.
      rewrite Hid, Hpage in Hrun. cbn [bind lift] in Hrun.
      rewrite Hmark, Htok, Hapi in Hrun. cbn [bind ret] in Hrun.
      fold (bearer access_token) in Hrun. fold video_query in Hrun.
      fold (video_url api_url url_id) in Hrun.
      rewrite Hjson in Hrun. discriminate. }
  assert (Hreach : reaches_video H url url_id api_url access_token video_data)
    by (exists webpage; repeat split; assumption).
  rewrite (real_extract_from_video _ _ _ _ _ _ Hreach) in Hrun.
  injection Hrun as Hout Ht.
  exists url_id, api_url, access_token, video_data,
    (requests (extract_from H url_id api_url (bearer access_token) video_data)).
  split; [assumption|]. split; [|now symmetry].
  rewrite (run_eta (extract_from _ _ _ _ _)). now rewrite Hout.
Qed.

(** ** Substrings *)

Lemma prefix_app (p s : string) :
  prefix p s = true <-> exists post, s = (p ++ post)%string.
Proof.
  revert s. induction p as [|a p IH]; intros s.
  - split; [intros _; now exists s | intros _; now destruct s].
  - destruct s as [|b s]; cbn [prefix].
    + split; [discriminate | intros [post [=]]].
    + destruct (ascii_dec a b) as [->|Hab].
      * rewrite IH. split; intros [post Hp]; exists post.
        -- now rewrite Hp.
        -- now injection Hp.
      * split; [discriminate | intros [post [= E _]]; congruence].
Qed.

Lemma contains_spec (needle haystack : string) :
  contains needle haystack = true
  <-> exists pre post, haystack = (pre ++ needle ++ post)%string.
Proof.
  induction haystack as [|c h IH].
  - cbn [contains]. rewrite orb_false_r, prefix_app. split.
    + intros [post Hp]. now exists EmptyString, post.
    + intros ([|a pre] & post & Hp); [now exists post | discriminate].
  - cbn [contains]. rewrite orb_true_iff, prefix_app, IH. split.
    + intros [[post Hp] | (pre & post & Hp)].
      * now exists EmptyString, post.
      * exists (String c pre), post. now rewrite Hp.
    + intros ([|a pre] & post & Hp).
      * left. now exists post.
      * right. injection Hp as _ Hp. now exists pre, post.
Qed.

(** ** The login check (lines 56-58) *)

(** C7. When the page fetched for a Microsoft Stream URL does not
    contain the literal text [<title>Microsoft Stream</title>], whatever
    else it holds, the extraction ends with the login-required error
    asking for cookies, and the page fetch is the only request made. *)
Theorem login_required_without_title_marker
    (H : host) (url url_id webpage : string) :
  match_valid_url url = Some url_id ->
  webpage_of H url = Some webpage ->
  (forall pre post,
      webpage <> (pre ++ "<title>Microsoft Stream</title>" ++ post)%string) ->
  _real_extract H url = (Raise (LoginRequiredError "cookies"), [GetWebpage url]).
Proof.
  intros Hid Hpage Hmark.
  assert (Hc : contains title_marker webpage = false).
  { destruct (contains title_marker webpage) eqn:E; [|reflexivity].
    apply contains_spec in E. destruct E as (pre & post & E).
    now destruct (Hmark pre post). }
  unfold _real_extract, _match_id, _download_webpage.
  rewrite Hid, Hpage. cbn [bind lift]. now rewrite Hc.
Qed.

Lemma login_page_has_no_marker :
  forall pre post,
    Demo.login_page <> (pre ++ "<title>Microsoft Stream</title>" ++ post)%string.
Proof.
  intros pre post E.
  assert (Hc : contains title_marker Demo.login_page = true)
    by (apply contains_spec; now exists pre, post).
  vm_compute in Hc. discriminate.
Qed.

Lemma login_required_without_title_marker_witness :
  _real_extract (Demo.world [] (Some Demo.login_page) None None []) Demo.url
  = (Raise (LoginRequiredError "cookies"), [GetWebpage Demo.url]).
Proof.
  apply (login_required_without_title_marker _ Demo.url Demo.url_id Demo.login_page).
  - reflexivity.
  - reflexivity.
  - exact login_page_has_no_marker.
Defined.

(** ** The requests of a whole run *)

Lemma requests_lift_bind {A B} (x : result A) (f : A -> M B) (P : request -> Prop) :
  (forall a, x = Ok a -> Forall P (requests (f a))) ->
  Forall P (requests (bind (lift x) f)).
Proof.
  intros Hf. rewrite requests_bind. cbn [requests lift snd outcome fst app].
  destruct x as [a|e]; [now apply Hf | constructor].
Qed.

Lemma requests_playlist_formats (H : host) video_id hdrs playlist :
  Forall not_texttracks (requests (playlist_formats H video_id hdrs playlist)).
Proof.
  unfold playlist_formats. apply requests_lift_bind. intros mime _.
  repeat match goal with
    | |- context [if ?b then _ else _] => destruct b
    end;
    try (apply requests_lift_bind; intros url _; repeat constructor).
  constructor.
Qed.

Lemma requests_formats_loop (H : host) video_id hdrs playlists :
  forall formats,
    Forall not_texttracks (requests (formats_loop H video_id hdrs playlists formats)).
Proof.
  induction playlists as [|p rest IH]; intros formats; [constructor|].
  cbn [formats_loop]. rewrite requests_bind. apply Forall_app. split.
  - apply requests_playlist_formats.
  - destruct (outcome _); [apply IH | constructor].
Qed.

(** With the subtitle options off, a run makes no text-track request,
    however it ends. *)
Lemma requests_without_subtitles (H : host) (url : string) :
  subtitles_requested H = false ->
  Forall not_texttracks (requests (_real_extract H url)).
Proof.
  intros Hreq. unfold _real_extract.
  apply requests_lift_bind. intros url_id _.
  rewrite requests_bind. apply Forall_app. split; [repeat constructor|].
  destruct (outcome (_download_webpage H url)) as [webpage|]; [|constructor].
  rewrite requests_bind. apply Forall_app. split.
  { destruct (contains title_marker webpage); constructor. }
  destruct (outcome _); [|constructor].
  rewrite requests_bind. apply Forall_app. split.
  { unfold _html_search_regex. destruct (html_search H _ _); constructor. }
  destruct (outcome _) as [access_token|]; [|constructor].
  rewrite requests_bind. apply Forall_app. split.
  { unfold _html_search_regex. destruct (html_search H _ _); constructor. }
  destruct (outcome _) as [api_url|]; [|constructor].
  cbv zeta.
  rewrite requests_bind. apply Forall_app. split.
  { repeat constructor. cbn. discriminate. }
  destruct (outcome _) as [video_data|]; [|constructor].
  apply requests_lift_bind. intros api_id _.
  apply requests_lift_bind. intros language _.
  apply requests_lift_bind. intros thumbnails _.
  apply requests_lift_bind. intros playback_urls _.
  apply requests_lift_bind. intros playlists _.
  rewrite requests_bind. apply Forall_app. split; [apply requests_formats_loop|].
  destruct (outcome _) as [formats|]; [|constructor].
  apply requests_lift_bind. intros title _.
  apply requests_lift_bind. intros description _.
  apply requests_lift_bind. intros uploader _.
  apply requests_lift_bind. intros uploader_id _.
  rewrite requests_bind. apply Forall_app. split.
  { unfold extract_all_subtitles. rewrite Hreq. constructor. }
  destruct (outcome _) as [subs|]; [|constructor].
  repeat (apply requests_lift_bind; intros ? _).
  constructor.
Qed.

(** ** The subtitle gate (lines 47-52) *)

Lemma get_param_truthy (H : host) (name : string) (default : value) :
  truthy default = false ->
  truthy (get_param H name default) = truthy (field (params H) name).
Proof.
  intros Hd. unfold get_param, field.
  now destruct (dict_get (key name) (params H)).
Qed.

Lemma subtitles_requested_iff (H : host) :
  subtitles_requested H = true
  <-> truthy (field (params H) "writesubtitles") = true
      \/ truthy (field (params H) "writeautomaticsub") = true
      \/ truthy (field (params H) "listsubtitles") = true.
Proof.
  unfold subtitles_requested.
  rewrite !get_param_truthy by reflexivity.
  rewrite !orb_true_iff. tauto.
Qed.

Lemma requests_get_all_subtitles (H : host) api_url video_id hdrs :
  requests (_get_all_subtitles H api_url video_id hdrs)
  = [GetJson (texttracks_url H api_url video_id) [api_version] hdrs].
Proof.
  unfold _get_all_subtitles, _download_json.
  destruct (json_of H _ _ _) as [response|]; cbn [bind].
  - destruct (get_method response "value") as [v|e]; [|reflexivity].
    cbn [bind lift].
    destruct (iterate (py_or v (VList []))) as [tracks|e]; [|reflexivity].
    cbn [bind lift].
    now destruct (add_tracks ([], []) tracks).
  - reflexivity.
Qed.

(** C8. The text-track request is made exactly when one of the options
    [writesubtitles], [writeautomaticsub], [listsubtitles] is set; when
    none is, the subtitle step makes no request at all and contributes
    an empty mapping, and no request of the whole extraction is a
    text-track fetch. *)
Theorem texttracks_fetched_iff_requested
    (H : host) (api_url : string) (video_id : value) (hdrs : headers) :
  let fetch := GetJson (texttracks_url H api_url video_id) [api_version] hdrs in
  let set name := truthy (field (params H) name) = true in
  let some_set := set "writesubtitles" \/ set "writeautomaticsub" \/ set "listsubtitles" in
  (In fetch (requests (extract_all_subtitles H api_url video_id hdrs)) <-> some_set)
  /\ (some_set -> requests (extract_all_subtitles H api_url video_id hdrs) = [fetch])
  /\ (~ some_set -> extract_all_subtitles H api_url video_id hdrs = (Ok [], []))
  /\ (~ some_set ->
      forall url, Forall not_texttracks (requests (_real_extract H url))).
Proof.
  intros fetch set some_set.
  assert (Hiff := subtitles_requested_iff H). fold (set "writesubtitles") in Hiff.
  assert (Hruns := requests_without_subtitles H).
  unfold extract_all_subtitles.
  destruct (subtitles_requested H).
  - rewrite requests_get_all_subtitles. fold fetch.
    assert (some_set) by now apply Hiff.
    repeat split; try tauto. intros _. now left.
  - assert (~ some_set) by (intros Hs; apply Hiff in Hs; discriminate).
    repeat split; try tauto.
    + intros [].
    + intros _ url. now apply Hruns.
Qed.

Lemma texttracks_fetched_iff_requested_witness :
  requests (extract_all_subtitles
              (Demo.world Demo.write_subs (Some Demo.page) None None [])
              Demo.api_url (VStr Demo.url_id) Demo.hdrs)
  = [GetJson (Demo.api_url ++ "/videos/" ++ Demo.url_id ++ "/texttracks")%string
       [api_version] Demo.hdrs].
Proof.
  apply (texttracks_fetched_iff_requested
           (Demo.world Demo.write_subs (Some Demo.page) None None [])
           Demo.api_url (VStr Demo.url_id) Demo.hdrs).
  left. reflexivity.
Defined.

(** ** The playlist loop (lines 89-102) *)

Lemma unsupported_mime (playlist : value) :
  unsupported playlist = true ->
  exists mime,
    getitem playlist "mimeType" = Ok mime /\
    eq_str mime "application/vnd.apple.mpegurl" = false /\
    eq_str mime "application/dash+xml" = false /\
    eq_str mime "application/vnd.ms-sstr+xml" = false.
Proof.
  unfold unsupported, supported.
  destruct (getitem playlist "mimeType") as [mime|e]; [|discriminate].
  intros Hs. apply negb_true_iff in Hs. apply orb_false_iff in Hs.
  destruct Hs as [Hs ?]. apply orb_false_iff in Hs. destruct Hs.
  now exists mime.
Qed.

Lemma playlist_formats_unsupported (H : host) video_id hdrs playlist :
  unsupported playlist = true ->
  playlist_formats H video_id hdrs playlist = (Ok [], []).
Proof.
  intros Hu. destruct (unsupported_mime _ Hu) as (mime & Hm & H1 & H2 & H3).
  unfold playlist_formats. rewrite (bind_lift_ok _ mime) by assumption.
  now rewrite H1, H2, H3.
Qed.

Lemma formats_loop_skips_unsupported (H : host) video_id hdrs playlists :
  forall formats,
    formats_loop H video_id hdrs playlists formats
    = formats_loop H video_id hdrs
        (filter (fun p => negb (unsupported p)) playlists) formats.
Proof.
  induction playlists as [|p rest IH]; intros formats; [reflexivity|].
  cbn [filter]. destruct (unsupported p) eqn:Hu; cbn [negb formats_loop].
  - rewrite playlist_formats_unsupported by assumption.
    cbn [bind]. rewrite app_nil_r, <- IH.
    now destruct (formats_loop H video_id hdrs rest formats).
  - destruct (playlist_formats H video_id hdrs p) as [[fs|e] t]; [|reflexivity].
    cbn [bind]. now rewrite IH.
Qed.

Lemma getitem_track_field (x : value) (name : string) (v : value) :
  getitem x name = Ok v -> track_field name x = v.
Proof.
  unfold getitem, track_field, get_method. destruct x; try discriminate.
  destruct (dict_get (key name) items); [|discriminate]. now intros [= ->].
Qed.

(** A playable entry costs at most one resolver call and cannot fail. *)
Lemma playlist_formats_playable (H : host) video_id hdrs playlist :
  playable playlist = true ->
  playlist_formats H video_id hdrs playlist
  = (Ok (entry_formats H video_id hdrs playlist),
     entry_requests video_id hdrs playlist).
Proof.
  unfold playable, supported, playlist_formats, entry_formats, entry_requests.
  destruct (getitem playlist "mimeType") as [mime|e] eqn:Hm; [|discriminate].
  rewrite (getitem_track_field _ _ _ Hm). cbn [lift bind].
  destruct (eq_str mime "application/vnd.apple.mpegurl");
    [|destruct (eq_str mime "application/dash+xml");
      [|destruct (eq_str mime "application/vnd.ms-sstr+xml")]];
    cbn [orb]; try reflexivity;
    (destruct (getitem playlist "playbackUrl") as [url|e] eqn:Hu; [|discriminate];
     now rewrite (getitem_track_field _ _ _ Hu)).
Qed.

Lemma formats_loop_playable (H : host) video_id hdrs playlists :
  forallb playable playlists = true ->
  forall formats,
    formats_loop H video_id hdrs playlists formats
    = (Ok (formats ++ flat_map (entry_formats H video_id hdrs) playlists),
       flat_map (entry_requests video_id hdrs) playlists).
Proof.
  induction playlists as [|p rest IH]; intros Hall formats.
  - cbn. now rewrite app_nil_r.
  - cbn [forallb] in Hall. apply andb_true_iff in Hall. destruct Hall as [Hp Hrest].
    cbn [formats_loop flat_map].
    rewrite playlist_formats_playable by assumption. cbn [bind].
    rewrite IH by assumption. now rewrite app_assoc.
Qed.

(** A loop that ends well met playable entries only, and collected what
    each contributes, in order. *)
Lemma formats_loop_ok_inv (H : host) video_id hdrs playlists :
  forall formats fs t,
    formats_loop H video_id hdrs playlists formats = (Ok fs, t) ->
    forallb playable playlists = true.
Proof.
  induction playlists as [|p rest IH]; intros formats fs t Hrun; [reflexivity|].
  cbn [formats_loop] in Hrun. apply bind_ok in Hrun.
  destruct Hrun as (a & t1 & t2 & Hp & Hrest & _).
  cbn [forallb]. apply andb_true_iff. split; [|now apply IH in Hrest].
  revert Hp. unfold playlist_formats, playable, supported.
  destruct (getitem p "mimeType") as [mime|e]; [|discriminate].
  cbn [lift bind].
  destruct (eq_str mime "application/vnd.apple.mpegurl");
    [|destruct (eq_str mime "application/dash+xml");
      [|destruct (eq_str mime "application/vnd.ms-sstr+xml")]];
    cbn [orb]; try reflexivity;
    (destruct (getitem p "playbackUrl"); [reflexivity|discriminate]).
Qed.

(** C6. A playlist entry whose mime type is none of the three supported
    ones contributes no format, raises nothing and costs no request;
    the loop gives what it gives without such entries.  A list of one
    such entry and one DASH entry, in either order, yields exactly the
    formats of the DASH resolver for the DASH entry. *)
Theorem unsupported_mime_types_are_skipped
    (H : host) (video_id : value) (hdrs : headers) :
  (forall playlist,
      unsupported playlist = true ->
      playlist_formats H video_id hdrs playlist = (Ok [], []))
  /\ (forall playlists formats,
         formats_loop H video_id hdrs playlists formats
         = formats_loop H video_id hdrs
             (filter (fun p => negb (unsupported p)) playlists) formats)
  /\ (forall other dash url,
         unsupported other = true ->
         getitem dash "mimeType" = Ok (VStr "application/dash+xml") ->
         getitem dash "playbackUrl" = Ok url ->
         let expected :=
           (Ok (_extract_mpd_formats H url video_id hdrs), [GetMpd url video_id hdrs]) in
         formats_loop H video_id hdrs [other; dash] [] = expected
         /\ formats_loop H video_id hdrs [dash; other] [] = expected).
Proof.
  split; [|split].
  - intros playlist. apply playlist_formats_unsupported.
  - intros playlists formats. apply formats_loop_skips_unsupported.
  - intros other dash url Hu Hm Hurl expected.
    assert (Hd : unsupported dash = false)
      by (unfold unsupported; now rewrite Hm).
    assert (Hone : formats_loop H video_id hdrs [dash] [] = expected).
    { cbn [formats_loop]. unfold playlist_formats.
      rewrite (bind_lift_ok _ _ _ Hm). cbn [eq_str String.eqb Ascii.eqb Bool.eqb].
      rewrite (bind_lift_ok _ _ _ Hurl). reflexivity. }
    split; rewrite formats_loop_skips_unsupported; cbn [filter];
      rewrite Hu, Hd; exact Hone.
Qed.

Lemma unsupported_mime_types_are_skipped_witness :
  formats_loop (Demo.world [] (Some Demo.page) (Some Demo.video) None Demo.dash_formats)
    (VStr Demo.url_id) Demo.hdrs [Demo.other_entry; Demo.dash_entry] []
  = (Ok Demo.dash_formats,
     [GetMpd (VStr "https://cdn/manifest.mpd") (VStr Demo.url_id) Demo.hdrs]).
Proof.
  exact (proj1 (proj2 (proj2 (unsupported_mime_types_are_skipped
           (Demo.world [] (Some Demo.page) (Some Demo.video) None Demo.dash_formats)
           (VStr Demo.url_id) Demo.hdrs))
           Demo.other_entry Demo.dash_entry (VStr "https://cdn/manifest.mpd")
           eq_refl eq_refl eq_refl)).
Defined.

(** ** The text-track loop (lines 27-45) *)

Lemma key_eqb_sym (a b : value) : key_eqb a b = key_eqb b a.
Proof.
  destruct a, b; unfold key_eqb; try reflexivity;
    try apply Z.eqb_sym; try apply String.eqb_sym.
  now destruct b0, b.
Qed.

Lemma key_eqb_trans (a b c : value) :
  key_eqb a b = true -> key_eqb b c = true -> key_eqb a c = true.
Proof.
  destruct a, b, c; unfold key_eqb;
    try discriminate; try reflexivity;
    rewrite ?Z.eqb_eq, ?String.eqb_eq, ?Bool.eqb_true_iff;
    intros; subst; try reflexivity; try congruence;
    repeat match goal with
      | x : bool |- _ => destruct x
      end; cbn in *; congruence.
Qed.

(** Two keys that are equal find the same entries. *)
Lemma key_eqb_congr (a b c : value) :
  key_eqb a b = true -> key_eqb c a = key_eqb c b.
Proof.
  intros Hab. destruct (key_eqb c a) eqn:Hca.
  - symmetry. now apply key_eqb_trans with a.
  - destruct (key_eqb c b) eqn:Hcb; [|reflexivity].
    rewrite <- Hca. apply key_eqb_trans with b; [assumption|].
    now rewrite key_eqb_sym.
Qed.

Lemma sub_get_setdefault_append (language k entry : value) m :
  sub_get language (setdefault_append k entry m)
  = if key_eqb language k then extend (sub_get language m) [entry]
    else sub_get language m.
Proof.
  induction m as [|[k' l] rest IH]; cbn [setdefault_append sub_get].
  - now destruct (key_eqb language k).
  - destruct (key_eqb k k') eqn:Hk; cbn [sub_get].
    + rewrite <- (key_eqb_congr _ _ language Hk).
      now destruct (key_eqb language k).
    + destruct (key_eqb language k') eqn:Hl.
      * destruct (key_eqb language k) eqn:Hlk; [|reflexivity].
        rewrite key_eqb_sym in Hlk.
        now rewrite (key_eqb_trans _ _ _ Hlk Hl) in Hk.
      * exact IH.
Qed.

Lemma dict_get_sub_items (language : value) m :
  dict_get language (map (fun kl => (fst kl, VList (snd kl))) m)
  = option_map VList (sub_get language m).
Proof.
  induction m as [|[k l] rest IH]; [reflexivity|].
  cbn [map dict_get sub_get fst snd]. now destruct (key_eqb language k).
Qed.

Lemma extend_nil (old : option (list value)) : extend old [] = old.
Proof. destruct old as [l|]; [|reflexivity]. cbn. now rewrite app_nil_r. Qed.

Lemma extend_app (old : option (list value)) (x y : list value) :
  extend (extend old x) y = extend old (x ++ y).
Proof.
  destruct old as [l|].
  - cbn. now rewrite app_assoc.
  - destruct x; [reflexivity|]. reflexivity.
Qed.

Lemma tracks_of_cons (auto : bool) (language track : value) (rest : list value) :
  tracks_of auto language (track :: rest)
  = (if kept track && Bool.eqb (auto_generated track) auto
        && key_eqb language (track_field "language" track)
     then [descriptor track] else [])
    ++ tracks_of auto language rest.
Proof.
  unfold tracks_of. cbn [filter].
  now destruct (kept track && Bool.eqb (auto_generated track) auto
                && key_eqb language (track_field "language" track)).
Qed.

(** What one round of the loop does to the two maps. *)
Lemma add_track_ok (s a : list (value * list value)) (track : value) :
  track_ok track = true ->
  add_track (s, a) track
  = Ok (if kept track then
          if auto_generated track
          then (s, setdefault_append (track_field "language" track) (descriptor track) a)
          else (setdefault_append (track_field "language" track) (descriptor track) s, a)
        else (s, a)).
Proof.
  destruct track as [| | | | |d]; try discriminate.
  unfold track_ok, kept, auto_generated, descriptor, track_field, add_track,
    get_method, getitem.
  destruct (dict_get (key "language") d) as [language|]; cbn [rbind truthy negb andb];
    [|reflexivity].
  destruct (truthy language); cbn [negb andb]; [|reflexivity].
  destruct (dict_get (key "url") d) as [url|]; cbn [rbind truthy negb andb];
    [|reflexivity].
  destruct (truthy url); cbn [negb orb]; [|reflexivity].
  intros ->. cbn [negb].
  now destruct (dict_get (key "autoGenerated") d) as [auto|]; cbn [rbind truthy];
    [destruct (truthy auto)|].
Qed.

Lemma add_tracks_spec (tracks : list value) :
  forallb track_ok tracks = true ->
  forall s a, exists s' a',
    add_tracks (s, a) tracks = Ok (s', a') /\
    forall language,
      sub_get language s' = extend (sub_get language s) (tracks_of false language tracks)
      /\ sub_get language a' = extend (sub_get language a) (tracks_of true language tracks).
Proof.
  induction tracks as [|track rest IH]; intros Hall s a.
  - exists s, a. split; [reflexivity|]. intros language.
    unfold tracks_of. cbn [filter map]. now rewrite !extend_nil.
  - cbn [forallb] in Hall. apply andb_true_iff in Hall. destruct Hall as [Hok Hrest].
    cbn [add_tracks]. rewrite (add_track_ok _ _ _ Hok). cbn [rbind].
    destruct (kept track) eqn:Hk; [destruct (auto_generated track) eqn:Ha|].
    + destruct (IH Hrest s
                  (setdefault_append (track_field "language" track) (descriptor track) a))
        as (s' & a' & Hrun & Hget).
      exists s', a'. split; [assumption|]. intros language.
      destruct (Hget language) as [Hs Ha']. rewrite Hs, Ha'.
      rewrite !tracks_of_cons, Hk, Ha, sub_get_setdefault_append. cbn [Bool.eqb andb].
      split; [reflexivity|].
      destruct (key_eqb language (track_field "language" track));
        [apply extend_app | reflexivity].
    + destruct (IH Hrest
                  (setdefault_append (track_field "language" track) (descriptor track) s) a)
        as (s' & a' & Hrun & Hget).
      exists s', a'. split; [assumption|]. intros language.
      destruct (Hget language) as [Hs Ha']. rewrite Hs, Ha'.
      rewrite !tracks_of_cons, Hk, Ha, sub_get_setdefault_append. cbn [Bool.eqb andb].
      split; [|reflexivity].
      destruct (key_eqb language (track_field "language" track));
        [apply extend_app | reflexivity].
    + destruct (IH Hrest s a) as (s' & a' & Hrun & Hget).
      exists s', a'. split; [assumption|]. intros language.
      destruct (Hget language) as [Hs Ha']. rewrite Hs, Ha'.
      now rewrite !tracks_of_cons, Hk.
Qed.

Lemma grouped_extend (auto : bool) (language : value) (tracks : list value) :
  option_map VList (extend None (tracks_of auto language tracks))
  = grouped auto language tracks.
Proof. unfold grouped. now destruct (tracks_of auto language tracks). Qed.

(** C5. When the text-track API answers a list of tracks, the tracks
    without a language or without a URL are dropped, and the others go,
    by their [autoGenerated] flag, to the [subtitles] map (flag false or
    absent) or the [automatic_captions] map (flag true): the entry of a
    language in a map is the list of [{ext: vtt, url}] descriptors of
    its tracks, in the order of the list, and a language without tracks
    has no entry.  The three tracks of the example give
    [subtitles = {en: [u1], fr: [u3]}] and
    [automatic_captions = {en: [u2]}]. *)
Theorem subtitles_partitioned_by_language :
  (forall (H : host) api_url video_id hdrs response tracks,
      json_of H (texttracks_url H api_url video_id) [api_version] hdrs
      = Some (VDict response) ->
      dict_get (key "value") response = Some (VList tracks) ->
      forallb track_ok tracks = true ->
      exists subtitles automatic_captions,
        _get_all_subtitles H api_url video_id hdrs
        = (Ok [(key "subtitles", VDict subtitles);
               (key "automatic_captions", VDict automatic_captions)],
           [GetJson (texttracks_url H api_url video_id) [api_version] hdrs])
        /\ forall language,
            dict_get language subtitles = grouped false language tracks
            /\ dict_get language automatic_captions = grouped true language tracks)
  /\ _get_all_subtitles
       (Demo.world Demo.write_subs (Some Demo.page) (Some Demo.video)
          (Some (Demo.obj [("value", VList Demo.tracks)])) [])
       Demo.api_url (VStr Demo.url_id) Demo.hdrs
     = (Ok [(key "subtitles",
             Demo.obj [("en", VList [Demo.vtt "u1"]); ("fr", VList [Demo.vtt "u3"])]);
            (key "automatic_captions",
             Demo.obj [("en", VList [Demo.vtt "u2"])])],
        [GetJson (Demo.api_url ++ "/videos/" ++ Demo.url_id ++ "/texttracks")%string
           [api_version] Demo.hdrs]).
Proof.
  split; [|reflexivity].
  intros H api_url video_id hdrs response tracks Hjson Hvalue Hall.
  destruct (add_tracks_spec tracks Hall [] []) as (s & a & Hrun & Hget).
  exists (map (fun kl => (fst kl, VList (snd kl))) s),
    (map (fun kl => (fst kl, VList (snd kl))) a).
  split.
  - unfold _get_all_subtitles, _download_json. rewrite Hjson. cbn [bind].
    unfold get_method. rewrite Hvalue. cbn [lift bind].
    replace (py_or (VList tracks) (VList [])) with
      (match tracks with [] => VList [] | _ => VList tracks end)
      by now destruct tracks.
    assert (Hit : iterate (match tracks with [] => VList [] | _ => VList tracks end)
                  = Ok tracks) by now destruct tracks.
    rewrite Hit. cbn [bind]. rewrite Hrun. reflexivity.
  - intros language. rewrite !dict_get_sub_items.
    destruct (Hget language) as [-> ->]. cbn [sub_get].
    now rewrite !grouped_extend.
Qed.

(** ** The URL-derived identifier (line 17) *)

Lemma length_append (a b : string) :
  String.length (a ++ b) = String.length a + String.length b.
Proof. induction a as [|c a IH]; cbn; [reflexivity | now rewrite IH]. Qed.

Lemma take_hex_length (n : nat) :
  forall s a b, take_hex n s = Some (a, b) -> String.length a = n.
Proof.
  induction n as [|n IH]; intros s a b; cbn [take_hex].
  - now intros [= <- _].
  - destruct s as [|c s]; [discriminate|].
    destruct (is_hex c); [|discriminate].
    destruct (take_hex n s) as [[a' b']|] eqn:E; [|discriminate].
    intros [= <- _]. cbn. f_equal. now apply IH with s b'.
Qed.

Lemma match_uuid_length (s id : string) :
  match_uuid s = Some id -> String.length id = 36.
Proof.
  unfold match_uuid, obind.
  destruct (take_hex 8 s) as [[g1 r1]|] eqn:E1; [|discriminate].
  destruct (strip_prefix "-" r1) as [r1'|]; [|discriminate].
  destruct (take_hex 4 r1') as [[g2 r2]|] eqn:E2; [|discriminate].
  destruct (strip_prefix "-" r2) as [r2'|]; [|discriminate].
  destruct (take_hex 4 r2') as [[g3 r3]|] eqn:E3; [|discriminate].
  destruct (strip_prefix "-" r3) as [r3'|]; [|discriminate].
  destruct (take_hex 4 r3') as [[g4 r4]|] eqn:E4; [|discriminate].
  destruct (strip_prefix "-" r4) as [r4'|]; [|discriminate].
  destruct (take_hex 12 r4') as [[g5 r5]|] eqn:E5; [|discriminate].
  intros [= <-].
  apply take_hex_length in E1, E2, E3, E4, E5.
  repeat (rewrite length_append || cbn [String.length]). lia.
Qed.

Lemma match_valid_url_length (url id : string) :
  match_valid_url url = Some id -> String.length id = 36.
Proof.
  unfold match_valid_url, obind.
  destruct (strip_prefix "http" url) as [r|]; [|discriminate].
  destruct (strip_prefix "://" _) as [r1|]; [|discriminate].
  destruct (match_host r1) as [r2|]; [|discriminate].
  destruct (strip_prefix ".microsoftstream.com/video/" r2) as [r3|]; [|discriminate].
  apply match_uuid_length.
Qed.

(** ** The record (lines 106-122) *)

(** What the subtitle step hands to the record: nothing, or the two
    maps. *)
Lemma extract_all_subtitles_shape (H : host) api_url video_id hdrs subs t :
  extract_all_subtitles H api_url video_id hdrs = (Ok subs, t) ->
  (subtitles_requested H = false /\ subs = [] /\ t = [])
  \/ (subtitles_requested H = true /\
      exists s a response,
        subs = [(key "subtitles", s); (key "automatic_captions", a)] /\
        t = [GetJson (texttracks_url H api_url video_id) [api_version] hdrs] /\
        json_of H (texttracks_url H api_url video_id) [api_version] hdrs
        = Some (VDict response)).
Proof.
  unfold extract_all_subtitles. destruct (subtitles_requested H).
  - intros Hrun. right. split; [reflexivity|].
    assert (Ht := requests_get_all_subtitles H api_url video_id hdrs).
    rewrite Hrun in Ht. cbn [requests snd] in Ht.
    unfold _get_all_subtitles, _download_json in Hrun.
    destruct (json_of H _ _ _) as [response|] eqn:Hjson.
    + destruct response as [| | | | |d];
        try (cbn [bind lift get_method] in Hrun; discriminate Hrun).
      inv_run. subst subs.
      eexists _, _, d. split; [reflexivity|]. split; [assumption|reflexivity].
    + cbn [bind lift get_method] in Hrun. discriminate Hrun.
  - intros [= <- <-]. now left.
Qed.

Ltac split_subs Hsubs :=
  apply extract_all_subtitles_shape in Hsubs;
  destruct Hsubs as [(? & -> & ->) | (? & ? & ? & ? & -> & -> & ?)].

(** C10. When none of [writesubtitles], [writeautomaticsub],
    [listsubtitles] is set, the record the extraction returns has no
    [subtitles] key and no [automatic_captions] key. *)
Theorem no_subtitle_keys_when_not_requested
    (H : host) (url : string) (r : dict) (t : list request) :
  truthy (field (params H) "writesubtitles") = false ->
  truthy (field (params H) "writeautomaticsub") = false ->
  truthy (field (params H) "listsubtitles") = false ->
  _real_extract H url = (Ok r, t) ->
  dict_get (key "subtitles") r = None
  /\ dict_get (key "automatic_captions") r = None.
Proof.
  intros Hw Ha Hl Hrun.
  assert (Hreq : subtitles_requested H = false).
  { destruct (subtitles_requested H) eqn:E; [|reflexivity].
    apply subtitles_requested_iff in E. destruct E as [E|[E|E]]; congruence. }
  apply real_extract_ok_inv in Hrun.
  destruct Hrun as (url_id & api_url & access_token & video_data & t' & _ & Hrun & _).
  unfold extract_from in Hrun. inv_run.
  match goal with
  | Hs : extract_all_subtitles _ _ _ _ = _ |- _ => split_subs Hs; [|congruence]
  end.
  subst r. split; reflexivity.
Qed.

Lemma no_subtitle_keys_when_not_requested_witness :
  dict_get (key "subtitles") Demo.minimal_record = None
  /\ dict_get (key "automatic_captions") Demo.minimal_record = None.
Proof.
  apply (no_subtitle_keys_when_not_requested
           Demo.minimal_world Demo.url Demo.minimal_record Demo.minimal_requests);
    reflexivity.
Defined.

(** C4 (amended).  The record an extraction returns has an [id].  It is
    the 36-character identifier of the URL when the video record has no
    [id] or a falsy one (null, empty, zero), and the video record's [id]
    when that is truthy. *)
Theorem output_id_is_api_id_or_url_id
    (H : host) (url : string) (r : dict) (t : list request) :
  _real_extract H url = (Ok r, t) ->
  exists url_id api_url access_token d,
    reaches_video H url url_id api_url access_token (VDict d)
    /\ String.length url_id = 36
    /\ (dict_get (key "id") d = None -> dict_get (key "id") r = Some (VStr url_id))
    /\ (forall v, dict_get (key "id") d = Some v -> truthy v = true ->
                  dict_get (key "id") r = Some v)
    /\ (forall v, dict_get (key "id") d = Some v -> truthy v = false ->
                  dict_get (key "id") r = Some (VStr url_id)).
Proof.
  intros Hrun. apply real_extract_ok_inv in Hrun.
  destruct Hrun as (url_id & api_url & access_token & video_data & t' & Hreach & Hrun & _).
  unfold extract_from in Hrun. inv_run.
  destruct video_data as [| | | | |d]; try discriminate.
  exists url_id, api_url, access_token, d.
  split; [assumption|].
  split; [destruct Hreach as (? & Hid & _); now apply match_valid_url_length in Hid|].
  assert (Hid : dict_get (key "id") r = Some (py_or (field d "id") (VStr url_id))).
  { match goal with
    | Hg : get_method (VDict d) "id" = Ok ?x |- _ =>
        assert (x = field d "id")
          by (unfold get_method in Hg; unfold field;
              destruct (dict_get (key "id") d); now injection Hg);
        subst x
    end.
    match goal with
    | Hs : extract_all_subtitles _ _ _ _ = _ |- _ => split_subs Hs
    end; subst r; reflexivity. }
  rewrite Hid. unfold field, py_or.
  repeat split.
  - now intros ->.
  - now intros v -> ->.
  - now intros v -> ->.
Qed.

Lemma output_id_is_api_id_or_url_id_witness :
  exists url_id api_url access_token d,
    reaches_video Demo.video_world Demo.url url_id api_url access_token (VDict d)
    /\ String.length url_id = 36
    /\ (dict_get (key "id") d = None ->
        dict_get (key "id") Demo.video_record = Some (VStr url_id))
    /\ (forall v, dict_get (key "id") d = Some v -> truthy v = true ->
                  dict_get (key "id") Demo.video_record = Some v)
    /\ (forall v, dict_get (key "id") d = Some v -> truthy v = false ->
                  dict_get (key "id") Demo.video_record = Some (VStr url_id)).
Proof.
  apply (output_id_is_api_id_or_url_id
           Demo.video_world Demo.url Demo.video_record Demo.video_requests).
  reflexivity.
Defined.

(** The claim fails as stated: a video record that supplies the empty
    string as its [id] yields a record whose [id] is the identifier of
    the URL. *)
Lemma output_id_ignores_empty_api_id :
  get_method
    (Demo.obj [("id", VStr ""); ("name", VStr "Town hall");
               ("playbackUrls", VList [Demo.dash_entry])]) "id"
  = Ok (VStr "")
  /\ output_field "id"
       (_real_extract
          (Demo.world [] (Some Demo.page)
             (Some (Demo.obj [("id", VStr ""); ("name", VStr "Town hall");
                              ("playbackUrls", VList [Demo.dash_entry])]))
             None Demo.dash_formats)
          Demo.url)
     = Ok (Some (VStr "6e51d928-4f46-4f1c-b141-369925e37b62")).
Proof. split; reflexivity. Qed.

(** ** A failed text-track download (lines 30-33) *)

(** [.get('value')] is called on whatever [_download_json] returned: any
    answer that is not a JSON object, and so the [False] of a failed
    non-fatal download, ends [_get_all_subtitles] with an
    [AttributeError]. *)
Lemma get_all_subtitles_needs_object (H : host) api_url video_id hdrs :
  match json_of H (texttracks_url H api_url video_id) [api_version] hdrs with
  | Some (VDict _) => True
  | _ =>
      _get_all_subtitles H api_url video_id hdrs
      = (Raise AttributeError,
         [GetJson (texttracks_url H api_url video_id) [api_version] hdrs])
  end.
Proof.
  unfold _get_all_subtitles, _download_json.
  destruct (json_of H _ _ _) as [[| | | | |d]|]; try exact I; reflexivity.
Qed.

(** C1 (what the code does).  When subtitles are requested and the
    text-track download fails, the subtitle step raises an
    [AttributeError] instead of giving two empty maps, and so no
    extraction that returns a record had a failed text-track download;
    the run on [Demo.video] with [writesubtitles] set and the text-track
    API down ends with that exception. *)
Theorem failed_texttracks_fetch_aborts :
  (forall (H : host) api_url video_id hdrs,
      subtitles_requested H = true ->
      json_of H (texttracks_url H api_url video_id) [api_version] hdrs = None ->
      extract_all_subtitles H api_url video_id hdrs
      = (Raise AttributeError,
         [GetJson (texttracks_url H api_url video_id) [api_version] hdrs]))
  /\ (forall (H : host) url r t,
         subtitles_requested H = true ->
         _real_extract H url = (Ok r, t) ->
         exists api_url video_id hdrs response,
           In (GetJson (texttracks_url H api_url video_id) [api_version] hdrs) t
           /\ json_of H (texttracks_url H api_url video_id) [api_version] hdrs
              = Some (VDict response))
  /\ _real_extract
       (Demo.world Demo.write_subs (Some Demo.page) (Some Demo.video) None
          Demo.dash_formats)
       Demo.url
     = (Raise AttributeError,
        [GetWebpage Demo.url;
         GetJson (video_url Demo.api_url Demo.url_id) video_query Demo.hdrs;
         GetMpd (VStr "https://cdn/manifest.mpd")
           (VStr "b60f5987-aabd-4e1c-a42f-c559d138f2ca") Demo.hdrs;
         GetJson
           (Demo.api_url ++ "/videos/b60f5987-aabd-4e1c-a42f-c559d138f2ca/texttracks")%string
           [api_version] Demo.hdrs]).
Proof.
  split; [|split; [|reflexivity]].
  - intros H api_url video_id hdrs Hreq Hjson.
    unfold extract_all_subtitles. rewrite Hreq.
    assert (Hget := get_all_subtitles_needs_object H api_url video_id hdrs).
    now rewrite Hjson in Hget.
  - intros H url r t Hreq Hrun.
    apply real_extract_ok_inv in Hrun.
    destruct Hrun as (url_id & api_url & access_token & video_data & t' & _ & Hrun & ->).
    unfold extract_from in Hrun. inv_run.
    match goal with
    | Hs : extract_all_subtitles _ _ ?vid ?hdrs = _ |- _ =>
        split_subs Hs; [congruence|]; exists api_url, vid, hdrs
    end.
    match goal with
    | Hj : json_of _ _ _ _ = Some (VDict ?d) |- _ => exists d; split; [|exact Hj]
    end.
    subst. right. right. rewrite !app_nil_l. apply in_or_app. right.
    now left.
Qed.

(** ** Thumbnails (lines 74-86) *)

Ltac each_char c :=
  destruct c as [[|] [|] [|] [|] [|] [|] [|] [|]].

Lemma digit_not_space (c : ascii) : is_digit c = true -> is_space c = false.
Proof. each_char c; intros Hd; try discriminate Hd; reflexivity. Qed.

Lemma digit_is_alnum (c : ascii) : is_digit c = true -> is_alnum c = true.
Proof. unfold is_alnum. now intros ->. Qed.

Lemma repr_byte_digit (quote c : ascii) :
  quote = squote \/ quote = dquote ->
  is_digit c = true -> repr_byte quote c = [c].
Proof.
  intros [-> | ->]; each_char c; intros Hd; try discriminate Hd; reflexivity.
Qed.

Lemma repr_digits (quote : ascii) (ds : list ascii) :
  quote = squote \/ quote = dquote ->
  forallb is_digit ds = true -> flat_map (repr_byte quote) ds = ds.
Proof.
  intros Hq. induction ds as [|c ds IH]; [reflexivity|].
  cbn [forallb flat_map]. intros Hd. apply andb_true_iff in Hd.
  destruct Hd as [Hc Hds].
  now rewrite (repr_byte_digit _ _ Hq Hc), IH.
Qed.

(** The text of a byte that is not alphanumeric does not start with an
    alphanumeric character. *)
Lemma repr_byte_not_alnum (quote c : ascii) (tail : list ascii) :
  is_alnum c = false -> not_alnum_next (repr_byte quote c ++ tail) = true.
Proof.
  intros Hc. unfold repr_byte.
  repeat match goal with
    | |- context [if ?b then _ else _] => destruct b
    end; cbn [app not_alnum_next]; try reflexivity.
  now rewrite Hc.
Qed.

Lemma repr_rest_not_alnum (quote : ascii) (rest : list ascii) :
  quote = squote \/ quote = dquote ->
  not_alnum_next rest = true ->
  not_alnum_next (flat_map (repr_byte quote) rest ++ [quote]) = true.
Proof.
  intros Hq. destruct rest as [|c rest]; cbn [flat_map not_alnum_next app].
  - now destruct Hq as [-> | ->].
  - intros Hc. apply negb_true_iff in Hc. rewrite <- app_assoc.
    now apply repr_byte_not_alnum.
Qed.

Lemma span_run (p : ascii -> bool) (run rest : list ascii) :
  forallb p run = true ->
  match rest with c :: _ => p c = false | [] => True end ->
  span p (run ++ rest) = (run, rest).
Proof.
  intros Hrun Hrest. induction run as [|c run IH].
  - destruct rest as [|c rest]; [reflexivity|]. cbn [app span]. now rewrite Hrest.
  - cbn [forallb] in Hrun. apply andb_true_iff in Hrun. destruct Hrun as [Hc Hrun].
    cbn [app span]. now rewrite Hc, IH.
Qed.

Lemma not_alnum_next_not_digit (rest : list ascii) :
  not_alnum_next rest = true ->
  match rest with c :: _ => is_digit c = false | [] => True end.
Proof.
  destruct rest as [|c rest]; [easy|]. cbn [not_alnum_next]. intros Hc.
  apply negb_true_iff in Hc. unfold is_alnum in Hc.
  now destruct (is_digit c).
Qed.

(** The resolution pattern matches a width, an [x], a height and then
    no alphanumeric character, where no alphanumeric character comes
    before. *)
Lemma match_wxh_resolution (prev : option ascii) (w h rest : list ascii) :
  not_alnum_before prev = true ->
  forallb is_digit w = true -> w <> [] ->
  forallb is_digit h = true -> h <> [] ->
  not_alnum_next rest = true ->
  match_wxh prev (w ++ "x"%char :: h ++ rest)
  = Some (int_of_digits w, int_of_digits h).
Proof.
  intros Hprev Hw Hw0 Hh Hh0 Hrest. unfold match_wxh. rewrite Hprev.
  rewrite (span_run is_digit w ("x"%char :: h ++ rest) Hw eq_refl).
  destruct w as [|cw w]; [contradiction|].
  destruct h as [|ch h]; [contradiction|].
  cbn [forallb] in Hh. apply andb_true_iff in Hh. destruct Hh as [Hch Hh].
  cbn [app span]. change (is_space "x") with false. cbv iota. cbn [snd].
  change (is_sep "x") with true. cbv iota.
  cbn [span]. rewrite (digit_not_space _ Hch). cbn [snd].
  change (ch :: h ++ rest) with ((ch :: h) ++ rest).
  rewrite (span_run is_digit (ch :: h) rest).
  - now rewrite Hrest.
  - cbn [forallb]. now rewrite Hch, Hh.
  - now apply not_alnum_next_not_digit.
Qed.

Lemma re_search_here {A} (m : option ascii -> list ascii -> option A)
    (prev : option ascii) (s : list ascii) (r : A) :
  m prev s = Some r -> re_search m prev s = Some r.
Proof. intros Hm. destruct s; cbn [re_search]; now rewrite Hm. Qed.

Lemma re_search_skip {A} (m : option ascii -> list ascii -> option A)
    (prev : option ascii) (c : ascii) (s : list ascii) :
  m prev (c :: s) = None -> re_search m prev (c :: s) = re_search m (Some c) s.
Proof. intros Hm. cbn [re_search]. now rewrite Hm. Qed.

Lemma quote_of_bytes (b : list ascii) :
  let quote :=
    if existsb (Ascii.eqb squote) b && negb (existsb (Ascii.eqb dquote) b)
    then dquote else squote in
  quote = squote \/ quote = dquote.
Proof.
  cbv zeta.
  destruct (existsb (Ascii.eqb squote) b && negb (existsb (Ascii.eqb dquote) b));
    [now right | now left].
Qed.

(** Bytes that start with a width, an [x] and a height, and go on with
    nothing or with a byte that is not alphanumeric, are read as that
    resolution. *)
Lemma parse_resolution_of_bytes (w h rest : list ascii) :
  forallb is_digit w = true -> w <> [] ->
  forallb is_digit h = true -> h <> [] ->
  not_alnum_next rest = true ->
  parse_resolution (bytes_str (w ++ "x"%char :: h ++ rest))
  = [(key "width", VInt (int_of_digits w)); (key "height", VInt (int_of_digits h))].
Proof.
  intros Hw Hw0 Hh Hh0 Hrest.
  unfold parse_resolution, bytes_str.
  rewrite list_ascii_of_string_of_list_ascii.
  assert (Hq := quote_of_bytes (w ++ "x"%char :: h ++ rest)). cbv zeta in Hq.
  match goal with
  | |- context [if ?c then dquote else squote] =>
      set (quote := if c then dquote else squote) in *
  end.
  clearbody quote.
  assert (Hbody :
    flat_map (repr_byte quote) (w ++ "x"%char :: h ++ rest) ++ [quote]
    = w ++ "x"%char :: h ++ (flat_map (repr_byte quote) rest ++ [quote])).
  { rewrite flat_map_app. cbn [flat_map]. rewrite flat_map_app.
    rewrite (repr_digits quote w Hq Hw), (repr_digits quote h Hq Hh).
    assert (Hx : repr_byte quote "x" = ["x"%char])
      by (destruct Hq as [-> | ->]; reflexivity).
    rewrite Hx. repeat (rewrite <- app_assoc; cbn [app]). reflexivity. }
  rewrite Hbody.
  assert (Hfound :
    re_search match_wxh None
      ("b"%char :: quote :: w ++ "x"%char :: h
         ++ flat_map (repr_byte quote) rest ++ [quote])
    = Some (int_of_digits w, int_of_digits h)).
  { rewrite re_search_skip by reflexivity.
    rewrite re_search_skip by reflexivity.
    apply re_search_here, match_wxh_resolution; try assumption.
    - now destruct Hq as [-> | ->].
    - now apply repr_rest_not_alnum. }
  now rewrite Hfound.
Qed.

Lemma try_get_poster_url (video_data : value) (thumbnail_id url : string) :
  poster_url thumbnail_id video_data = Ok (VStr url) ->
  try_get video_data [poster_url thumbnail_id] (Some is_str) = Ok (VStr url).
Proof. cbn [try_get]. now intros ->. Qed.

(** C2 (amended).  A thumbnail whose URL has a final path segment that
    base64-decodes (after padding) gets, besides its [id] and [url],
    what [parse_resolution] reads in the text of the decoded bytes: the
    width and the height when the bytes start with a resolution such as
    [1280x720] followed by nothing or by a non-alphanumeric byte, and
    nothing when no resolution is found in them. *)
Theorem thumbnail_resolution_from_name :
  (forall (H : host) video_data thumbnail_id url decoded,
      poster_url thumbnail_id video_data = Ok (VStr url) ->
      url <> EmptyString ->
      b64decode (pad4 (url_basename H url)) = Ok decoded ->
      let base := [(key "id", VStr thumbnail_id); (key "url", VStr url)] in
      thumbnail H video_data thumbnail_id
      = Ok (Some (dict_update base (parse_resolution (bytes_str decoded))))
      /\ (forall w h rest,
             decoded = w ++ "x"%char :: h ++ rest ->
             forallb is_digit w = true -> w <> [] ->
             forallb is_digit h = true -> h <> [] ->
             not_alnum_next rest = true ->
             thumbnail H video_data thumbnail_id
             = Ok (Some (base ++ [(key "width", VInt (int_of_digits w));
                                  (key "height", VInt (int_of_digits h))])))
      /\ (parse_resolution (bytes_str decoded) = [] ->
          thumbnail H video_data thumbnail_id = Ok (Some base)))
  /\ b64decode (pad4 "MTI4MHg3MjAuanBn") = Ok (list_ascii_of_string "1280x720.jpg")
  /\ thumbnail Demo.video_world Demo.video "medium"
     = Ok (Some [(key "id", VStr "medium");
                 (key "url", VStr "https://cdn/img/MTI4MHg3MjAuanBn");
                 (key "width", VInt 1280); (key "height", VInt 720)]).
Proof.
  split; [|split; reflexivity].
  intros H video_data thumbnail_id url decoded Hurl Hne Hdec base.
  assert (Hthumb : thumbnail H video_data thumbnail_id
                   = Ok (Some (dict_update base (parse_resolution (bytes_str decoded))))).
  { unfold thumbnail. rewrite (try_get_poster_url _ _ _ Hurl). cbn [rbind truthy].
    destruct (String.eqb_spec url "") as [->|_]; [contradiction|].
    cbn [negb]. now rewrite Hdec. }
  split; [exact Hthumb|]. split.
  - intros w h rest -> Hw Hw0 Hh Hh0 Hrest.
    rewrite Hthumb, parse_resolution_of_bytes by assumption. reflexivity.
  - intros Hnone. now rewrite Hthumb, Hnone.
Qed.

Lemma thumbnail_resolution_from_name_witness :
  thumbnail Demo.video_world Demo.video "medium"
  = Ok (Some ([(key "id", VStr "medium");
               (key "url", VStr "https://cdn/img/MTI4MHg3MjAuanBn")]
              ++ [(key "width", VInt (int_of_digits (list_ascii_of_string "1280")));
                  (key "height", VInt (int_of_digits (list_ascii_of_string "720")))])).
Proof.
  apply (proj1 (proj2 (proj1 thumbnail_resolution_from_name
           Demo.video_world Demo.video "medium" "https://cdn/img/MTI4MHg3MjAuanBn"
           (list_ascii_of_string "1280x720.jpg") eq_refl ltac:(discriminate) eq_refl))
           (list_ascii_of_string "1280") (list_ascii_of_string "720")
           (list_ascii_of_string ".jpg"));
    first [reflexivity | discriminate].
Defined.

(** The claim fails as stated: [thumb] is not the base64 of anything
    (five data characters), [b64decode] raises, and the extraction
    ends there. *)
Lemma undecodable_thumbnail_name_aborts :
  b64decode (pad4 "thumb") = Raise BinasciiError
  /\ outcome
       (_real_extract
          (Demo.world [] (Some Demo.page)
             (Some (Demo.obj
                      [("name", VStr "Town hall");
                       ("posterImage",
                        Demo.obj [("small", Demo.obj [("url", VStr "https://cdn/img/thumb")])]);
                       ("playbackUrls", VList [Demo.dash_entry])]))
             None Demo.dash_formats)
          Demo.url)
     = Raise BinasciiError.
Proof. split; reflexivity. Qed.

(** ** Absent fields of the video record *)

Lemma get_method_field (d : dict) (name : string) :
  get_method (VDict d) name = Ok (field d name).
Proof. unfold get_method, field. now destruct (dict_get (key name) d). Qed.

Lemma getitem_catchable (x : value) (name : string) (e : exn) :
  getitem x name = Raise e -> try_get_catches e = true.
Proof.
  unfold getitem. destruct x; try (now intros [= <-]).
  destruct (dict_get (key name) items); [discriminate | now intros [= <-]].
Qed.

Lemma getitem2_catchable (x : value) (k1 k2 : string) (e : exn) :
  (a <-? getitem x k1; getitem a k2) = Raise e -> try_get_catches e = true.
Proof.
  destruct (getitem x k1) as [a|e1] eqn:E1; cbn [rbind].
  - apply getitem_catchable.
  - intros [= <-]. now apply getitem_catchable in E1.
Qed.

(** [try_get] over getters that can only fail with a swallowed exception
    always gives a value. *)
Lemma try_get_total (src : value) (getters : list (value -> result value))
    (expected_type : option (value -> bool)) :
  Forall (fun get => forall e, get src = Raise e -> try_get_catches e = true) getters ->
  exists v, try_get src getters expected_type = Ok v.
Proof.
  induction 1 as [|get rest Hget _ IH]; cbn [try_get]; [now exists VNone|].
  destruct (get src) as [v|e] eqn:E.
  - destruct expected_type as [isinstance|]; [|now exists v].
    destruct (isinstance v); [now exists v | exact IH].
  - now rewrite (Hget e eq_refl).
Qed.

(** A getter through an absent field finds nothing. *)
Lemma try_get_absent (d : dict) (k1 k2 : string)
    (expected_type : option (value -> bool)) :
  dict_get (key k1) d = None ->
  try_get (VDict d) [fun x => a <-? getitem x k1; getitem a k2] expected_type
  = Ok VNone.
Proof. intros Hk. cbn [try_get getitem rbind]. now rewrite Hk. Qed.

Lemma try_get_absent2 (d : dict) (k1 k2 k3 : string)
    (expected_type : option (value -> bool)) :
  dict_get (key k1) d = None ->
  try_get (VDict d)
    [fun x => a <-? getitem x k1; getitem a k2;
     fun x => a <-? getitem x k1; getitem a k3] expected_type
  = Ok VNone.
Proof. intros Hk. cbn [try_get getitem rbind]. now rewrite Hk. Qed.

Lemma thumbnail_absent (H : host) (d : dict) (thumbnail_id : string) :
  dict_get (key "posterImage") d = None ->
  thumbnail H (VDict d) thumbnail_id = Ok None.
Proof.
  intros Hp. unfold thumbnail, poster_url. cbn [try_get getitem rbind].
  now rewrite Hp.
Qed.

Lemma thumbnails_absent (H : host) (d : dict) :
  dict_get (key "posterImage") d = None ->
  thumbnails_loop H (VDict d) thumbnail_ids [] = Ok [].
Proof.
  intros Hp. unfold thumbnail_ids. cbn [thumbnails_loop].
  now rewrite !(thumbnail_absent H d _ Hp).
Qed.

(** The record of an extraction whose video record has a name and a
    playable playlist, and whose thumbnail and subtitle steps end well. *)
Lemma extract_from_ok (H : host) url_id api_url hdrs d title playlists thumbnails subs :
  dict_get (key "name") d = Some title ->
  dict_get (key "playbackUrls") d = Some (VList playlists) ->
  forallb playable playlists = true ->
  thumbnails_loop H (VDict d) thumbnail_ids [] = Ok thumbnails ->
  outcome (extract_all_subtitles H api_url (py_or (field d "id") (VStr url_id)) hdrs)
  = Ok subs ->
  exists uploader uploader_id duration view_count like_count comment_count,
    try_get (VDict d) [creator_field "name"] (Some is_str) = Ok uploader
    /\ try_get (VDict d) [creator_field "mail"; creator_field "id"] (Some is_str)
       = Ok uploader_id
    /\ try_get (VDict d) [media_duration] None = Ok duration
    /\ try_get (VDict d) [metric "views"] (Some is_int) = Ok view_count
    /\ try_get (VDict d) [metric "likes"] (Some is_int) = Ok like_count
    /\ try_get (VDict d) [metric "comments"] (Some is_int) = Ok comment_count
    /\ outcome (extract_from H url_id api_url hdrs (VDict d))
       = Ok (dict_display
               ([(key "id", py_or (field d "id") (VStr url_id));
                 (key "title", title);
                 (key "description", field d "description");
                 (key "uploader", uploader);
                 (key "uploader_id", uploader_id);
                 (key "thumbnails", dict_list thumbnails)]
                ++ subs
                ++ [(key "timestamp", parse_iso8601 H (field d "created"));
                    (key "duration", parse_duration H duration);
                    (key "webpage_url",
                     VStr ("https://web.microsoftstream.com/video/"
                           ++ fstr H (py_or (field d "id") (VStr url_id)))%string);
                    (key "view_count", view_count);
                    (key "like_count", like_count);
                    (key "comment_count", comment_count);
                    (key "formats",
                     dict_list
                       (_sort_formats H
                          (map (tag_language (field d "language"))
                             (flat_map
                                (entry_formats H (py_or (field d "id") (VStr url_id)) hdrs)
                                playlists))))])).
Proof.
  intros Hname Hplay Hall Hthumbs Hsubs.
  destruct (try_get_total (VDict d) [creator_field "name"] (Some is_str))
    as [uploader Hup].
  { repeat constructor. intros e. apply getitem2_catchable. }
  destruct (try_get_total (VDict d) [creator_field "mail"; creator_field "id"]
              (Some is_str)) as [uploader_id Hupid].
  { repeat constructor; intros e; apply getitem2_catchable. }
  destruct (try_get_total (VDict d) [media_duration] None) as [duration Hdur].
  { repeat constructor. intros e. apply getitem2_catchable. }
  destruct (try_get_total (VDict d) [metric "views"] (Some is_int)) as [vc Hvc].
  { repeat constructor. intros e. apply getitem2_catchable. }
  destruct (try_get_total (VDict d) [metric "likes"] (Some is_int)) as [lc Hlc].
  { repeat constructor. intros e. apply getitem2_catchable. }
  destruct (try_get_total (VDict d) [metric "comments"] (Some is_int)) as [cc Hcc].
  { repeat constructor. intros e. apply getitem2_catchable. }
  exists uploader, uploader_id, duration, vc, lc, cc.
  repeat (split; [assumption|]).
  unfold extract_from.
  rewrite (bind_lift_ok _ _ _ (get_method_field d "id")).
  rewrite (bind_lift_ok _ _ _ (get_method_field d "language")).
  rewrite (bind_lift_ok _ _ _ Hthumbs).
  assert (Hpl : getitem (VDict d) "playbackUrls" = Ok (VList playlists))
    by (cbn [getitem]; now rewrite Hplay).
  rewrite (bind_lift_ok _ _ _ Hpl).
  rewrite (bind_lift_ok _ playlists) by reflexivity.
  rewrite outcome_bind, (formats_loop_playable H _ _ _ Hall).
  cbn [outcome fst rbind app].
  assert (Htitle : getitem (VDict d) "name" = Ok title)
    by (cbn [getitem]; now rewrite Hname).
  rewrite (bind_lift_ok _ _ _ Htitle).
  rewrite (bind_lift_ok _ _ _ (get_method_field d "description")).
  rewrite (bind_lift_ok _ _ _ Hup).
  rewrite (bind_lift_ok _ _ _ Hupid).
  rewrite outcome_bind, Hsubs. cbn [rbind].
  rewrite (bind_lift_ok _ _ _ (get_method_field d "created")).
  rewrite (bind_lift_ok _ _ _ Hdur).
  rewrite (bind_lift_ok _ _ _ Hvc).
  rewrite (bind_lift_ok _ _ _ Hlc).
  rewrite (bind_lift_ok _ _ _ Hcc).
  reflexivity.
Qed.

(** C3 (amended).  For a video record that has a [name] and a
    [playbackUrls] list of playable entries, the absence of any other
    field is not fatal: provided the thumbnail names decode and the
    subtitle step ends well, the extraction returns a record, in which
    the fields computed from an absent input are [None] (the [id] falls
    back on the URL's, the thumbnails are empty without [posterImage],
    the timestamp and duration are what the framework parses from
    [None]). *)
Theorem absent_fields_are_not_fatal
    (H : host) url url_id api_url access_token d title playlists thumbnails subs :
  reaches_video H url url_id api_url access_token (VDict d) ->
  dict_get (key "name") d = Some title ->
  dict_get (key "playbackUrls") d = Some (VList playlists) ->
  forallb playable playlists = true ->
  thumbnails_loop H (VDict d) thumbnail_ids [] = Ok thumbnails ->
  outcome (extract_all_subtitles H api_url (py_or (field d "id") (VStr url_id))
             (bearer access_token)) = Ok subs ->
  exists r,
    outcome (_real_extract H url) = Ok r
    /\ dict_get (key "title") r = Some title
    /\ dict_get (key "thumbnails") r = Some (dict_list thumbnails)
    /\ (dict_get (key "posterImage") d = None -> thumbnails = [])
    /\ (dict_get (key "id") d = None -> dict_get (key "id") r = Some (VStr url_id))
    /\ (dict_get (key "description") d = None ->
        dict_get (key "description") r = Some VNone)
    /\ (dict_get (key "creator") d = None ->
        dict_get (key "uploader") r = Some VNone
        /\ dict_get (key "uploader_id") r = Some VNone)
    /\ (dict_get (key "created") d = None ->
        dict_get (key "timestamp") r = Some (parse_iso8601 H VNone))
    /\ (dict_get (key "media") d = None ->
        dict_get (key "duration") r = Some (parse_duration H VNone))
    /\ (dict_get (key "metrics") d = None ->
        dict_get (key "view_count") r = Some VNone
        /\ dict_get (key "like_count") r = Some VNone
        /\ dict_get (key "comment_count") r = Some VNone).
Proof.
  intros Hreach Hname Hplay Hall Hthumbs Hsubs.
  destruct (extract_from_ok H url_id api_url (bearer access_token) d title playlists
              thumbnails subs Hname Hplay Hall Hthumbs Hsubs)
    as (uploader & uploader_id & duration & vc & lc & cc
        & Hup & Hupid & Hdur & Hvc & Hlc & Hcc & Hout).
  rewrite (real_extract_from_video _ _ _ _ _ _ Hreach).
  unfold outcome at 1. cbn [fst]. rewrite Hout. eexists. split; [reflexivity|].
  assert (Hshape : subs = []
                   \/ exists s a, subs = [(key "subtitles", s); (key "automatic_captions", a)]).
  { rewrite (run_eta (extract_all_subtitles _ _ _ _)) in Hsubs.
    unfold outcome at 1 in Hsubs. cbn [fst] in Hsubs.
    destruct (extract_all_subtitles H api_url _ (bearer access_token)) as [o t] eqn:E.
    cbn [outcome fst] in Hsubs. subst o.
    apply extract_all_subtitles_shape in E.
    destruct E as [(_ & -> & _) | (_ & s & a & _ & -> & _)]; [now left|].
    right. now exists s, a. }
  destruct Hshape as [-> | (s & a & ->)].
  all: split; [reflexivity|]; split; [reflexivity|].
  all: split; [intros Hp; rewrite (thumbnails_absent H d Hp) in Hthumbs;
               now injection Hthumbs|].
  all: split; [intros Hk; unfold field; rewrite Hk; reflexivity|].
  all: split; [intros Hk; unfold field; rewrite Hk; reflexivity|].
  all: split; [intros Hk;
               rewrite (try_get_absent d "creator" "name" _ Hk) in Hup;
               rewrite (try_get_absent2 d "creator" "mail" "id" _ Hk) in Hupid;
               injection Hup as <-; injection Hupid as <-; split; reflexivity|].
  all: split; [intros Hk; unfold field; rewrite Hk; reflexivity|].
  all: split; [intros Hk;
               rewrite (try_get_absent d "media" "duration" _ Hk) in Hdur;
               injection Hdur as <-; reflexivity|].
  all: intros Hk;
    rewrite (try_get_absent d "metrics" "views" _ Hk) in Hvc;
    rewrite (try_get_absent d "metrics" "likes" _ Hk) in Hlc;
    rewrite (try_get_absent d "metrics" "comments" _ Hk) in Hcc;
    injection Hvc as <-; injection Hlc as <-; injection Hcc as <-;
    repeat split; reflexivity.
Qed.

Lemma minimal_world_reaches_video :
  reaches_video Demo.minimal_world Demo.url Demo.url_id Demo.api_url Demo.token
    (VDict Demo.minimal_items).
Proof. exists Demo.page. repeat split; reflexivity. Qed.

Lemma absent_fields_are_not_fatal_witness :
  exists r,
    outcome (_real_extract Demo.minimal_world Demo.url) = Ok r
    /\ dict_get (key "title") r = Some (VStr "Town hall")
    /\ dict_get (key "thumbnails") r = Some (dict_list [])
    /\ (dict_get (key "posterImage") Demo.minimal_items = None -> @nil dict = [])
    /\ (dict_get (key "id") Demo.minimal_items = None ->
        dict_get (key "id") r = Some (VStr Demo.url_id))
    /\ (dict_get (key "description") Demo.minimal_items = None ->
        dict_get (key "description") r = Some VNone)
    /\ (dict_get (key "creator") Demo.minimal_items = None ->
        dict_get (key "uploader") r = Some VNone
        /\ dict_get (key "uploader_id") r = Some VNone)
    /\ (dict_get (key "created") Demo.minimal_items = None ->
        dict_get (key "timestamp") r
        = Some (parse_iso8601 Demo.minimal_world VNone))
    /\ (dict_get (key "media") Demo.minimal_items = None ->
        dict_get (key "duration") r
        = Some (parse_duration Demo.minimal_world VNone))
    /\ (dict_get (key "metrics") Demo.minimal_items = None ->
        dict_get (key "view_count") r = Some VNone
        /\ dict_get (key "like_count") r = Some VNone
        /\ dict_get (key "comment_count") r = Some VNone).
Proof.
  apply (absent_fields_are_not_fatal Demo.minimal_world Demo.url Demo.url_id
           Demo.api_url Demo.token Demo.minimal_items (VStr "Town hall")
           [Demo.dash_entry] [] []).
  - exact minimal_world_reaches_video.
  - reflexivity.
  - reflexivity.
  - reflexivity.
  - reflexivity.
  - reflexivity.
Defined.

(** The claim fails as stated: without [playbackUrls], and without
    [name], the extraction ends with a [KeyError]. *)
Lemma missing_name_or_playlist_aborts :
  outcome (_real_extract
             (Demo.world [] (Some Demo.page)
                (Some (Demo.obj [("name", VStr "Town hall")])) None [])
             Demo.url)
  = Raise (KeyError (VStr "playbackUrls"))
  /\ outcome (_real_extract
                (Demo.world [] (Some Demo.page)
                   (Some (Demo.obj [("playbackUrls", VList [Demo.dash_entry])]))
                   None Demo.dash_formats)
                Demo.url)
     = Raise (KeyError (VStr "name")).
Proof. split; reflexivity. Qed.

(** ** The language tag (line 103) *)

Lemma dict_get_set_same (k v : value) (d : dict) :
  key_eqb k k = true -> dict_get k (dict_set k v d) = Some v.
Proof.
  intros Hk. induction d as [|[k' v'] rest IH]; cbn [dict_set dict_get].
  - now rewrite Hk.
  - destruct (key_eqb k k') eqn:E; cbn [dict_get]; now rewrite E.
Qed.

Lemma dict_get_set_other (k k' v : value) (d : dict) :
  key_eqb k k' = false -> dict_get k (dict_set k' v d) = dict_get k d.
Proof.
  intros Hk. induction d as [|[k'' v''] rest IH]; cbn [dict_set dict_get].
  - now rewrite Hk.
  - destruct (key_eqb k' k'') eqn:E; cbn [dict_get].
    + rewrite <- (key_eqb_congr _ _ k E). now rewrite Hk.
    + now rewrite IH.
Qed.

Lemma merge_item_other (k : value) (merged : dict) (kv : value * value) :
  key_eqb k (fst kv) = false ->
  dict_get k (merge_item merged kv) = dict_get k merged.
Proof.
  destruct kv as [k' v]. cbn [fst]. intros Hk. unfold merge_item.
  destruct (is_none v); [reflexivity|].
  destruct (dict_get k' merged) as [old|].
  - destruct (is_str v && truthy v && is_str old && negb (truthy old));
      [now apply dict_get_set_other | reflexivity].
  - now apply dict_get_set_other.
Qed.

Lemma merge_items_other (k : value) (items : dict) :
  Forall (fun kv => key_eqb k (fst kv) = false) items ->
  forall merged, dict_get k (fold_left merge_item items merged) = dict_get k merged.
Proof.
  induction 1 as [|kv rest Hkv _ IH]; intros merged; [reflexivity|].
  cbn [fold_left]. rewrite IH. now apply merge_item_other.
Qed.

(** A format without a [language] item has no language set by the
    resolver; a format with one such item has its value, unless it is
    [None]. *)
Lemma resolver_language_unset (f : dict) :
  Forall (fun kv => key_eqb (key "language") (fst kv) = false) f ->
  resolver_language f = None.
Proof.
  intros Hf. unfold resolver_language, merge_dicts. cbn [fold_left].
  now rewrite merge_items_other.
Qed.

Lemma resolver_language_item (before after : dict) (v : value) :
  Forall (fun kv => key_eqb (key "language") (fst kv) = false) (before ++ after) ->
  resolver_language (before ++ (key "language", v) :: after)
  = if is_none v then None else Some v.
Proof.
  intros Hf. apply Forall_app in Hf. destruct Hf as [Hb Ha].
  unfold resolver_language, merge_dicts. cbn [fold_left].
  rewrite fold_left_app. cbn [fold_left].
  rewrite (merge_items_other _ _ Ha).
  assert (Hnone : dict_get (key "language") (fold_left merge_item before []) = None)
    by now rewrite (merge_items_other _ _ Hb).
  unfold merge_item at 1. destruct (is_none v); [exact Hnone|].
  rewrite Hnone. now apply dict_get_set_same.
Qed.

(** The language of a tagged format. *)
Lemma tag_language_language (language : value) (f : dict) :
  dict_get (key "language") (tag_language language f)
  = tagged_language language (resolver_language f).
Proof.
  unfold tag_language, resolver_language, tagged_language, merge_dicts.
  cbn [fold_left dict_display dict_update dict_set fst snd].
  set (merged := fold_left merge_item f []).
  unfold merge_item. destruct (is_none language) eqn:Hnone.
  { destruct language; try discriminate Hnone. cbn [is_str andb].
    now destruct (dict_get _ merged). }
  destruct (dict_get (key "language") merged) as [old|] eqn:Hold.
  - destruct (is_str language && truthy language && is_str old && negb (truthy old));
      [now apply dict_get_set_same | exact Hold].
  - now apply dict_get_set_same.
Qed.

Lemma in_dict_list (formats : list dict) (v : value) :
  In v (map VDict formats) <-> exists e, v = VDict e /\ In e formats.
Proof.
  rewrite in_map_iff. split; intros (e & He & Hin); exists e; now split.
Qed.

(** C9 (amended).  Where the framework's sorting only reorders the
    formats, every entry of the final [formats] list is a format some
    resolver produced for a playlist entry, merged with the video's
    [language]: its [language] is the video's when the resolver set
    none and the video has one, and the resolver's own when the
    resolver set one (but for an empty string, which a non-empty video
    language replaces). *)
Theorem format_language_tag
    (H : host) (url : string) (r : dict) (t : list request) :
  (forall l, Permutation (_sort_formats H l) l) ->
  _real_extract H url = (Ok r, t) ->
  exists url_id api_url access_token d playlists final,
    reaches_video H url url_id api_url access_token (VDict d)
    /\ iterate (field d "playbackUrls") = Ok playlists
    /\ dict_get (key "formats") r = Some (dict_list final)
    /\ forall e, In e final ->
         exists playlist f,
           In playlist playlists
           /\ In f (entry_formats H (py_or (field d "id") (VStr url_id))
                      (bearer access_token) playlist)
           /\ e = tag_language (field d "language") f
           /\ dict_get (key "language") e
              = tagged_language (field d "language") (resolver_language f)
           /\ (resolver_language f = None -> field d "language" <> VNone ->
               dict_get (key "language") e = Some (field d "language"))
           /\ (forall old, resolver_language f = Some old -> truthy old = true ->
                           dict_get (key "language") e = Some old).
Proof.
  intros Hsort Hrun. apply real_extract_ok_inv in Hrun.
  destruct Hrun as (url_id & api_url & access_token & video_data & t' & Hreach & Hrun & _).
  unfold extract_from in Hrun. inv_run.
  destruct video_data as [| | | | |d]; try discriminate.
  repeat match goal with
    | Hg : get_method (VDict d) ?name = Ok ?x |- _ =>
        rewrite get_method_field in Hg; injection Hg as <-
    end.
  match goal with
  | Hg : getitem (VDict d) "playbackUrls" = Ok ?x |- _ =>
      assert (x = field d "playbackUrls")
        by (unfold getitem in Hg; unfold field;
            destruct (dict_get (key "playbackUrls") d);
            [now injection Hg | discriminate Hg]);
      subst x
  end.
  match goal with
  | Hl : formats_loop _ _ _ ?pls [] = (Ok ?fs, _) |- _ =>
      assert (Hall := formats_loop_ok_inv _ _ _ _ _ _ _ Hl);
      rewrite (formats_loop_playable _ _ _ _ Hall) in Hl;
      injection Hl as <- _;
      exists url_id, api_url, access_token, d, pls
  end.
  eexists. split; [assumption|]. split; [assumption|]. split.
  - match goal with
    | Hs : extract_all_subtitles _ _ _ _ = _ |- _ => split_subs Hs
    end; subst r; reflexivity.
  - intros e He. apply (Permutation_in _ (Hsort _)) in He.
    apply in_map_iff in He. destruct He as (f & <- & Hf).
    cbn [app] in Hf. apply in_flat_map in Hf. destruct Hf as (playlist & Hp & Hf).
    exists playlist, f. split; [assumption|]. split; [assumption|].
    split; [reflexivity|].
    assert (Hlang := tag_language_language (field d "language") f).
    split; [exact Hlang|]. split.
    + intros Hnone Hvideo. rewrite Hlang, Hnone. cbn [tagged_language].
      destruct (field d "language"); try reflexivity. contradiction.
    + intros old Hold Htruthy. rewrite Hlang, Hold. cbn [tagged_language].
      now rewrite Htruthy, andb_false_r.
Qed.

Lemma format_language_tag_witness :
  exists url_id api_url access_token d playlists final,
    reaches_video Demo.video_world Demo.url url_id api_url access_token (VDict d)
    /\ iterate (field d "playbackUrls") = Ok playlists
    /\ dict_get (key "formats") Demo.video_record = Some (dict_list final)
    /\ forall e, In e final ->
         exists playlist f,
           In playlist playlists
           /\ In f (entry_formats Demo.video_world (py_or (field d "id") (VStr url_id))
                      (bearer access_token) playlist)
           /\ e = tag_language (field d "language") f
           /\ dict_get (key "language") e
              = tagged_language (field d "language") (resolver_language f)
           /\ (resolver_language f = None -> field d "language" <> VNone ->
               dict_get (key "language") e = Some (field d "language"))
           /\ (forall old, resolver_language f = Some old -> truthy old = true ->
                           dict_get (key "language") e = Some old).
Proof.
  apply (format_language_tag Demo.video_world Demo.url Demo.video_record
           Demo.video_requests).
  - intros l. apply Permutation_refl.
  - reflexivity.
Defined.

(** The claim fails as stated: the video's language is [en], the DASH
    resolver set [fr] on its audio format, and the final list keeps
    [fr] on it. *)
Lemma resolver_language_is_kept :
  get_method Demo.video "language" = Ok (VStr "en")
  /\ _extract_mpd_formats Demo.video_world (VStr "https://cdn/manifest.mpd")
       (VStr "b60f5987-aabd-4e1c-a42f-c559d138f2ca") Demo.hdrs
     = [[(key "format_id", VStr "dash-video"); (key "url", VStr "https://cdn/v.mp4")];
        [(key "format_id", VStr "dash-audio"); (key "language", VStr "fr")]]
  /\ output_field "formats" (_real_extract Demo.video_world Demo.url)
     = Ok (Some (VList
                   [VDict [(key "format_id", VStr "dash-video");
                           (key "url", VStr "https://cdn/v.mp4");
                           (key "language", VStr "en")];
                    VDict [(key "format_id", VStr "dash-audio");
                           (key "language", VStr "fr")]])).
Proof. repeat split; reflexivity. Qed.

(** * Further properties *)

(** ** The URL pattern (line 17) *)

Lemma append_assoc (a b c : string) : ((a ++ b) ++ c = a ++ (b ++ c))%string.
Proof. induction a as [|x a IH]; cbn; [reflexivity | now rewrite IH]. Qed.

Lemma strip_prefix_spec (p s r : string) :
  strip_prefix p s = Some r <-> s = (p ++ r)%string.
Proof.
  revert s. induction p as [|a p IH]; intros s; cbn.
  - split; [now intros [= ->] | now intros ->].
  - destruct s as [|b s]; [split; discriminate|].
    destruct (Ascii.eqb_spec a b) as [->|Hab].
    + rewrite IH. split; [now intros -> | now intros [= ->]].
    + split; [discriminate | intros [= E _]; congruence].
Qed.

Lemma take_hex_spec (n : nat) :
  forall s g r, take_hex n s = Some (g, r) <-> hex_group n g /\ s = (g ++ r)%string.
Proof.
  unfold hex_group. induction n as [|n IH]; intros s g r; cbn [take_hex].
  - split.
    + now intros [= <- <-].
    + intros [[Hlen _] ->]. destruct g; [reflexivity | discriminate].
  - destruct s as [|c s].
    + split; [discriminate|]. intros [[Hlen _] Hs].
      destruct g; [discriminate Hlen | discriminate Hs].
    + split.
      * destruct (is_hex c) eqn:Hc; [|discriminate].
        destruct (take_hex n s) as [[g' r']|] eqn:E; [|discriminate].
        intros [= <- <-]. apply IH in E. destruct E as [[Hlen Hall] ->].
        cbn. rewrite Hc, Hall, Hlen. now repeat split.
      * intros [[Hlen Hall] Hs]. destruct g as [|c' g]; [discriminate Hlen|].
        cbn in Hs, Hlen, Hall. injection Hs as <- ->. injection Hlen as Hlen.
        apply andb_true_iff in Hall. destruct Hall as [Hc Hall]. rewrite Hc.
        assert (E : take_hex n (g ++ r) = Some (g, r)) by (apply IH; now repeat split).
        now rewrite E.
Qed.

Lemma match_uuid_spec (s id : string) :
  match_uuid s = Some id <-> is_uuid id /\ exists rest, s = (id ++ rest)%string.
Proof.
  unfold match_uuid, obind, is_uuid. split.
  - destruct (take_hex 8 s) as [[g1 r1]|] eqn:E1; [|discriminate].
    destruct (strip_prefix "-" r1) as [r1'|] eqn:D1; [|discriminate].
    destruct (take_hex 4 r1') as [[g2 r2]|] eqn:E2; [|discriminate].
    destruct (strip_prefix "-" r2) as [r2'|] eqn:D2; [|discriminate].
    destruct (take_hex 4 r2') as [[g3 r3]|] eqn:E3; [|discriminate].
    destruct (strip_prefix "-" r3) as [r3'|] eqn:D3; [|discriminate].
    destruct (take_hex 4 r3') as [[g4 r4]|] eqn:E4; [|discriminate].
    destruct (strip_prefix "-" r4) as [r4'|] eqn:D4; [|discriminate].
    destruct (take_hex 12 r4') as [[g5 r5]|] eqn:E5; [|discriminate].
    intros [= <-].
    apply take_hex_spec in E1, E2, E3, E4, E5.
    apply strip_prefix_spec in D1, D2, D3, D4.
    destruct E1 as [H1 ->], E2 as [H2 ->], E3 as [H3 ->], E4 as [H4 ->], E5 as [H5 ->].
    subst. split.
    + now exists g1, g2, g3, g4, g5.
    + exists r5. repeat (rewrite append_assoc; cbn [append]). reflexivity.
  - intros [(g1 & g2 & g3 & g4 & g5 & H1 & H2 & H3 & H4 & H5 & ->) [rest ->]].
    repeat (rewrite append_assoc; cbn [append]).
    rewrite (proj2 (take_hex_spec 8 _ g1 _) (conj H1 eq_refl)). cbn [strip_prefix Ascii.eqb Bool.eqb].
    rewrite (proj2 (take_hex_spec 4 _ g2 _) (conj H2 eq_refl)). cbn [strip_prefix Ascii.eqb Bool.eqb].
    rewrite (proj2 (take_hex_spec 4 _ g3 _) (conj H3 eq_refl)). cbn [strip_prefix Ascii.eqb Bool.eqb].
    rewrite (proj2 (take_hex_spec 4 _ g4 _) (conj H4 eq_refl)). cbn [strip_prefix Ascii.eqb Bool.eqb].
    rewrite (proj2 (take_hex_spec 12 _ g5 _) (conj H5 eq_refl)).
    reflexivity.
Qed.

Lemma match_host_spec (s r : string) :
  match_host s = Some r
  <-> exists host, (host = "web" \/ host = "www" \/ host = "msit")
                   /\ s = (host ++ r)%string.
Proof.
  unfold match_host. split.
  - destruct (strip_prefix "web" s) as [r1|] eqn:E1.
    { intros [= ->]. apply strip_prefix_spec in E1. exists "web". auto. }
    destruct (strip_prefix "www" s) as [r2|] eqn:E2.
    { intros [= ->]. apply strip_prefix_spec in E2. exists "www". auto. }
    intros E3. apply strip_prefix_spec in E3. exists "msit". auto.
  - intros (host & [-> | [-> | ->]] & ->); reflexivity.
Qed.

Lemma match_valid_url_spec (url id : string) :
  match_valid_url url = Some id
  <-> exists scheme host rest,
        (scheme = "http" \/ scheme = "https")
        /\ (host = "web" \/ host = "www" \/ host = "msit")
        /\ is_uuid id
        /\ url = (scheme ++ "://" ++ host ++ ".microsoftstream.com/video/"
                  ++ id ++ rest)%string.
Proof.
  unfold match_valid_url, obind. split.
  - destruct (strip_prefix "http" url) as [r|] eqn:E0; [|discriminate].
    apply strip_prefix_spec in E0. subst url.
    destruct (strip_prefix "s" r) as [r'|] eqn:Es.
    + apply strip_prefix_spec in Es. subst r.
      destruct (strip_prefix "://" r') as [r1|] eqn:E1; [|discriminate].
      apply strip_prefix_spec in E1. subst r'.
      destruct (match_host r1) as [r2|] eqn:E2; [|discriminate].
      apply match_host_spec in E2. destruct E2 as (host & Hhost & ->).
      destruct (strip_prefix ".microsoftstream.com/video/" r2) as [r3|] eqn:E3;
        [|discriminate].
      apply strip_prefix_spec in E3. subst r2.
      intros E. apply match_uuid_spec in E. destruct E as [Hid [rest ->]].
      exists "https", host, rest. repeat split; auto.
      all: repeat (rewrite append_assoc; cbn [append]); reflexivity.
    + destruct (strip_prefix "://" r) as [r1|] eqn:E1; [|discriminate].
      apply strip_prefix_spec in E1. subst r.
      destruct (match_host r1) as [r2|] eqn:E2; [|discriminate].
      apply match_host_spec in E2. destruct E2 as (host & Hhost & ->).
      destruct (strip_prefix ".microsoftstream.com/video/" r2) as [r3|] eqn:E3;
        [|discriminate].
      apply strip_prefix_spec in E3. subst r2.
      intros E. apply match_uuid_spec in E. destruct E as [Hid [rest ->]].
      exists "http", host, rest. repeat split; auto.
      all: repeat (rewrite append_assoc; cbn [append]); reflexivity.
  - intros (scheme & host & rest & Hs & Hh & Hid & ->).
    assert (Hhost : forall tail, match_host (host ++ tail) = Some tail)
      by (intros tail; apply match_host_spec; now exists host).
    assert (Huuid : match_uuid (id ++ rest) = Some id)
      by (apply match_uuid_spec; split; [assumption | now exists rest]).
    destruct Hs as [-> | ->]; cbn [append strip_prefix Ascii.eqb Bool.eqb];
      rewrite Hhost; cbn [append strip_prefix Ascii.eqb Bool.eqb]; exact Huuid.
Qed.


(** ** The steps before the video record (lines 55-70) *)

(** X2. On an authenticated page, a missing access token or a missing
    gateway URL ends the extraction with the error that names the
    missing field, and no API request is made: the page fetch is the
    only request. *)
Theorem missing_credentials_stop_before_api
    (H : host) (url url_id webpage : string) :
  match_valid_url url = Some url_id ->
  webpage_of H url = Some webpage ->
  contains title_marker webpage = true ->
  (html_search H access_token_re webpage = None ->
   _real_extract H url = (Raise (RegexNotFoundError "access token"), [GetWebpage url]))
  /\ (forall access_token,
         html_search H access_token_re webpage = Some access_token ->
         html_search H api_url_re webpage = None ->
         _real_extract H url = (Raise (RegexNotFoundError "api url"), [GetWebpage url])).
Proof.
  intros Hid Hpage Hmark.
  split; [intros Htok | intros access_token Htok Hapi];
    unfold _real_extract, _match_id, _download_webpage, _html_search_regex;
    rewrite Hid, Hpage; cbn [bind lift]; rewrite Hmark, Htok;
    [|rewrite Hapi]; reflexivity.
Qed.

Lemma missing_credentials_stop_before_api_witness :
  _real_extract Demo2.no_token_world Demo.url
  = (Raise (RegexNotFoundError "access token"), [GetWebpage Demo.url])
  /\ _real_extract Demo2.no_gateway_world Demo.url
     = (Raise (RegexNotFoundError "api url"), [GetWebpage Demo.url]).
Proof.
  split.
  - exact (proj1 (missing_credentials_stop_before_api Demo2.no_token_world
             Demo.url Demo.url_id Demo.page eq_refl eq_refl eq_refl) eq_refl).
  - exact (proj2 (missing_credentials_stop_before_api Demo2.no_gateway_world
             Demo.url Demo.url_id Demo.page eq_refl eq_refl eq_refl)
             Demo.token eq_refl eq_refl).
Defined.

(** X3. A URL that does not match [_VALID_URL] is rejected before any
    request.  Both downloads that follow are fatal: a failed page
    download ends the extraction after that one request, and a failed
    video-metadata download ends it after the second, before any
    manifest or text-track request. *)
Theorem early_failures_make_no_further_request (H : host) (url : string) :
  (match_valid_url url = None -> requests (_real_extract H url) = []
                                 /\ exists e, outcome (_real_extract H url) = Raise e)
  /\ (forall url_id,
         match_valid_url url = Some url_id ->
         webpage_of H url = None ->
         _real_extract H url = (Raise (DownloadError url), [GetWebpage url]))
  /\ (forall url_id webpage access_token api_url,
         match_valid_url url = Some url_id ->
         webpage_of H url = Some webpage ->
         contains title_marker webpage = true ->
         html_search H access_token_re webpage = Some access_token ->
         html_search H api_url_re webpage = Some api_url ->
         json_of H (video_url api_url url_id) video_query (bearer access_token) = None ->
         _real_extract H url
         = (Raise (DownloadError (video_url api_url url_id)),
            [GetWebpage url;
             GetJson (video_url api_url url_id) video_query (bearer access_token)])).
Proof.
  split; [|split].
  - intros Hid. unfold _real_extract, _match_id. rewrite Hid.
    split; [reflexivity | now exists AttributeError].
  - intros url_id Hid Hpage.
    unfold _real_extract, _match_id, _download_webpage. now rewrite Hid, Hpage.
  - intros url_id webpage access_token api_url Hid Hpage Hmark Htok Hapi Hjson.
    unfold _real_extract, _match_id, _download_webpage, _html_search_regex,
      _download_json.
    rewrite Hid, Hpage. cbn [bind lift]. rewrite Hmark, Htok, Hapi. cbn [bind ret].
    fold (bearer access_token). fold video_query. fold (video_url api_url url_id).
    now rewrite Hjson.
Qed.

Lemma early_failures_make_no_further_request_witness :
  _real_extract Demo2.no_video_world Demo.url
  = (Raise (DownloadError (video_url Demo.api_url Demo.url_id)),
     [GetWebpage Demo.url;
      GetJson (video_url Demo.api_url Demo.url_id) video_query (bearer Demo.token)]).
Proof.
  exact (proj2 (proj2 (early_failures_make_no_further_request
           Demo2.no_video_world Demo.url))
           Demo.url_id Demo.page Demo.token Demo.api_url
           eq_refl eq_refl eq_refl eq_refl eq_refl eq_refl).
Defined.

(** ** The record and the requests of a successful run *)

Lemma try_get_one (d : dict) (k1 k2 : string) (isinstance : value -> bool) :
  try_get (VDict d) [fun x => a <-? getitem x k1; getitem a k2] (Some isinstance)
  = Ok (match nested d k1 k2 with
        | Some v => if isinstance v then v else VNone
        | None => VNone
        end).
Proof.
  unfold nested. cbn [try_get getitem].
  destruct (dict_get (key k1) d) as [[| | | | |inner]|];
    cbn [rbind getitem try_get_catches]; try reflexivity.
  destruct (dict_get (key k2) inner) as [v|]; cbn [try_get_catches];
    [now destruct (isinstance v) | reflexivity].
Qed.

Lemma try_get_any (d : dict) (k1 k2 : string) :
  try_get (VDict d) [fun x => a <-? getitem x k1; getitem a k2] None
  = Ok (value_or_none (nested d k1 k2)).
Proof.
  unfold nested, value_or_none. cbn [try_get getitem].
  destruct (dict_get (key k1) d) as [[| | | | |inner]|];
    cbn [rbind getitem try_get_catches]; try reflexivity.
  now destruct (dict_get (key k2) inner).
Qed.

Lemma try_get_two (d : dict) (k1 k2 k3 : string) (isinstance : value -> bool) :
  try_get (VDict d)
    [fun x => a <-? getitem x k1; getitem a k2;
     fun x => a <-? getitem x k1; getitem a k3] (Some isinstance)
  = Ok (match nested d k1 k2 with
        | Some v =>
            if isinstance v then v
            else match nested d k1 k3 with
                 | Some w => if isinstance w then w else VNone
                 | None => VNone
                 end
        | None =>
            match nested d k1 k3 with
            | Some w => if isinstance w then w else VNone
            | None => VNone
            end
        end).
Proof.
  unfold nested. cbn [try_get getitem].
  destruct (dict_get (key k1) d) as [[| | | | |inner]|];
    cbn [rbind getitem try_get_catches]; try reflexivity.
  destruct (dict_get (key k2) inner) as [v|]; cbn [try_get_catches];
    [destruct (isinstance v); [reflexivity|]|];
    (destruct (dict_get (key k3) inner) as [w|]; cbn [try_get_catches];
     [now destruct (isinstance w) | reflexivity]).
Qed.

Lemma str_checked (v : option value) :
  match v with
  | Some x => if is_str x then x else VNone
  | None => VNone
  end = str_or_none v.
Proof. now destruct v as [[]|]. Qed.

Lemma int_checked (v : option value) :
  match v with
  | Some x => if is_int x then x else VNone
  | None => VNone
  end = int_or_none v.
Proof. now destruct v as [[]|]. Qed.

(** What a run that returns a record went through, from the video
    record on. *)
Lemma successful_run (H : host) url url_id api_url access_token d r t :
  reaches_video H url url_id api_url access_token (VDict d) ->
  _real_extract H url = (Ok r, t) ->
  exists thumbnails playlists title subs,
    thumbnails_loop H (VDict d) thumbnail_ids [] = Ok thumbnails
    /\ iterate (field d "playbackUrls") = Ok playlists
    /\ forallb playable playlists = true
    /\ dict_get (key "name") d = Some title
    /\ extract_all_subtitles H api_url (py_or (field d "id") (VStr url_id))
         (bearer access_token)
       = (Ok subs,
          if subtitles_requested H
          then [GetJson (texttracks_url H api_url (py_or (field d "id") (VStr url_id)))
                  [api_version] (bearer access_token)]
          else [])
    /\ t = GetWebpage url
           :: GetJson (video_url api_url url_id) video_query (bearer access_token)
           :: flat_map (entry_requests (py_or (field d "id") (VStr url_id))
                          (bearer access_token)) playlists
           ++ (if subtitles_requested H
               then [GetJson (texttracks_url H api_url
                                (py_or (field d "id") (VStr url_id)))
                       [api_version] (bearer access_token)]
               else [])
    /\ r = dict_display
             ([(key "id", py_or (field d "id") (VStr url_id));
               (key "title", title);
               (key "description", field d "description");
               (key "uploader", str_or_none (nested d "creator" "name"));
               (key "uploader_id",
                match nested d "creator" "mail" with
                | Some (VStr mail) => VStr mail
                | _ => str_or_none (nested d "creator" "id")
                end);
               (key "thumbnails", dict_list thumbnails)]
              ++ subs
              ++ [(key "timestamp", parse_iso8601 H (field d "created"));
                  (key "duration",
                   parse_duration H (value_or_none (nested d "media" "duration")));
                  (key "webpage_url",
                   VStr ("https://web.microsoftstream.com/video/"
                         ++ fstr H (py_or (field d "id") (VStr url_id)))%string);
                  (key "view_count", int_or_none (nested d "metrics" "views"));
                  (key "like_count", int_or_none (nested d "metrics" "likes"));
                  (key "comment_count", int_or_none (nested d "metrics" "comments"));
                  (key "formats",
                   dict_list
                     (_sort_formats H
                        (map (tag_language (field d "language"))
                           (flat_map
                              (entry_formats H (py_or (field d "id") (VStr url_id))
                                 (bearer access_token))
                              playlists))))]).
Proof.
  intros Hreach Hrun.
  rewrite (real_extract_from_video _ _ _ _ _ _ Hreach) in Hrun.
  injection Hrun as Hout Ht.
  assert (Hbody : extract_from H url_id api_url (bearer access_token) (VDict d)
                  = (Ok r, requests (extract_from H url_id api_url
                                       (bearer access_token) (VDict d))))
    by (rewrite (run_eta (extract_from _ _ _ _ _)) at 1; now rewrite Hout).
  clear Hout. set (t' := requests _) in *. clearbody t'. subst t.
  unfold extract_from in Hbody. inv_run.
  repeat match goal with
    | Hg : get_method (VDict d) ?name = Ok ?x |- _ =>
        rewrite get_method_field in Hg; injection Hg as <-
    end.
  match goal with
  | Hg : getitem (VDict d) "playbackUrls" = Ok ?x |- _ =>
      assert (x = field d "playbackUrls")
        by (unfold getitem in Hg; unfold field;
            destruct (dict_get (key "playbackUrls") d);
            [now injection Hg | discriminate Hg]);
      subst x
  end.
  match goal with
  | Hg : getitem (VDict d) "name" = Ok ?x |- _ =>
      assert (Hname : dict_get (key "name") d = Some x)
        by (unfold getitem in Hg; destruct (dict_get (key "name") d);
            [now injection Hg as -> | discriminate Hg])
  end.
  match goal with
  | Hl : formats_loop _ _ _ ?pls [] = (Ok ?fs, _) |- _ =>
      assert (Hall := formats_loop_ok_inv _ _ _ _ _ _ _ Hl);
      rewrite (formats_loop_playable _ _ _ _ Hall) in Hl;
      injection Hl as <- <-
  end.
  unfold creator_field, media_duration, metric in *.
  repeat match goal with
    | Hg : try_get (VDict d) [_] (Some _) = Ok ?x |- _ =>
        rewrite try_get_one in Hg; injection Hg as <-
    | Hg : try_get (VDict d) [_; _] (Some _) = Ok ?x |- _ =>
        rewrite try_get_two in Hg; injection Hg as <-
    | Hg : try_get (VDict d) [_] None = Ok ?x |- _ =>
        rewrite try_get_any in Hg; injection Hg as <-
    end.
  match goal with
  | Hs : extract_all_subtitles _ _ _ _ = (Ok ?subs, ?ts) |- _ =>
      assert (Hts : ts = if subtitles_requested H
                         then [GetJson (texttracks_url H api_url
                                          (py_or (field d "id") (VStr url_id)))
                                 [api_version] (bearer access_token)]
                         else [])
        by (pose proof (extract_all_subtitles_shape _ _ _ _ _ _ Hs)
              as [(-> & _ & ->) | (-> & _ & _ & _ & _ & -> & _)]; reflexivity);
      subst ts
  end.
  do 4 eexists. split; [eassumption|]. split; [eassumption|].
  split; [assumption|]. split; [exact Hname|]. split; [eassumption|].
  split.
  - subst. cbn [app]. rewrite !app_nil_r. reflexivity.
  - subst r. rewrite !int_checked, !str_checked.
    replace (match nested d "creator" "mail" with
             | Some v => if is_str v then v else str_or_none (nested d "creator" "id")
             | None => str_or_none (nested d "creator" "id")
             end)
      with (match nested d "creator" "mail" with
            | Some (VStr mail) => VStr mail
            | _ => str_or_none (nested d "creator" "id")
            end)
      by now destruct (nested d "creator" "mail") as [[]|].
    reflexivity.
Qed.

(** ** Fields of the record (lines 106-122) *)

(** The fields of a record display, whatever the subtitle step gave. *)
Lemma display_fields
    (id title description uploader uploader_id thumbnails timestamp duration
       webpage_url view_count like_count comment_count formats : value)
    (subs : dict) (requested : bool) :
  (requested = false /\ subs = [])
  \/ (requested = true
      /\ exists s a, subs = [(key "subtitles", s); (key "automatic_captions", a)]) ->
  let r :=
    dict_display
      ([(key "id", id); (key "title", title); (key "description", description);
        (key "uploader", uploader); (key "uploader_id", uploader_id);
        (key "thumbnails", thumbnails)]
       ++ subs
       ++ [(key "timestamp", timestamp); (key "duration", duration);
           (key "webpage_url", webpage_url); (key "view_count", view_count);
           (key "like_count", like_count); (key "comment_count", comment_count);
           (key "formats", formats)]) in
  map fst r = record_keys requested
  /\ dict_get (key "id") r = Some id
  /\ dict_get (key "uploader") r = Some uploader
  /\ dict_get (key "uploader_id") r = Some uploader_id
  /\ dict_get (key "thumbnails") r = Some thumbnails
  /\ dict_get (key "webpage_url") r = Some webpage_url
  /\ dict_get (key "view_count") r = Some view_count
  /\ dict_get (key "like_count") r = Some like_count
  /\ dict_get (key "comment_count") r = Some comment_count
  /\ dict_get (key "formats") r = Some formats.
Proof.
  intros [(-> & ->) | (-> & s & a & ->)]; cbv zeta; repeat split; reflexivity.
Qed.

Lemma subs_shape (H : host) api_url video_id hdrs subs t :
  extract_all_subtitles H api_url video_id hdrs = (Ok subs, t) ->
  (subtitles_requested H = false /\ subs = [])
  \/ (subtitles_requested H = true
      /\ exists s a, subs = [(key "subtitles", s); (key "automatic_captions", a)]).
Proof.
  intros Hs. apply extract_all_subtitles_shape in Hs.
  destruct Hs as [(? & ? & _) | (? & s & a & _ & ? & _)]; [now left|].
  right. split; [assumption|]. now exists s, a.
Qed.

(** The fields of the record of a successful run. *)
Lemma successful_run_fields (H : host) url url_id api_url access_token d r t :
  reaches_video H url url_id api_url access_token (VDict d) ->
  _real_extract H url = (Ok r, t) ->
  map fst r = record_keys (subtitles_requested H)
  /\ dict_get (key "id") r = Some (py_or (field d "id") (VStr url_id))
  /\ dict_get (key "uploader") r = Some (str_or_none (nested d "creator" "name"))
  /\ dict_get (key "uploader_id") r
     = Some (match nested d "creator" "mail" with
             | Some (VStr mail) => VStr mail
             | _ => str_or_none (nested d "creator" "id")
             end)
  /\ (exists thumbnails,
         thumbnails_loop H (VDict d) thumbnail_ids [] = Ok thumbnails
         /\ dict_get (key "thumbnails") r = Some (dict_list thumbnails))
  /\ dict_get (key "webpage_url") r
     = Some (VStr ("https://web.microsoftstream.com/video/"
                   ++ fstr H (py_or (field d "id") (VStr url_id)))%string)
  /\ dict_get (key "view_count") r = Some (int_or_none (nested d "metrics" "views"))
  /\ dict_get (key "like_count") r = Some (int_or_none (nested d "metrics" "likes"))
  /\ dict_get (key "comment_count") r
     = Some (int_or_none (nested d "metrics" "comments")).
Proof.
  intros Hreach Hrun.
  destruct (successful_run _ _ _ _ _ _ _ _ Hreach Hrun)
    as (thumbnails & playlists & title & subs & Hth & _ & _ & _ & Hsubs & _ & ->).
  apply subs_shape in Hsubs.
  match goal with
  | |- context [dict_display
                  ([(_, ?a1); (_, ?a2); (_, ?a3); (_, ?a4); (_, ?a5); (_, ?a6)]
                   ++ _ ++ [(_, ?b1); (_, ?b2); (_, ?b3); (_, ?b4); (_, ?b5);
                            (_, ?b6); (_, ?b7)])] =>
      destruct (display_fields a1 a2 a3 a4 a5 a6 b1 b2 b3 b4 b5 b6 b7 subs
                  (subtitles_requested H) Hsubs)
        as (Hk & Hid & Hup & Hupid & Hthumb & Hweb & Hvc & Hlc & Hcc & _)
  end.
  repeat split; try assumption.
  exists thumbnails. now split.
Qed.

Lemma rich_world_reaches_video :
  reaches_video Demo2.rich_world Demo.url Demo.url_id Demo.api_url Demo.token
    (VDict Demo2.rich_items).
Proof. exists Demo.page. repeat split; reflexivity. Qed.

Lemma rich_world_run :
  _real_extract Demo2.rich_world Demo.url
  = (Ok Demo2.rich_record, Demo2.rich_requests).
Proof. reflexivity. Qed.

(** X4. In the record of a successful run, [uploader] is the creator's
    name when that is a string; [uploader_id] is the creator's mail when
    that is a string (even an empty one), else the creator's id when
    that is a string; each is [None] otherwise, and so whenever the
    video record has no creator object. *)
Theorem uploader_id_prefers_mail
    (H : host) url url_id api_url access_token d r t :
  reaches_video H url url_id api_url access_token (VDict d) ->
  _real_extract H url = (Ok r, t) ->
  dict_get (key "uploader") r = Some (str_or_none (nested d "creator" "name"))
  /\ (forall mail, nested d "creator" "mail" = Some (VStr mail) ->
                   dict_get (key "uploader_id") r = Some (VStr mail))
  /\ ((forall mail, nested d "creator" "mail" <> Some (VStr mail)) ->
      dict_get (key "uploader_id") r = Some (str_or_none (nested d "creator" "id")))
  /\ (nested d "creator" "mail" = None -> nested d "creator" "id" = None ->
      dict_get (key "uploader_id") r = Some VNone).
Proof.
  intros Hreach Hrun.
  destruct (successful_run_fields _ _ _ _ _ _ _ _ Hreach Hrun)
    as (_ & _ & Hup & Hupid & _).
  split; [exact Hup|]. rewrite Hupid. repeat split.
  - now intros mail ->.
  - intros Hno. destruct (nested d "creator" "mail") as [[| | |mail| |]|];
      try reflexivity. now destruct (Hno mail).
  - now intros -> ->.
Qed.

Lemma uploader_id_prefers_mail_witness :
  dict_get (key "uploader") Demo2.rich_record
  = Some (str_or_none (nested Demo2.rich_items "creator" "name"))
  /\ (forall mail, nested Demo2.rich_items "creator" "mail" = Some (VStr mail) ->
                   dict_get (key "uploader_id") Demo2.rich_record = Some (VStr mail))
  /\ ((forall mail, nested Demo2.rich_items "creator" "mail" <> Some (VStr mail)) ->
      dict_get (key "uploader_id") Demo2.rich_record
      = Some (str_or_none (nested Demo2.rich_items "creator" "id")))
  /\ (nested Demo2.rich_items "creator" "mail" = None ->
      nested Demo2.rich_items "creator" "id" = None ->
      dict_get (key "uploader_id") Demo2.rich_record = Some VNone).
Proof.
  exact (uploader_id_prefers_mail Demo2.rich_world Demo.url Demo.url_id Demo.api_url
           Demo.token Demo2.rich_items Demo2.rich_record Demo2.rich_requests
           rich_world_reaches_video rich_world_run).
Defined.

(** X5. In the record of a successful run, each of [view_count],
    [like_count], [comment_count] is its own metric when that is an
    integer (a boolean counts as one), and [None] when the metric is
    missing or of another type; a bad metric does not affect the other
    two. *)
Theorem counts_are_read_one_by_one
    (H : host) url url_id api_url access_token d r t :
  reaches_video H url url_id api_url access_token (VDict d) ->
  _real_extract H url = (Ok r, t) ->
  dict_get (key "view_count") r = Some (int_or_none (nested d "metrics" "views"))
  /\ dict_get (key "like_count") r = Some (int_or_none (nested d "metrics" "likes"))
  /\ dict_get (key "comment_count") r
     = Some (int_or_none (nested d "metrics" "comments")).
Proof.
  intros Hreach Hrun.
  destruct (successful_run_fields _ _ _ _ _ _ _ _ Hreach Hrun)
    as (_ & _ & _ & _ & _ & _ & Hvc & Hlc & Hcc).
  now repeat split.
Qed.

Lemma counts_are_read_one_by_one_witness :
  dict_get (key "view_count") Demo2.rich_record
  = Some (int_or_none (nested Demo2.rich_items "metrics" "views"))
  /\ dict_get (key "like_count") Demo2.rich_record
     = Some (int_or_none (nested Demo2.rich_items "metrics" "likes"))
  /\ dict_get (key "comment_count") Demo2.rich_record
     = Some (int_or_none (nested Demo2.rich_items "metrics" "comments")).
Proof.
  exact (counts_are_read_one_by_one Demo2.rich_world Demo.url Demo.url_id Demo.api_url
           Demo.token Demo2.rich_items Demo2.rich_record Demo2.rich_requests
           rich_world_reaches_video rich_world_run).
Defined.

(** X6. The record of a successful run has the thirteen keys [id],
    [title], [description], [uploader], [uploader_id], [thumbnails],
    [timestamp], [duration], [webpage_url], [view_count], [like_count],
    [comment_count], [formats], in this order, and, between [thumbnails]
    and [timestamp], the keys [subtitles] and [automatic_captions]
    exactly when one of the subtitle options is set. *)
Theorem record_keys_of_a_run (H : host) (url : string) (r : dict) (t : list request) :
  _real_extract H url = (Ok r, t) ->
  map fst r = record_keys (subtitles_requested H).
Proof.
  intros Hrun.
  destruct (real_extract_ok_inv _ _ _ _ Hrun)
    as (url_id & api_url & access_token & video_data & t' & Hreach & Hbody & _).
  destruct video_data as [| | | | |d];
    try (unfold extract_from in Hbody; cbn [bind lift get_method] in Hbody;
         discriminate Hbody).
  now destruct (successful_run_fields _ _ _ _ _ _ _ _ Hreach Hrun) as (Hk & _).
Qed.

Lemma record_keys_of_a_run_witness :
  map fst Demo2.rich_record = record_keys (subtitles_requested Demo2.rich_world).
Proof.
  exact (record_keys_of_a_run Demo2.rich_world Demo.url Demo2.rich_record
           Demo2.rich_requests rich_world_run).
Defined.

(** ** The requests of a successful run *)

(** X7. A run that returns a record made these requests, in this order:
    the page; the video metadata, asked with the identifier of the URL;
    one manifest request for each playlist entry of a supported mime
    type, in playlist order; and last, when a subtitle option is set,
    the text tracks.  The manifest and text-track requests use the
    video record's own [id] when it is truthy. *)
Theorem requests_of_a_run
    (H : host) url url_id api_url access_token d r t :
  reaches_video H url url_id api_url access_token (VDict d) ->
  _real_extract H url = (Ok r, t) ->
  let video_id := py_or (field d "id") (VStr url_id) in
  exists playlists,
    iterate (field d "playbackUrls") = Ok playlists
    /\ t = [GetWebpage url;
            GetJson (video_url api_url url_id) video_query (bearer access_token)]
           ++ flat_map (entry_requests video_id (bearer access_token)) playlists
           ++ (if subtitles_requested H
               then [GetJson (texttracks_url H api_url video_id) [api_version]
                       (bearer access_token)]
               else []).
Proof.
  intros Hreach Hrun video_id.
  destruct (successful_run _ _ _ _ _ _ _ _ Hreach Hrun)
    as (thumbnails & playlists & title & subs & _ & Hit & _ & _ & _ & Ht & _).
  exists playlists. split; [exact Hit | exact Ht].
Qed.

Lemma requests_of_a_run_witness :
  exists playlists,
    iterate (field Demo2.rich_items "playbackUrls") = Ok playlists
    /\ Demo2.rich_requests
       = [GetWebpage Demo.url;
          GetJson (video_url Demo.api_url Demo.url_id) video_query (bearer Demo.token)]
         ++ flat_map (entry_requests (py_or (field Demo2.rich_items "id")
                                        (VStr Demo.url_id))
                        (bearer Demo.token)) playlists
         ++ (if subtitles_requested Demo2.rich_world
             then [GetJson (texttracks_url Demo2.rich_world Demo.api_url
                              (py_or (field Demo2.rich_items "id") (VStr Demo.url_id)))
                     [api_version] (bearer Demo.token)]
             else []).
Proof.
  exact (requests_of_a_run Demo2.rich_world Demo.url Demo.url_id Demo.api_url
           Demo.token Demo2.rich_items Demo2.rich_record Demo2.rich_requests
           rich_world_reaches_video rich_world_run).
Defined.

Lemma append_nil_r (s : string) : (s ++ "")%string = s.
Proof. induction s as [|c s IH]; cbn; [reflexivity | now rewrite IH]. Qed.

(** The canonical URL built from an identifier of a matching URL matches
    in turn, with the same identifier. *)
Lemma canonical_url_matches (url id : string) :
  match_valid_url url = Some id ->
  match_valid_url ("https://web.microsoftstream.com/video/" ++ id) = Some id.
Proof.
  intros Hm. apply match_valid_url_spec in Hm.
  destruct Hm as (_ & _ & _ & _ & _ & Hid & _).
  apply match_valid_url_spec. exists "https", "web", "".
  repeat split; auto. cbn [append]. now rewrite append_nil_r.
Qed.

(** X8. The [webpage_url] of a record is always on the host [web]: it is
    [https://web.microsoftstream.com/video/] followed by the record's
    [id].  When the [id] is the one of the requested URL (the video
    record has none, or a falsy one), this URL matches [_VALID_URL]
    again and yields the same identifier, whatever host and query the
    requested URL had. *)
Theorem webpage_url_is_canonical
    (H : host) url url_id api_url access_token d r t :
  reaches_video H url url_id api_url access_token (VDict d) ->
  _real_extract H url = (Ok r, t) ->
  (forall id, dict_get (key "id") r = Some (VStr id) ->
              dict_get (key "webpage_url") r
              = Some (VStr ("https://web.microsoftstream.com/video/" ++ id)))
  /\ (truthy (field d "id") = false ->
      dict_get (key "id") r = Some (VStr url_id)
      /\ dict_get (key "webpage_url") r
         = Some (VStr ("https://web.microsoftstream.com/video/" ++ url_id))
      /\ match_valid_url ("https://web.microsoftstream.com/video/" ++ url_id)
         = Some url_id).
Proof.
  intros Hreach Hrun.
  destruct (successful_run_fields _ _ _ _ _ _ _ _ Hreach Hrun)
    as (_ & Hid & _ & _ & _ & Hweb & _).
  split.
  - intros id Hr. rewrite Hid in Hr. injection Hr as Hr.
    now rewrite Hweb, Hr.
  - intros Hfalsy. unfold py_or in Hid, Hweb. rewrite Hfalsy in Hid, Hweb.
    repeat split; try assumption.
    destruct Hreach as (webpage & Hm & _). now apply canonical_url_matches with url.
Qed.

Lemma webpage_url_is_canonical_witness :
  (forall id, dict_get (key "id") Demo.minimal_record = Some (VStr id) ->
              dict_get (key "webpage_url") Demo.minimal_record
              = Some (VStr ("https://web.microsoftstream.com/video/" ++ id)))
  /\ (truthy (field Demo.minimal_items "id") = false ->
      dict_get (key "id") Demo.minimal_record = Some (VStr Demo.url_id)
      /\ dict_get (key "webpage_url") Demo.minimal_record
         = Some (VStr ("https://web.microsoftstream.com/video/" ++ Demo.url_id))
      /\ match_valid_url ("https://web.microsoftstream.com/video/" ++ Demo.url_id)
         = Some Demo.url_id).
Proof.
  exact (webpage_url_is_canonical Demo.minimal_world Demo.url Demo.url_id
           Demo.api_url Demo.token Demo.minimal_items Demo.minimal_record
           Demo.minimal_requests minimal_world_reaches_video eq_refl).
Defined.

(** ** The thumbnail loop (lines 74-86) *)



Lemma poster_of_shape (video_data : value) (label : string) :
  exists v, try_get video_data [poster_url label] (Some is_str) = Ok v
            /\ poster_of video_data label = v
            /\ (v = VNone \/ exists url, v = VStr url).
Proof.
  unfold poster_of. cbn [try_get].
  destruct (poster_url label video_data) as [v|e] eqn:E.
  - destruct v; cbn [is_str]; eexists; repeat split; eauto.
  - assert (Hc : try_get_catches e = true).
    { revert E. unfold poster_url.
      destruct (getitem video_data "posterImage") as [a|e1] eqn:E1; cbn [rbind].
      - apply getitem2_catchable.
      - intros [= <-]. now apply getitem_catchable in E1. }
    rewrite Hc. eexists; repeat split; eauto.
Qed.





(** ** The playlist loop, entry by entry (lines 89-102) *)

Lemma playlist_formats_unplayable (H : host) video_id hdrs playlist :
  playable playlist = false ->
  exists e,
    playlist_formats H video_id hdrs playlist = (Raise e, [])
    /\ (e = TypeError \/ e = KeyError (key "mimeType")
        \/ e = KeyError (key "playbackUrl")).
Proof.
  unfold playable, supported, playlist_formats.
  destruct playlist as [| | | | |d];
    try (intros _; exists TypeError; split; [reflexivity | now left]).
  cbn [getitem].
  destruct (dict_get (key "mimeType") d) as [mime|].
  2:{ intros _. exists (KeyError (key "mimeType")). split; [reflexivity | auto]. }
  cbn [lift bind].
  destruct (dict_get (key "playbackUrl") d) as [url|].
  { now destruct (eq_str mime "application/vnd.apple.mpegurl"),
      (eq_str mime "application/dash+xml"),
      (eq_str mime "application/vnd.ms-sstr+xml"). }
  intros Hp. exists (KeyError (key "playbackUrl")). split; [|auto].
  destruct (eq_str mime "application/vnd.apple.mpegurl"); [reflexivity|].
  destruct (eq_str mime "application/dash+xml"); [reflexivity|].
  destruct (eq_str mime "application/vnd.ms-sstr+xml"); [reflexivity|].
  discriminate Hp.
Qed.

Lemma formats_loop_requests (H : host) video_id hdrs playlists :
  forall formats,
    requests (formats_loop H video_id hdrs playlists formats)
    = flat_map (entry_requests video_id hdrs) (take_while playable playlists).
Proof.
  induction playlists as [|p rest IH]; intros formats; [reflexivity|].
  cbn [formats_loop take_while]. rewrite requests_bind.
  destruct (playable p) eqn:Hp.
  - rewrite (playlist_formats_playable _ _ _ _ Hp).
    cbn [requests snd outcome fst flat_map]. now rewrite IH.
  - destruct (playlist_formats_unplayable H video_id hdrs p Hp) as (e & -> & _).
    reflexivity.
Qed.

Lemma formats_loop_raises (H : host) video_id hdrs playlists :
  forallb playable playlists = false ->
  forall formats, exists e,
    outcome (formats_loop H video_id hdrs playlists formats) = Raise e
    /\ (e = TypeError \/ e = KeyError (key "mimeType")
        \/ e = KeyError (key "playbackUrl")).
Proof.
  induction playlists as [|p rest IH]; intros Hall formats; [discriminate|].
  cbn [forallb] in Hall. cbn [formats_loop]. rewrite outcome_bind.
  destruct (playable p) eqn:Hp.
  - rewrite (playlist_formats_playable _ _ _ _ Hp). cbn [outcome fst rbind].
    now apply IH.
  - destruct (playlist_formats_unplayable H video_id hdrs p Hp) as (e & -> & He).
    now exists e.
Qed.

(** X10. The playlist loop collects, in playlist order, what the
    resolver of each entry returns (nothing for an unsupported mime
    type), and a resolver that finds no format leaves the others'
    formats as they are.  It fails only on an entry that is not an
    object or lacks [mimeType] or, for a supported mime type,
    [playbackUrl], with a [TypeError] or [KeyError]; the requests made
    are then those of the entries before that one. *)
Theorem formats_loop_outcome
    (H : host) (video_id : value) (hdrs : headers) (playlists : list value) :
  requests (formats_loop H video_id hdrs playlists [])
  = flat_map (entry_requests video_id hdrs) (take_while playable playlists)
  /\ (forallb playable playlists = true ->
      outcome (formats_loop H video_id hdrs playlists [])
      = Ok (flat_map (entry_formats H video_id hdrs) playlists))
  /\ (forallb playable playlists = false ->
      exists e,
        outcome (formats_loop H video_id hdrs playlists []) = Raise e
        /\ (e = TypeError \/ e = KeyError (key "mimeType")
            \/ e = KeyError (key "playbackUrl")))
  /\ (forall before entry after,
         playlists = before ++ entry :: after ->
         entry_formats H video_id hdrs entry = [] ->
         flat_map (entry_formats H video_id hdrs) playlists
         = flat_map (entry_formats H video_id hdrs) (before ++ after)).
Proof.
  split; [apply formats_loop_requests|]. split; [|split].
  - intros Hall. now rewrite (formats_loop_playable _ _ _ _ Hall).
  - intros Hall. now apply formats_loop_raises.
  - intros before entry after -> Hnone.
    rewrite !flat_map_app. cbn [flat_map]. now rewrite Hnone.
Qed.

(** ** The text-track loop, track by track (lines 30-45) *)

(** X11. When the text-track API answers an object without [value], or
    with a [value] that is null or empty, there are no tracks: the
    result is the two empty maps, after the one request. *)
Theorem no_value_gives_empty_maps
    (H : host) api_url video_id hdrs response :
  json_of H (texttracks_url H api_url video_id) [api_version] hdrs
  = Some (VDict response) ->
  truthy (field response "value") = false ->
  _get_all_subtitles H api_url video_id hdrs
  = (Ok [(key "subtitles", VDict []); (key "automatic_captions", VDict [])],
     [GetJson (texttracks_url H api_url video_id) [api_version] hdrs]).
Proof.
  intros Hjson Hfalsy.
  unfold _get_all_subtitles, _download_json. rewrite Hjson. cbn [bind].
  rewrite (bind_lift_ok _ _ _ (get_method_field response "value")).
  unfold py_or. rewrite Hfalsy. reflexivity.
Qed.

Lemma no_value_gives_empty_maps_witness :
  _get_all_subtitles
    (Demo.world Demo.write_subs (Some Demo.page) (Some Demo.video)
       (Some (Demo.obj [("value", VNone)])) [])
    Demo.api_url (VStr Demo.url_id) Demo.hdrs
  = (Ok [(key "subtitles", VDict []); (key "automatic_captions", VDict [])],
     [GetJson (texttracks_url
                 (Demo.world Demo.write_subs (Some Demo.page) (Some Demo.video)
                    (Some (Demo.obj [("value", VNone)])) [])
                 Demo.api_url (VStr Demo.url_id))
        [api_version] Demo.hdrs]).
Proof.
  exact (no_value_gives_empty_maps
           (Demo.world Demo.write_subs (Some Demo.page) (Some Demo.video)
              (Some (Demo.obj [("value", VNone)])) [])
           Demo.api_url (VStr Demo.url_id) Demo.hdrs
           [(key "value", VNone)] eq_refl eq_refl).
Defined.

Lemma add_track_ok_inv (maps maps' : sub_maps) (track : value) :
  add_track maps track = Ok maps' -> track_ok track = true.
Proof.
  destruct maps as [s a]. destruct track as [| | | | |d]; try discriminate.
  unfold track_ok, kept, track_field, add_track, get_method, getitem.
  destruct (dict_get (key "language") d) as [language|];
    cbn [rbind truthy negb andb orb]; [|reflexivity].
  destruct (truthy language); cbn [negb andb orb]; [|reflexivity].
  destruct (dict_get (key "url") d) as [url|]; cbn [rbind truthy negb andb orb];
    [|reflexivity].
  destruct (truthy url); cbn [negb orb]; [|reflexivity].
  destruct (dict_get (key "autoGenerated") d); cbn [rbind];
    now destruct (hashable language).
Qed.

Lemma descriptors_setdefault_append (k entry : value) m :
  descriptors (setdefault_append k entry m) = S (descriptors m).
Proof.
  unfold descriptors.
  induction m as [|[k' l] rest IH]; cbn [setdefault_append flat_map snd];
    [reflexivity|].
  destruct (key_eqb k k'); cbn [flat_map snd];
    repeat rewrite length_app; cbn [List.length]; [|rewrite IH]; lia.
Qed.

Lemma existsb_setdefault_append (x k entry : value) m :
  existsb (fun kl => key_eqb x (fst kl)) (setdefault_append k entry m)
  = existsb (fun kl => key_eqb x (fst kl)) m
    || (key_eqb x k && negb (existsb (fun kl => key_eqb k (fst kl)) m)).
Proof.
  induction m as [|[k' l] rest IH]; cbn [setdefault_append existsb fst].
  - now rewrite orb_false_r, andb_true_r.
  - destruct (key_eqb k k') eqn:Hk; cbn [existsb fst negb orb].
    + now rewrite andb_false_r, orb_false_r.
    + rewrite IH. destruct (key_eqb x k'); [reflexivity|]. reflexivity.
Qed.

Lemma keys_distinct_setdefault_append (k entry : value) m :
  keys_distinct m = true -> keys_distinct (setdefault_append k entry m) = true.
Proof.
  induction m as [|[k' l] rest IH]; cbn [setdefault_append keys_distinct];
    [reflexivity|].
  intros Hd. apply andb_true_iff in Hd. destruct Hd as [Hnew Hrest].
  destruct (key_eqb k k') eqn:Hk; cbn [keys_distinct].
  - now rewrite Hnew, Hrest.
  - rewrite (IH Hrest), andb_true_r, existsb_setdefault_append.
    apply negb_true_iff in Hnew. rewrite Hnew. cbn [orb].
    rewrite key_eqb_sym, Hk. reflexivity.
Qed.

Lemma nonempty_setdefault_append (k entry : value) m :
  Forall (fun kl => snd kl <> []) m ->
  Forall (fun kl => snd kl <> []) (setdefault_append k entry m).
Proof.
  induction 1 as [|[k' l] rest Hl Hrest IH]; cbn [setdefault_append].
  - constructor; [discriminate | constructor].
  - destruct (key_eqb k k'); constructor.
    + cbn [snd]. now destruct l.
    + exact Hrest.
    + exact Hl.
    + exact IH.
Qed.

Lemma add_tracks_invariants (tracks : list value) :
  forall s a s' a',
    add_tracks (s, a) tracks = Ok (s', a') ->
    descriptors s' + descriptors a'
    = descriptors s + descriptors a + List.length (filter kept tracks)
    /\ (keys_distinct s = true -> keys_distinct s' = true)
    /\ (keys_distinct a = true -> keys_distinct a' = true)
    /\ (Forall (fun kl => snd kl <> []) s -> Forall (fun kl => snd kl <> []) s')
    /\ (Forall (fun kl => snd kl <> []) a -> Forall (fun kl => snd kl <> []) a').
Proof.
  induction tracks as [|track rest IH]; intros s a s' a'; cbn [add_tracks].
  - intros [= <- <-]. cbn. repeat split; auto; lia.
  - destruct (add_track (s, a) track) as [maps|e] eqn:E; cbn [rbind]; [|discriminate].
    assert (Hok := add_track_ok_inv _ _ _ E).
    rewrite (add_track_ok _ _ _ Hok) in E. injection E as <-.
    cbn [filter]. destruct (kept track); [destruct (auto_generated track)|];
      intros Hrun; apply IH in Hrun;
      destruct Hrun as (Hcount & Hs & Ha & Hns & Hna);
      rewrite ?descriptors_setdefault_append in Hcount; cbn [List.length];
      repeat split; try lia;
      auto using keys_distinct_setdefault_append, nonempty_setdefault_append.
Qed.

(** X12. The text-track loop neither loses nor duplicates a track: the
    descriptors of the two maps together are as many as the tracks that
    have a language and a URL.  No language appears twice in a map, and
    no language has an empty list. *)
Theorem tracks_are_conserved
    (tracks : list value) (subtitles automatic_captions : list (value * list value)) :
  add_tracks ([], []) tracks = Ok (subtitles, automatic_captions) ->
  descriptors subtitles + descriptors automatic_captions
  = List.length (filter kept tracks)
  /\ keys_distinct subtitles = true
  /\ keys_distinct automatic_captions = true
  /\ Forall (fun kl => snd kl <> []) subtitles
  /\ Forall (fun kl => snd kl <> []) automatic_captions.
Proof.
  intros Hrun. apply add_tracks_invariants in Hrun.
  destruct Hrun as (Hcount & Hs & Ha & Hns & Hna).
  repeat split; auto.
Qed.

Lemma tracks_are_conserved_witness :
  descriptors [(VStr "en", [Demo.vtt "u1"]); (VStr "fr", [Demo.vtt "u3"])]
  + descriptors [(VStr "en", [Demo.vtt "u2"])]
  = List.length (filter kept Demo.tracks)
  /\ keys_distinct [(VStr "en", [Demo.vtt "u1"]); (VStr "fr", [Demo.vtt "u3"])] = true
  /\ keys_distinct [(VStr "en", [Demo.vtt "u2"])] = true
  /\ Forall (fun kl => snd kl <> [])
       [(VStr "en", [Demo.vtt "u1"]); (VStr "fr", [Demo.vtt "u3"])]
  /\ Forall (fun kl => snd kl <> []) [(VStr "en", [Demo.vtt "u2"])].
Proof.
  exact (tracks_are_conserved Demo.tracks
           [(VStr "en", [Demo.vtt "u1"]); (VStr "fr", [Demo.vtt "u3"])]
           [(VStr "en", [Demo.vtt "u2"])] eq_refl).
Defined.

(** ** The authorization header (line 63) *)

Lemma carries_playlist_formats (H : host) video_id hdrs playlist :
  Forall (carries hdrs) (requests (playlist_formats H video_id hdrs playlist)).
Proof.
  unfold playlist_formats. apply requests_lift_bind. intros mime _.
  repeat match goal with
    | |- context [if ?b then _ else _] => destruct b
    end;
    try (apply requests_lift_bind; intros url _; repeat constructor).
  constructor.
Qed.

Lemma carries_formats_loop (H : host) video_id hdrs playlists :
  forall formats,
    Forall (carries hdrs) (requests (formats_loop H video_id hdrs playlists formats)).
Proof.
  induction playlists as [|p rest IH]; intros formats; [constructor|].
  cbn [formats_loop]. rewrite requests_bind. apply Forall_app. split.
  - apply carries_playlist_formats.
  - destruct (outcome _); [apply IH | constructor].
Qed.

Lemma carries_extract_all_subtitles (H : host) api_url video_id hdrs :
  Forall (carries hdrs) (requests (extract_all_subtitles H api_url video_id hdrs)).
Proof.
  unfold extract_all_subtitles. destruct (subtitles_requested H); [|constructor].
  rewrite requests_get_all_subtitles. constructor; [|constructor].
  cbn. split; [reflexivity | now left].
Qed.

(** X13. Every request of a run after the page fetch, whether for the
    video record, a manifest or the text tracks, and whether the run
    ends well or not, carries the header [Authorization: Bearer] with
    the access token found in the page, and no other header; every JSON
    request asks for API version [1.4-private]. *)
Theorem requests_carry_the_token
    (H : host) (url webpage access_token : string) :
  webpage_of H url = Some webpage ->
  html_search H access_token_re webpage = Some access_token ->
  Forall (carries [("Authorization", ("Bearer " ++ access_token)%string)])
    (requests (_real_extract H url)).
Proof.
  intros Hpage Htok. unfold _real_extract.
  apply requests_lift_bind. intros url_id _.
  unfold _download_webpage, _html_search_regex. rewrite Hpage.
  rewrite requests_bind. apply Forall_app. split; [repeat constructor|].
  cbn [outcome fst].
  rewrite requests_bind. apply Forall_app. split.
  { destruct (contains title_marker webpage); constructor. }
  destruct (outcome _); [|constructor].
  rewrite Htok. rewrite requests_bind. cbn [requests ret snd outcome fst app].
  rewrite requests_bind. apply Forall_app. split.
  { destruct (html_search H api_url_re webpage); constructor. }
  destruct (outcome _) as [api_url|]; [|constructor].
  cbv zeta.
  rewrite requests_bind. apply Forall_app. split.
  { constructor; [|constructor]. cbn. split; [reflexivity|]. right. now left. }
  destruct (outcome _) as [video_data|]; [|constructor].
  apply requests_lift_bind. intros api_id _.
  apply requests_lift_bind. intros language _.
  apply requests_lift_bind. intros thumbnails _.
  apply requests_lift_bind. intros playback_urls _.
  apply requests_lift_bind. intros playlists _.
  rewrite requests_bind. apply Forall_app. split; [apply carries_formats_loop|].
  destruct (outcome _) as [formats|]; [|constructor].
  apply requests_lift_bind. intros title _.
  apply requests_lift_bind. intros description _.
  apply requests_lift_bind. intros uploader _.
  apply requests_lift_bind. intros uploader_id _.
  rewrite requests_bind. apply Forall_app.
  split; [apply carries_extract_all_subtitles|].
  destruct (outcome _) as [subs|]; [|constructor].
  repeat (apply requests_lift_bind; intros ? _).
  constructor.
Qed.

Lemma requests_carry_the_token_witness :
  Forall (carries [("Authorization", ("Bearer " ++ Demo.token)%string)])
    (requests (_real_extract Demo2.rich_world Demo.url)).
Proof.
  exact (requests_carry_the_token Demo2.rich_world Demo.url Demo.page Demo.token
           eq_refl eq_refl).
Defined.

(** ** Padding and decoding a thumbnail name (line 84) *)

(** Quotients and remainders by four, for [lia]. *)
Ltac div_fact a :=
  lazymatch goal with
  | _ : a = 4 * (a / 4) + a mod 4 |- _ => fail
  | _ => pose proof (Nat.div_mod_eq a 4);
         pose proof (Nat.mod_upper_bound a 4 (Nat.neq_succ_0 3))
  end.
Ltac div_facts :=
  repeat match goal with
    | |- context [?a mod 4] => div_fact a
    | _ : context [?a mod 4] |- _ => div_fact a
    | |- context [?a / 4] => div_fact a
    | _ : context [?a / 4] |- _ => div_fact a
    end.
Ltac div_lia := div_facts; lia.

Lemma pad_count (n : nat) :
  Z.to_nat ((- Z.of_nat n) mod 4) = (4 - n mod 4) mod 4.
Proof.
  pose proof (Z.div_mod (- Z.of_nat n) 4 ltac:(lia)).
  pose proof (Z.mod_pos_bound (- Z.of_nat n) 4 ltac:(lia)).
  div_lia.
Qed.

Lemma length_replicate (n : nat) (c : ascii) : String.length (replicate n c) = n.
Proof. induction n as [|n IH]; cbn; [reflexivity | now rewrite IH]. Qed.

Lemma list_ascii_of_append (a b : string) :
  list_ascii_of_string (a ++ b) = list_ascii_of_string a ++ list_ascii_of_string b.
Proof. induction a as [|c a IH]; cbn; [reflexivity | now rewrite IH]. Qed.

Lemma list_ascii_of_replicate (n : nat) (c : ascii) :
  list_ascii_of_string (replicate n c) = repeat c n.
Proof. induction n as [|n IH]; cbn; [reflexivity | now rewrite IH]. Qed.

Lemma length_list_ascii (s : string) :
  List.length (list_ascii_of_string s) = String.length s.
Proof. induction s as [|c s IH]; cbn; [reflexivity | now rewrite IH]. Qed.

Lemma b64_not_pad (c : ascii) : is_b64 c = true -> is_pad c = false.
Proof. each_char c; intros Hc; try discriminate Hc; reflexivity. Qed.

Lemma b64_is_ascii (c : ascii) : is_b64 c = true -> is_ascii c = true.
Proof. each_char c; intros Hc; try discriminate Hc; reflexivity. Qed.

(** Decoding a run of [n] data characters moves the position in the
    group of four by [n] and leaves [3 * (n / 4)] bytes and, in the
    current group, one byte less than data characters. *)
Lemma a2b_base64_data (data : list ascii) :
  forallb is_b64 data = true ->
  forall (seen : nat) (leftchar : N) (out rest : list ascii),
    List.length out = 3 * (seen / 4) + pred (seen mod 4) ->
    exists leftchar' out',
      a2b_base64_loop (data ++ rest) (seen mod 4) leftchar 0 out
      = a2b_base64_loop rest ((seen + List.length data) mod 4) leftchar' 0 out'
      /\ List.length out'
         = 3 * ((seen + List.length data) / 4) + pred ((seen + List.length data) mod 4).
Proof.
  induction data as [|c data IH]; intros Hall seen leftchar out rest Hout.
  - exists leftchar, out. cbn [app List.length]. now rewrite Nat.add_0_r.
  - cbn [forallb] in Hall. apply andb_true_iff in Hall. destruct Hall as [Hc Hall].
    cbn [app List.length a2b_base64_loop]. rewrite (b64_not_pad _ Hc).
    unfold is_b64 in Hc. destruct (b64_index c) as [v|]; [|discriminate].
    replace (seen + S (List.length data)) with (S seen + List.length data) by div_lia.
    assert (Hcases : seen mod 4 = 0 \/ seen mod 4 = 1 \/ seen mod 4 = 2 \/ seen mod 4 = 3)
      by div_lia.
    destruct Hcases as [Hq | [Hq | [Hq | Hq]]]; rewrite Hq.
    + assert (Hq' : S seen mod 4 = 1) by div_lia.
      destruct (IH Hall (S seen) v out rest) as (l' & out' & Hloop & Hlen);
        [div_lia|]. rewrite Hq' in Hloop. now exists l', out'.
    + assert (Hq' : S seen mod 4 = 2) by div_lia.
      match goal with
      | |- context [a2b_base64_loop _ 2 ?l 0 ?o] =>
          destruct (IH Hall (S seen) l o rest) as (l' & out' & Hloop & Hlen);
            [cbn [List.length]; div_lia|]
      end.
      rewrite Hq' in Hloop. now exists l', out'.
    + assert (Hq' : S seen mod 4 = 3) by div_lia.
      match goal with
      | |- context [a2b_base64_loop _ 3 ?l 0 ?o] =>
          destruct (IH Hall (S seen) l o rest) as (l' & out' & Hloop & Hlen);
            [cbn [List.length]; div_lia|]
      end.
      rewrite Hq' in Hloop. now exists l', out'.
    + assert (Hq' : S seen mod 4 = 0) by div_lia.
      match goal with
      | |- context [a2b_base64_loop _ 0 ?l 0 ?o] =>
          destruct (IH Hall (S seen) l o rest) as (l' & out' & Hloop & Hlen);
            [cbn [List.length]; div_lia|]
      end.
      rewrite Hq' in Hloop. now exists l', out'.
Qed.

(** X14. The name of a thumbnail is padded with at most three [=] to a
    length that is a multiple of four.  For a name made of characters
    of the base64 alphabet, decoding the padded name fails exactly when
    the name is one character longer than a multiple of four, and else
    gives three bytes for every four characters, rounded down. *)
Theorem padded_name_decodes (name : string) :
  (exists pads, pads <= 3 /\ pad4 name = (name ++ replicate pads "=")%string)
  /\ String.length (pad4 name) mod 4 = 0
  /\ (forallb is_b64 (list_ascii_of_string name) = true ->
      (String.length name mod 4 = 1 -> b64decode (pad4 name) = Raise BinasciiError)
      /\ (String.length name mod 4 <> 1 ->
          exists decoded,
            b64decode (pad4 name) = Ok decoded
            /\ List.length decoded = 3 * String.length name / 4)).
Proof.
  unfold pad4. rewrite pad_count. set (n := String.length name).
  split; [|split].
  - exists ((4 - n mod 4) mod 4). split; [div_lia | reflexivity].
  - rewrite length_append, length_replicate. fold n. div_lia.
  - intros Hall. unfold b64decode.
    rewrite list_ascii_of_append, list_ascii_of_replicate.
    assert (Hascii : forallb is_ascii
                       (list_ascii_of_string name ++ repeat "="%char ((4 - n mod 4) mod 4))
                     = true).
    { rewrite forallb_app. apply andb_true_iff. split.
      - rewrite forallb_forall in *. intros c Hc. now apply b64_is_ascii, Hall.
      - rewrite forallb_forall. intros c Hc. apply repeat_spec in Hc. now subst c. }
    rewrite Hascii. unfold a2b_base64.
    destruct (a2b_base64_data _ Hall 0 0%N [] (repeat "="%char ((4 - n mod 4) mod 4))
                eq_refl) as (leftchar & out & Hloop & Hout).
    change (0 mod 4) with 0 in Hloop. rewrite Hloop. clear Hloop.
    rewrite length_list_ascii in Hout |- *. fold n in Hout |- *.
    cbn [Nat.add] in *.
    assert (Hcases : n mod 4 = 0 \/ n mod 4 = 1 \/ n mod 4 = 2 \/ n mod 4 = 3) by div_lia.
    assert (Hend : forall q pads,
               (q = 0 /\ pads = 0) \/ (q = 2 /\ pads = 2) \/ (q = 3 /\ pads = 1) ->
               a2b_base64_loop (repeat "="%char pads) q leftchar 0 out = Ok (rev out))
      by (intros q pads [[-> ->] | [[-> ->] | [-> ->]]]; reflexivity).
    split.
    + intros Hone. rewrite Hone. reflexivity.
    + intros Hnot. exists (rev out). rewrite length_rev. split; [|div_lia].
      apply Hend. div_lia.
Qed.

(** ** When the loops fail *)

Lemma add_track_raises (maps : sub_maps) (track : value) (e : exn) :
  add_track maps track = Raise e ->
  track_ok track = false /\ (e = AttributeError \/ e = TypeError).
Proof.
  destruct maps as [s a]. destruct track as [| | | | |d];
    try (intros [= <-]; split; [reflexivity | now left]).
  unfold track_ok, kept, track_field, add_track, get_method, getitem.
  destruct (dict_get (key "language") d) as [language|];
    cbn [rbind truthy negb andb orb]; [|discriminate].
  destruct (truthy language); cbn [negb andb orb]; [|discriminate].
  destruct (dict_get (key "url") d) as [url|]; cbn [rbind truthy negb andb orb];
    [|discriminate].
  destruct (truthy url); cbn [negb orb]; [|discriminate].
  destruct (hashable language);
    destruct (dict_get (key "autoGenerated") d) as [auto|]; cbn [rbind negb];
    try destruct (truthy auto); try discriminate;
    (intros [= <-]; split; [reflexivity | now right]).
Qed.

Lemma add_tracks_outcome (tracks : list value) :
  forall maps,
    match add_tracks maps tracks with
    | Ok _ => forallb track_ok tracks = true
    | Raise e => forallb track_ok tracks = false
                 /\ (e = AttributeError \/ e = TypeError)
    end.
Proof.
  induction tracks as [|track rest IH]; intros maps; cbn [add_tracks forallb];
    [reflexivity|].
  destruct (add_track maps track) as [maps'|e] eqn:E; cbn [rbind].
  - rewrite (add_track_ok_inv _ _ _ E). cbn [andb]. apply IH.
  - apply add_track_raises in E. destruct E as [-> He]. now split.
Qed.

(** X15. The text-track loop ends well exactly when every track is a
    JSON object whose language, if the track has a language and a URL,
    can be a dict key (is not a list or an object).  A track that is
    not an object ends it with an [AttributeError], a language that
    cannot be a key with a [TypeError]; it raises nothing else. *)
Theorem tracks_loop_succeeds_iff (tracks : list value) :
  ((exists maps, add_tracks ([], []) tracks = Ok maps)
   <-> forallb track_ok tracks = true)
  /\ (forall e, add_tracks ([], []) tracks = Raise e ->
                e = AttributeError \/ e = TypeError)
  /\ (forall track, track_ok track = true
                    <-> exists d, track = VDict d
                                  /\ (kept track = true ->
                                      hashable (track_field "language" track) = true)).
Proof.
  assert (Hout := add_tracks_outcome tracks ([], [])).
  split; [|split].
  - destruct (add_tracks ([], []) tracks) as [maps|e].
    + split; [now intros _ | intros _; now exists maps].
    + destruct Hout as [Hno _]. split; [intros [maps [=]] | congruence].
  - intros e He. rewrite He in Hout. now destruct Hout.
  - intros track. unfold track_ok. destruct track as [| | | | |d];
      try (split; [discriminate | intros (d & [=] & _)]).
    split.
    + intros Hok. exists d. split; [reflexivity|]. intros Hk.
      rewrite Hk in Hok. exact Hok.
    + intros (d' & _ & Hh). destruct (kept (VDict d)); [|reflexivity].
      now rewrite Hh.
Qed.

Lemma a2b_base64_loop_raises (data : list ascii) :
  forall quad_pos leftchar pads out e,
    a2b_base64_loop data quad_pos leftchar pads out = Raise e -> e = BinasciiError.
Proof.
  induction data as [|c data IH]; intros quad_pos leftchar pads out e;
    cbn [a2b_base64_loop].
  - destruct quad_pos; [discriminate | now intros [= <-]].
  - destruct (is_pad c).
    + destruct (2 <=? quad_pos)%nat; [|apply IH].
      destruct (4 <=? quad_pos + S pads)%nat; [discriminate | apply IH].
    + destruct (b64_index c) as [v|]; [|apply IH].
      destruct quad_pos as [|[|[|q]]]; apply IH.
Qed.

Lemma b64decode_raises (s : string) (e : exn) :
  b64decode s = Raise e -> e = BinasciiError \/ e = ValueError.
Proof.
  unfold b64decode, a2b_base64. destruct (forallb is_ascii _).
  - intros He. left. now apply a2b_base64_loop_raises in He.
  - intros [= <-]. now right.
Qed.

(** One round of the thumbnail loop, by the decoding of the name. *)
Lemma thumbnail_by_name (H : host) (video_data : value) (label : string) :
  if has_poster video_data label then
    match decoded_name H video_data label with
    | Ok _ => exists thumb, thumbnail H video_data label = Ok (Some thumb)
    | Raise e => thumbnail H video_data label = Raise e
                 /\ (e = BinasciiError \/ e = ValueError)
    end
  else thumbnail H video_data label = Ok None.
Proof.
  unfold has_poster, decoded_name, thumbnail.
  destruct (poster_of_shape video_data label) as (v & -> & -> & Hv).
  cbn [rbind]. destruct Hv as [-> | [url ->]]; [reflexivity|].
  destruct (truthy (VStr url)); cbn [negb]; [|reflexivity].
  destruct (b64decode _) as [decoded|e] eqn:E; cbn [rbind].
  - eexists. reflexivity.
  - split; [reflexivity | now apply b64decode_raises in E].
Qed.

Lemma thumbnails_loop_raises (H : host) (video_data : value) (labels : list string)
    (label : string) (e : exn) :
  In label labels ->
  has_poster video_data label = true ->
  decoded_name H video_data label = Raise e ->
  forall acc, exists e',
    thumbnails_loop H video_data labels acc = Raise e'
    /\ (e' = BinasciiError \/ e' = ValueError).
Proof.
  intros Hin Hposter Hname.
  induction labels as [|l rest IH]; intros acc; [destruct Hin|].
  cbn [thumbnails_loop].
  assert (Hstep := thumbnail_by_name H video_data l).
  destruct Hin as [-> | Hin].
  - rewrite Hposter, Hname in Hstep. destruct Hstep as [-> He]. now exists e.
  - destruct (has_poster video_data l).
    + destruct (decoded_name H video_data l) as [decoded|e1].
      * destruct Hstep as [thumb ->]. cbn [rbind]. now apply IH.
      * destruct Hstep as [-> He]. now exists e1.
    + rewrite Hstep. cbn [rbind]. now apply IH.
Qed.

(** X16. When the name in the URL of one of the four poster images does
    not decode, the extraction ends with the decoding error (a
    [binascii.Error], or a [ValueError] for a name that is not ASCII)
    right after the video-metadata request: no manifest is resolved and
    no text track is asked for, whatever the playlist and the options. *)
Theorem bad_thumbnail_name_stops_the_run
    (H : host) url url_id api_url access_token d label e :
  reaches_video H url url_id api_url access_token (VDict d) ->
  In label ["extraSmall"; "small"; "medium"; "large"] ->
  has_poster (VDict d) label = true ->
  decoded_name H (VDict d) label = Raise e ->
  exists e',
    _real_extract H url
    = (Raise e',
       [GetWebpage url;
        GetJson (video_url api_url url_id) video_query (bearer access_token)])
    /\ (e' = BinasciiError \/ e' = ValueError).
Proof.
  intros Hreach Hin Hposter Hname.
  destruct (thumbnails_loop_raises H (VDict d) thumbnail_ids label e Hin Hposter Hname [])
    as (e' & Hloop & He').
  exists e'. split; [|exact He'].
  rewrite (real_extract_from_video _ _ _ _ _ _ Hreach).
  unfold extract_from.
  rewrite (bind_lift_ok _ _ _ (get_method_field d "id")).
  rewrite (bind_lift_ok _ _ _ (get_method_field d "language")).
  now rewrite (bind_lift_raise _ _ _ Hloop).
Qed.

Lemma bad_thumb_world_reaches_video :
  reaches_video Demo3.bad_thumb_world Demo.url Demo.url_id Demo.api_url Demo.token
    (VDict Demo3.bad_thumb_items).
Proof. exists Demo.page. repeat split; reflexivity. Qed.

Lemma bad_thumbnail_name_stops_the_run_witness :
  exists e',
    _real_extract Demo3.bad_thumb_world Demo.url
    = (Raise e',
       [GetWebpage Demo.url;
        GetJson (video_url Demo.api_url Demo.url_id) video_query (bearer Demo.token)])
    /\ (e' = BinasciiError \/ e' = ValueError).
Proof.
  apply (bad_thumbnail_name_stops_the_run Demo3.bad_thumb_world Demo.url Demo.url_id
           Demo.api_url Demo.token Demo3.bad_thumb_items "small" BinasciiError).
  - exact bad_thumb_world_reaches_video.
  - right. now left.
  - reflexivity.
  - reflexivity.
Defined.
